(** * MovieLog: build-time merger, CMS snapshot step, OMDB proxy and
      client-side cache

    A shallow embedding of the JavaScript programs of the repository:

    - [fetch-cms-data.js]  (module [FetchCms]): pre-fetches the Contentful
      entries and writes [_data/cmsData.json];
    - [eleventy.config.js] (module [Eleventy]): the [allMovies] and
      [movies] collections and the [limit] and [reverse] filters;
    - [_data/allMoviesList.js] (module [AllMoviesList]): the global data
      file; module [Build] chains the snapshot step and the collection;
    - [netlify/functions/movie.js] (module [MovieFn]): the OMDB proxy;
    - [js/live.js] (module [Live]): the in-page cache and renderer.

    JavaScript objects read from JSON become records whose fields are
    [option]s ([None] is [undefined], i.e. the key is absent); objects used
    as dictionaries become [gmap string _]; [try]/[catch] becomes a sum of
    normal and abrupt completion threaded through an explicit world. *)

From Stdlib Require Import ZArith Lia Permutation Sorted QArith Qcanon Ascii.
From stdpp Require Import base option list strings numbers pretty gmap fin_maps.

Local Open Scope string_scope.
Local Open Scope list_scope.
Local Open Scope Z_scope.

(** ** JavaScript values, as far as the four programs look at them *)
Module Js.

(** [ToBoolean] on a string: only the empty string is falsy. *)
Definition truthy_str (s : string) : bool :=
  if decide (s = EmptyString) then false else true.

(** [ToBoolean] on an integer-valued number: only [0] is falsy. *)
Definition truthy_num (z : Z) : bool :=
  if decide (z = 0) then false else true.

(** [v || d] where [v] is a possibly absent string. *)
Definition str_or (v : option string) (d : string) : string :=
  match v with
  | Some s => if truthy_str s then s else d
  | None => d
  end.

(** [v || d] where [v] is a possibly absent integer. *)
Definition num_or (v : option Z) (d : Z) : Z :=
  match v with
  | Some z => if truthy_num z then z else d
  | None => d
  end.

(** [!v] where [v] is a possibly absent string. *)
Definition not_str (v : option string) : bool :=
  match v with
  | Some s => negb (truthy_str s)
  | None => true
  end.

(** [Array.prototype.sort(cmp)].  ECMAScript (2019 and later) requires the
    sort to be stable; for a consistent comparator the result is then
    determined, and a stable insertion sort computes it.  [x] is placed
    in front of the first [y] that does not have to precede it. *)
Section Sort.
Context {A : Type} (cmp : A -> A -> Z).

Fixpoint insert_sorted (x : A) (l : list A) : list A :=
  match l with
  | [] => [x]
  | y :: l' => if 0 <? cmp x y then y :: insert_sorted x l' else x :: y :: l'
  end.

Definition Array_sort (l : list A) : list A := foldr insert_sorted [] l.
End Sort.

(** A list in descending order of [key]: every element's key is at least
    the key of every later element. *)
Definition descending {A} (key : A -> Z) : list A -> Prop :=
  StronglySorted (fun a b => key b <= key a).

(** The comparator [(a, b) => key(b) - key(a)]. *)
Definition byKeyDesc {A} (key : A -> Z) (a b : A) : Z := key b - key a.

(** [String.prototype.includes]. *)
Fixpoint includes (s sub : string) : bool :=
  if String.prefix sub s then true
  else match s with
       | EmptyString => false
       | String _ s' => includes s' sub
       end.

(** [encodeURIComponent] on a string held as its UTF-8 bytes: the
    unreserved characters [A-Z a-z 0-9 - _ . ! ~ * ' ( )] stay, every
    other byte becomes [%XX] with upper-case hexadecimal digits. *)
Definition hexDigit (n : N) : ascii :=
  ascii_of_N (if (n <? 10)%N then 48 + n else 55 + n)%N.

Definition unreserved (c : ascii) : bool :=
  let n := N_of_ascii c in
  ((65 <=? n) && (n <=? 90) || (97 <=? n) && (n <=? 122)
   || (48 <=? n) && (n <=? 57)
   || bool_decide (n ∈ [45; 95; 46; 33; 126; 42; 39; 40; 41]))%N.

Fixpoint encodeURIComponent (s : string) : string :=
  match s with
  | EmptyString => EmptyString
  | String c s' =>
      if unreserved c then String c (encodeURIComponent s')
      else let n := N_of_ascii c in
           String "%" (String (hexDigit (n / 16)) (String (hexDigit (n mod 16))
             (encodeURIComponent s')))
  end.

(** A string between double quotes, as the messages print titles. *)
Definition quoted (s : string) : string :=
  String (ascii_of_nat 34) (s +:+ String (ascii_of_nat 34) EmptyString).

(** *** Plain objects used as dictionaries

    An object literal [{}] inherits from [Object.prototype], and its
    [__proto__] key is an accessor for the prototype, never an own
    property.  A [gmap] holds the members [obj[k]] finds for the keys
    assigned; the operations below say what the accessor does. *)

(** [obj[k] = v] for a string [v]: the [__proto__] setter ignores a value
    that is not an object, so nothing is stored under that key. *)
Definition set_string (k v : string) (obj : gmap string string)
  : gmap string string :=
  if decide (k = "__proto__") then obj else <[k := v]> obj.

(** The names under which every plain object finds a member of
    [Object.prototype]: its methods, and the accessor [__proto__]. *)
Definition objectPrototypeKeys : list string :=
  ["constructor"; "__defineGetter__"; "__defineSetter__"; "hasOwnProperty";
   "__lookupGetter__"; "__lookupSetter__"; "isPrototypeOf";
   "propertyIsEnumerable"; "toString"; "valueOf"; "toLocaleString";
   "__proto__"].

(** The property key a possibly undefined string stands for in [obj[v]]. *)
Definition property_key (v : option string) : string := default "undefined" v.

(** [delete obj[k]]: an own property goes; for [__proto__] there is none
    (an object assigned to it became the prototype), so nothing goes. *)
Definition delete_property {V} (k : string) (obj : gmap string V)
  : gmap string V :=
  if decide (k = "__proto__") then obj else delete k obj.

(** Template-literal interpolation of a number. *)
Definition num_str (z : Z) : string := pretty z.

(** *** Completions: [try] / [throw] / [catch]

    An abrupt completion carries [error.message], the only part of a
    thrown value the programs read. *)
Inductive Completion (A : Type) :=
| Normal (a : A)
| Throw (message : string).
Arguments Normal {A} a.
Arguments Throw {A} message.

(** A computation over a world [W] that may throw. *)
Definition Eff (W A : Type) : Type := W -> Completion A * W.

Definition ret {W A} (a : A) : Eff W A := fun w => (Normal a, w).
Definition throw {W A} (m : string) : Eff W A := fun w => (Throw m, w).
Definition bind {W A B} (c : Eff W A) (k : A -> Eff W B) : Eff W B :=
  fun w => match c w with
           | (Normal a, w') => k a w'
           | (Throw m, w') => (Throw m, w')
           end.
(** [try { c } catch (error) { h error.message }] *)
Definition try_catch {W A} (c : Eff W A) (h : string -> Eff W A) : Eff W A :=
  fun w => match c w with
           | (Normal a, w') => (Normal a, w')
           | (Throw m, w') => h m w'
           end.
Definition modify {W} (f : W -> W) : Eff W unit := fun w => (Normal tt, f w).
Definition lift {W A} (c : Completion A) : Eff W A := fun w => (c, w).

(** [xs.map(f)] when [f] may throw: left to right, stopping at the first
    abrupt completion. *)
Fixpoint mapC {A B} (f : A -> Completion B) (xs : list A) : Completion (list B) :=
  match xs with
  | [] => Normal []
  | x :: xs' =>
      match f x with
      | Throw m => Throw m
      | Normal y =>
          match mapC f xs' with
          | Throw m => Throw m
          | Normal ys => Normal (y :: ys)
          end
      end
  end.

(** *** The console *)
Inductive Level := LLog | LWarn | LError.
Definition LogLine : Type := Level * list string.

(** *** [fetch]

    What a call of [fetch(url)] comes back with: the promise rejects
    (network failure), or it resolves to a response with a status, a
    [content-type] header and a body that [response.json()] parses into a
    [B] or rejects. *)
Record Response (B : Type) := {
  status : Z;
  content_type : option string;
  json : Completion B
}.
Arguments status {B} _.
Arguments content_type {B} _.
Arguments json {B} _.

Inductive FetchResult (B : Type) :=
| Rejected (message : string)
| Resolved (r : Response B).
Arguments Rejected {B} message.
Arguments Resolved {B} r.

(** [response.ok]: the status is in the range 200-299. *)
Definition ok {B} (r : Response B) : bool :=
  (200 <=? status r) && (status r <=? 299).

End Js.

Declare Scope eff_scope.
Delimit Scope eff_scope with eff.
Notation "x <- c ;; k" := (Js.bind c (fun x => k))
  (at level 100, c at next level, right associativity) : eff_scope.
Notation "c ;; k" := (Js.bind c (fun _ => k))
  (at level 100, right associativity) : eff_scope.

(** ** fetch-cms-data.js: the snapshot step *)
Module FetchCms.
Import Js.
Local Open Scope eff_scope.

(** *** The Contentful response, as far as the script reads it *)

(** [asset.fields.file]: its [url] and its nested [file.url]. *)
Record FileObj := {
  file_url : option string;
  file_file_url : option string
}.
Record AssetFields := { file : option FileObj }.

(** A [sys] object: an entry's, an asset's or a link's. *)
Record Sys := {
  sys_id : option string;
  sys_createdAt : option string;
  sys_updatedAt : option string
}.

Record Asset := {
  asset_sys : option Sys;
  asset_fields : option AssetFields
}.

(** An element of [fields.poster]: a link, read through [.sys.id]. *)
Record Link := { link_sys : option Sys }.

Record Fields := {
  f_title : option string;
  f_director : option string;
  f_releaseYear : option Z;
  f_genre : option string;
  f_rating : option Qc;
  f_description : option string;
  f_poster : option (list Link)     (* [None]: absent, or not an array *)
}.
Record Entry := {
  sys : option Sys;
  fields : option Fields
}.
Record Data := {
  items : option (list Entry);
  includes_Asset : option (list Asset)   (* [data.includes?.Asset] *)
}.

(** *** The records written to the snapshot

    [id], [poster], [createdAt] and [updatedAt] may be [undefined];
    [JSON.stringify] then leaves the key out. *)

(** What a [poster] that is not left out holds: a url, or
    [Object.prototype] itself (written as [{}]), which is what
    [assets["__proto__"]] evaluates to. *)
Inductive PosterValue :=
| Url (s : string)
| ObjectPrototype.
Coercion Url : string >-> PosterValue.

Record Movie := {
  id : option string;
  title : string;
  director : string;
  releaseYear : Z;
  genre : string;
  rating : Qc;
  description : string;
  poster : option PosterValue;
  source : string;
  createdAt : option string;
  updatedAt : option string
}.

(** The value handed to [JSON.stringify] and written to the file. *)
Record Snapshot := { movies : list Movie }.

Definition emptySnapshot : Snapshot := {| movies := [] |}.

(** *** The world the script runs in *)
Record World := {
  console : list LogLine;
  requests : list string;            (* the urls [fetch] was called with *)
  files : gmap string Snapshot       (* the files written, by path *)
}.

Record Env := {
  CONTENTFUL_SPACE_ID : option string;
  CONTENTFUL_ACCESS_TOKEN : option string
}.

Definition console_call (l : Level) (args : list string) : Eff World unit :=
  modify (fun w => {| console := console w ++ [(l, args)];
                      requests := requests w; files := files w |}).

(** [fs.writeFileSync(path, JSON.stringify(s, null, 2))]: the file is
    replaced as a whole; the write itself is taken to succeed. *)
Definition writeFileSync (path : string) (s : Snapshot) : Eff World unit :=
  modify (fun w => {| console := console w; requests := requests w;
                      files := <[path := s]> (files w) |}).

(** [await fetch(url)]: the call is recorded, its outcome comes from the
    network [net]. *)
Definition fetch (net : string -> FetchResult Data) (url : string)
  : Eff World (Response Data) :=
  fun w =>
    let w' := {| console := console w; requests := requests w ++ [url];
                 files := files w |} in
    match net url with
    | Rejected m => (Throw m, w')
    | Resolved r => (Normal r, w')
    end.

(** [path.join(__dirname, "_data", "cmsData.json")], relative to the
    script's directory. *)
Definition cmsDataPath : string := "_data/cmsData.json".

Definition placeholder : string := "https://via.placeholder.com/300x450".

(** [asset.fields.file?.url || asset.fields.file?.file?.url] *)
Definition fileUrl (af : AssetFields) : option string :=
  let a := file af ≫= file_url in
  let b := file af ≫= file_file_url in
  match a with
  | Some s => if truthy_str s then Some s else b
  | None => b
  end.

(** [assets[asset.sys.id] = `https:${fileUrl}`]: [asset.sys] is read
    first, and the assignment goes to the plain object [assets]. *)
Definition storeUrl (assets : gmap string string) (asset : Asset) (u : string)
  : Completion (gmap string string) :=
  match asset_sys asset with
  | None => Throw "Cannot read properties of undefined (reading 'id')"
  | Some s =>
      Normal (set_string (property_key (sys_id s)) ("https:" +:+ u) assets)
  end.

(** One round of the [forEach] over [data.includes.Asset]. *)
Definition addAsset (assets : gmap string string) (asset : Asset)
  : Completion (gmap string string) :=
  match asset_fields asset with
  | None => Throw "Cannot read properties of undefined (reading 'file')"
  | Some af =>
      match fileUrl af with
      | Some u => if truthy_str u then storeUrl assets asset u else Normal assets
      | None => Normal assets
      end
  end.

Fixpoint addAssets (assets : gmap string string) (l : list Asset)
  : Completion (gmap string string) :=
  match l with
  | [] => Normal assets
  | a :: l' =>
      match addAsset assets a with
      | Throw m => Throw m
      | Normal assets' => addAssets assets' l'
      end
  end.

(** The asset table: [{}] filled from [data.includes?.Asset], if present. *)
Definition buildAssets (data : Data) : Completion (gmap string string) :=
  match includes_Asset data with
  | Some l => addAssets ∅ l
  | None => Normal ∅
  end.

(** [posterId]: [null], or [fields.poster[0].sys.id] for a non-empty
    poster array, which throws when the link has no [sys]. *)
Definition posterId (f : Fields) : Completion (option string) :=
  match f_poster f with
  | Some (l :: _) =>
      match link_sys l with
      | None => Throw "Cannot read properties of undefined (reading 'id')"
      | Some s => Normal (sys_id s)
      end
  | _ => Normal None
  end.

(** [assets[posterId]] on the plain object [assets]: the url stored under
    the id; failing that, [Object.prototype] for [__proto__]; and otherwise
    [undefined], or for the name of a method of [Object.prototype]
    ([constructor], [toString], ...) that method, a function, which
    [JSON.stringify] leaves out of the record just like [undefined]. *)
Definition lookupAsset (assets : gmap string string) (i : string)
  : option PosterValue :=
  match assets !! i with
  | Some u => Some (Url u)
  | None => if decide (i = "__proto__") then Some ObjectPrototype else None
  end.

(** [v || 0] on a possibly absent number. *)
Definition rating_or_0 (v : option Qc) : Qc :=
  match v with
  | Some q => if decide (q = 0%Qc) then 0%Qc else q
  | None => 0%Qc
  end.

(** The callback of [data.items.map]. *)
Definition toMovie (assets : gmap string string) (item : Entry) : Completion Movie :=
  match fields item with
  | None => Throw "Cannot read properties of undefined (reading 'poster')"
  | Some f =>
      match posterId f with
      | Throw m => Throw m
      | Normal posterId_ =>
          match sys item with
          | None => Throw "Cannot read properties of undefined (reading 'id')"
          | Some s =>
              Normal
                {| id := sys_id s;
                   title := str_or (f_title f) "Untitled";
                   director := str_or (f_director f) "Unknown";
                   releaseYear := num_or (f_releaseYear f) 0;
                   genre := str_or (f_genre f) "Unknown";
                   rating := rating_or_0 (f_rating f);
                   description := str_or (f_description f) EmptyString;
                   poster := match posterId_ with
                             | Some i => if truthy_str i
                                         then lookupAsset assets i
                                         else Some (Url placeholder)
                             | None => Some (Url placeholder)
                             end;
                   source := "contentful";
                   createdAt := sys_createdAt s;
                   updatedAt := sys_updatedAt s |}
          end
      end
  end.

(** From the parsed body to the [movies] array. *)
Definition normalize (data : Data) : Completion (list Movie) :=
  match buildAssets data with
  | Throw m => Throw m
  | Normal assets =>
      match items data with
      | None => Throw "Cannot read properties of undefined (reading 'map')"
      | Some l => mapC (toMovie assets) l
      end
  end.

Definition entriesUrl (SPACE_ID ACCESS_TOKEN : string) : string :=
  "https://cdn.contentful.com/spaces/" +:+ SPACE_ID
  +:+ "/environments/master/entries?content_type=movie&include=2&access_token="
  +:+ ACCESS_TOKEN.

(** The body of the [try] block. *)
Definition tryBlock (net : string -> FetchResult Data)
    (SPACE_ID ACCESS_TOKEN : string) : Eff World unit :=
  console_call LLog ["🎬 Fetching movies from Contentful..."] ;;
  response <- fetch net (entriesUrl SPACE_ID ACCESS_TOKEN) ;;
  (if negb (ok response)
   then throw ("Contentful API Error: " +:+ num_str (status response))
   else ret tt) ;;
  data <- lift (json response) ;;
  movies <- lift (normalize data) ;;
  console_call LLog ["✅ Loaded " +:+ num_str (Z.of_nat (length movies))
                     +:+ " movies from Contentful"] ;;
  writeFileSync cmsDataPath {| movies := movies |} ;;
  console_call LLog ["💾 Saved CMS data to " +:+ cmsDataPath].

(** The [catch (error)] block. *)
Definition catchBlock (message : string) : Eff World unit :=
  console_call LError ["❌ Error loading Contentful data:"; message] ;;
  console_call LWarn ["   Creating empty cmsData.json file..."] ;;
  writeFileSync cmsDataPath emptySnapshot.

Definition fetchContentfulData (env : Env) (net : string -> FetchResult Data)
  : Eff World unit :=
  console_call LLog ["🔍 Checking Contentful credentials..."] ;;
  if not_str (CONTENTFUL_SPACE_ID env) || not_str (CONTENTFUL_ACCESS_TOKEN env)
  then
    console_call LWarn ["⚠️  Missing Contentful environment variables!"] ;;
    console_call LWarn ["   Creating empty cmsData.json file..."] ;;
    writeFileSync cmsDataPath emptySnapshot
  else
    try_catch
      (tryBlock net (default EmptyString (CONTENTFUL_SPACE_ID env))
                    (default EmptyString (CONTENTFUL_ACCESS_TOKEN env)))
      catchBlock.

End FetchCms.

(** ** eleventy.config.js: the [allMovies] collection *)
Module Eleventy.
Import Js.

(** The nested [data] object the comparator looks into ([a.data?.releaseYear]). *)
Record DataObj := { d_releaseYear : option Z }.

(** An element of the merged collection: the fields the collection
    callback reads or writes.  A record read from [cmsData.json] and a
    mapped markdown item are both plain objects of this shape. *)
Record Movie := {
  id : option string;
  title : option string;
  releaseYear : option Z;
  source : option string;
  data : option DataObj;
  url : option string
}.

(** What [fs.existsSync] / [fs.readFileSync] / [JSON.parse] find at
    [_data/cmsData.json]. *)
Inductive SnapshotFile :=
| Absent                                  (* existsSync is false *)
| Unparsable                              (* JSON.parse (or the read) throws *)
| Parsed (movies : option (list Movie)).  (* cmsData, with cmsData.movies *)

(** [cmsMovies]: stays [[]] when the file is absent or the [try] block
    throws; otherwise [cmsData.movies || []].  The [collection-debug.json]
    diagnostics written on the way carry a wall-clock timestamp and do
    not feed the returned collection. *)
Definition cmsMovies (f : SnapshotFile) : list Movie :=
  match f with
  | Absent => []
  | Unparsable => []
  | Parsed (Some ms) => ms
  | Parsed None => []
  end.

(** A template item as [collectionApi.getFilteredByGlob] yields it:
    [item.data] is the front matter, itself an object with the same
    optional keys. *)
Record Item := {
  item_data : Movie;
  fileSlug : string;
  item_url : string
}.

(** [{...item.data, id: item.page.fileSlug,
      source: item.data.source || "local", page, url, date}] *)
Definition localMovie (item : Item) : Movie :=
  {| id := Some (fileSlug item);
     title := title (item_data item);
     releaseYear := releaseYear (item_data item);
     source := Some (str_or (source (item_data item)) "local");
     data := data (item_data item);
     url := Some (item_url item) |}.

Definition localMovies (items : list Item) : list Movie :=
  map localMovie items.

(** [a.releaseYear || a.data?.releaseYear || 0] *)
Definition yearOf (a : Movie) : Z :=
  num_or (releaseYear a) (num_or (data a ≫= d_releaseYear) 0).

(** The comparator: [yearB - yearA]. *)
Definition byYearDesc (a b : Movie) : Z := yearOf b - yearOf a.

(** The collection callback. *)
Definition allMovies (f : SnapshotFile) (items : list Item) : list Movie :=
  let allMovies := cmsMovies f ++ localMovies items in
  Array_sort byYearDesc allMovies.

(** The reading of the sort key the specification gives: the record's own
    [releaseYear], a missing one counting as [0]. *)
Definition releaseYear_or_0 (a : Movie) : Z := default 0 (releaseYear a).

(** *** The [movies] collection, kept for backward compatibility *)

(** A template item as [collectionApi.getFilteredByTag("movies")] yields
    it: the callback reads [item.data.year] and [item.data.releaseYear]. *)
Record TagData := {
  td_year : option Z;
  td_releaseYear : option Z
}.
Record TagItem := {
  tag_data : TagData;
  tag_fileSlug : string
}.

(** [a.data.year || a.data.releaseYear || 0] *)
Definition tagYear (a : TagItem) : Z :=
  num_or (td_year (tag_data a)) (num_or (td_releaseYear (tag_data a)) 0).

Definition byTagYearDesc (a b : TagItem) : Z := tagYear b - tagYear a.

Definition movies (tagged : list TagItem) : list TagItem :=
  Array_sort byTagYearDesc tagged.

(** *** The filters *)

(** [array.slice(0, end)] for an integer [end]: a negative [end] counts
    from the end of the array, and the bound is clamped to the array. *)
Definition slice_to {A} (array : list A) (end_ : Z) : list A :=
  let len := Z.of_nat (length array) in
  let final := if end_ <? 0 then Z.max (len + end_) 0 else Z.min end_ len in
  take (Z.to_nat final) array.

(** The [limit] filter: [array.slice(0, limit)]. *)
Definition limit {A} (array : list A) (limit_ : Z) : list A :=
  slice_to array limit_.

(** The [reverse] filter: [array.slice().reverse()], a reversed copy. *)
Definition reverse {A} (array : list A) : list A := rev array.

End Eleventy.

(** ** _data/allMoviesList.js: the global data file *)
Module AllMoviesList.
Import Js.

(** The default export: the records of [cmsData.json], or [[]] when the
    file is absent or reading it throws; in the latter case the error goes
    to the console.  The result is paired with the console lines. *)
Definition allMoviesList (f : Eleventy.SnapshotFile)
  : list Eleventy.Movie * list LogLine :=
  match f with
  | Eleventy.Absent => ([], [])
  | Eleventy.Unparsable => ([], [(LError, ["Error reading cmsData.json:"])])
  | Eleventy.Parsed (Some ms) => (ms, [])
  | Eleventy.Parsed None => ([], [])
  end.

End AllMoviesList.

(** ** The build: the snapshot step, then the generation pass *)
Module Build.

(** A snapshot record as [JSON.parse] gives it back to the collection
    callback: the keys the step wrote, and no nested [data]. *)
Definition parsedMovie (m : FetchCms.Movie) : Eleventy.Movie :=
  {| Eleventy.id := FetchCms.id m;
     Eleventy.title := Some (FetchCms.title m);
     Eleventy.releaseYear := Some (FetchCms.releaseYear m);
     Eleventy.source := Some (FetchCms.source m);
     Eleventy.data := None;
     Eleventy.url := None |}.

(** What the generation pass finds at [_data/cmsData.json] in the world
    the snapshot step left. *)
Definition snapshotFile (w : FetchCms.World) : Eleventy.SnapshotFile :=
  match FetchCms.files w !! FetchCms.cmsDataPath with
  | None => Eleventy.Absent
  | Some s => Eleventy.Parsed (Some (parsedMovie <$> FetchCms.movies s))
  end.

(** The records a run of the snapshot step leaves in the snapshot, read
    off the configuration and the network: the converted entries when
    both credentials are there and the request is answered 2xx with a body
    that converts, and none otherwise. *)
Definition written (env : FetchCms.Env)
    (net : string -> Js.FetchResult FetchCms.Data) : list FetchCms.Movie :=
  if Js.not_str (FetchCms.CONTENTFUL_SPACE_ID env)
     || Js.not_str (FetchCms.CONTENTFUL_ACCESS_TOKEN env)
  then []
  else
    match net (FetchCms.entriesUrl
                 (default EmptyString (FetchCms.CONTENTFUL_SPACE_ID env))
                 (default EmptyString (FetchCms.CONTENTFUL_ACCESS_TOKEN env)))
    with
    | Js.Rejected _ => []
    | Js.Resolved r =>
        if Js.ok r then
          match Js.json r with
          | Js.Throw _ => []
          | Js.Normal data =>
              match FetchCms.normalize data with
              | Js.Throw _ => []
              | Js.Normal ms => ms
              end
          end
        else []
    end.

(** [fetch-cms-data.js] followed by the [allMovies] callback. *)
Definition build (env : FetchCms.Env)
    (net : string -> Js.FetchResult FetchCms.Data) (items : list Eleventy.Item)
    (w : FetchCms.World) : list Eleventy.Movie :=
  Eleventy.allMovies
    (snapshotFile (FetchCms.fetchContentfulData env net w).2) items.

End Build.

(** ** netlify/functions/movie.js: the OMDB proxy *)
Module MovieFn.
Import Js.
Local Open Scope eff_scope.

(** The OMDB answer, as far as the handler reads it. *)
Record Omdb := {
  Response_ : option string;     (* [data.Response] *)
  Error : option string;
  Title : option string;
  imdbRating_ : option string;
  Runtime : option string;
  Genre : option string;
  Actors : option string;
  Plot : option string;
  Poster : option string;
  Year : option string;
  Director : option string
}.

(** A property that is [undefined] (dropped by [JSON.stringify]), [null]
    or a string. *)
Inductive Nullable :=
| Undefined
| Null
| Str (s : string).

(** [movieData].  [title] is [data.Title] as it comes, so it may be
    [undefined]. *)
Record MovieData := {
  title : option string;
  imdbRating : string;
  runtime : string;
  genre : string;
  actors : string;
  plot : string;
  poster : Nullable;
  year : string;
  director : string
}.

(** The object handed to [JSON.stringify] for the body; a [details] of
    [None] is [undefined], and the key is then absent from the text. *)
Inductive Body :=
| ErrorBody (error message : string) (details : option string)
| MovieBody (m : MovieData).

Record HttpResponse := {
  statusCode : Z;
  headers : list (string * string);
  body : Body
}.

Record Event := { queryStringParameters : option (gmap string string) }.

Record Env := { NODE_ENV : option string }.

Record World := {
  console : list LogLine;
  requests : list string
}.

Definition console_call (l : Level) (args : list string) : Eff World unit :=
  modify (fun w => {| console := console w ++ [(l, args)];
                      requests := requests w |}).

Definition fetch (net : string -> FetchResult Omdb) (url : string)
  : Eff World (Response Omdb) :=
  fun w =>
    let w' := {| console := console w; requests := requests w ++ [url] |} in
    match net url with
    | Rejected m => (Throw m, w')
    | Resolved r => (Normal r, w')
    end.

Definition jsonHeaders : list (string * string) :=
  [("Content-Type", "application/json"); ("Access-Control-Allow-Origin", "*")].

Definition OMDB_API_KEY : string := "daa92efe".

Definition apiUrl (title : string) : string :=
  "https://www.omdbapi.com/?apikey=" +:+ OMDB_API_KEY +:+ "&t="
  +:+ encodeURIComponent title.

(** [v !== 'N/A' ? v : null] *)
Definition posterOf (v : option string) : Nullable :=
  match v with
  | None => Undefined
  | Some s => if decide (s = "N/A") then Null else Str s
  end.

Definition movieDataOf (data : Omdb) : MovieData :=
  {| title := Title data;
     imdbRating := str_or (imdbRating_ data) "N/A";
     runtime := str_or (Runtime data) "N/A";
     genre := str_or (Genre data) "N/A";
     actors := str_or (Actors data) "N/A";
     plot := str_or (Plot data) "N/A";
     poster := posterOf (Poster data);
     year := str_or (Year data) "N/A";
     director := str_or (Director data) "N/A" |}.

(** [`${v}`] of a possibly undefined string. *)
Definition interp (v : option string) : string := default "undefined" v.

(** The body of the [try] block. *)
Definition tryBlock (net : string -> FetchResult Omdb) (event : Event)
  : Eff World HttpResponse :=
  let title_ := queryStringParameters event ≫= (.!! "title") in
  if not_str title_ then
    ret {| statusCode := 400;
           headers := jsonHeaders;
           body := ErrorBody "Missing required parameter: title"
                     "Please provide a movie title in the query string" None |}
  else
    let title_ := default EmptyString title_ in
    console_call LLog ["Fetching movie data for: " +:+ title_] ;;
    response <- fetch net (apiUrl title_) ;;
    (if negb (ok response)
     then throw ("OMDB API returned status " +:+ num_str (status response))
     else ret tt) ;;
    data <- lift (json response) ;;
    if bool_decide (Response_ data = Some "False") then
      ret {| statusCode := 404;
             headers := jsonHeaders;
             body := ErrorBody "Movie not found"
                       (str_or (Error data) "No movie found with that title")
                       None |}
    else
      let movieData := movieDataOf data in
      console_call LLog ["Successfully fetched data for: "
                         +:+ interp (title movieData)] ;;
      ret {| statusCode := 200;
             headers := jsonHeaders
                        ++ [("Cache-Control", "public, max-age=3600")];
             body := MovieBody movieData |}.

(** The [catch (error)] block. *)
Definition catchBlock (env : Env) (message : string) : Eff World HttpResponse :=
  console_call LError ["Error in movie serverless function:"; message] ;;
  ret {| statusCode := 500;
         headers := jsonHeaders;
         body := ErrorBody "Internal server error"
                   "Failed to fetch movie data. Please try again later."
                   (if bool_decide (NODE_ENV env = Some "development")
                    then Some message else None) |}.

Definition handler (env : Env) (net : string -> FetchResult Omdb) (event : Event)
  : Eff World HttpResponse :=
  try_catch (tryBlock net event) (catchBlock env).

End MovieFn.

(** ** js/live.js: the client cache and renderer *)
Module Live.
Import Js.
Local Open Scope eff_scope.

(** A JSON object answered by the function endpoint, read either as the
    movie data (on a 2xx status) or as the error envelope: the members
    the script reads, which are those the endpoint writes.  Being an
    object it is truthy wherever the script tests it ([if (cachedData)]).

    The string literals of [live.js] are taken byte for byte from the
    file, which holds them as the UTF-8 of characters such as U+00E2
    U+00B3 (before [Loading...]) and U+00E2 U+00AD (before the rating). *)
Record Json := {
  title : option string;
  imdbRating : option string;
  runtime : option string;
  genre : option string;
  actors : option string;
  plot : option string;
  poster : MovieFn.Nullable;
  year : option string;
  director : option string;
  message : option string;
  error : option string
}.

(** An element found by [document.getElementById]: its text and the
    style properties the script sets. *)
Record Element := {
  textContent : string;
  fontStyle : string;
  color : string;
  opacity : string;
  transition : string
}.

(** A value of [liveMovieState]. *)
Record CacheEntry := {
  data : Json;
  timestamp : Z;
  cached : bool
}.

(** The browsing context.  [movieTitle] is what
    [document.querySelector('[data-movie-title]')] followed by
    [getAttribute('data-movie-title')] gives: [None] when no element
    carries the attribute, otherwise the attribute's value.
    [liveMovieState] is the global cache object, a plain object: the map
    holds the entries assigned, under their titles; the entry under
    [__proto__] is the one that assignment made the object's prototype.
    [timers] holds the ids of the elements whose [setTimeout] callback is
    still pending. *)
Record World := {
  movieTitle : option string;
  dom : gmap string Element;
  liveMovieState : gmap string CacheEntry;
  console : list LogLine;
  requests : list string;
  timers : list string;
  now : Z
}.

Definition with_dom (f : gmap string Element -> gmap string Element) (w : World) :=
  {| movieTitle := movieTitle w; dom := f (dom w);
     liveMovieState := liveMovieState w; console := console w;
     requests := requests w; timers := timers w; now := now w |}.

Definition with_state (f : gmap string CacheEntry -> gmap string CacheEntry)
    (w : World) :=
  {| movieTitle := movieTitle w; dom := dom w;
     liveMovieState := f (liveMovieState w); console := console w;
     requests := requests w; timers := timers w; now := now w |}.

Definition with_console (f : list LogLine -> list LogLine) (w : World) :=
  {| movieTitle := movieTitle w; dom := dom w;
     liveMovieState := liveMovieState w; console := f (console w);
     requests := requests w; timers := timers w; now := now w |}.

Definition with_requests (f : list string -> list string) (w : World) :=
  {| movieTitle := movieTitle w; dom := dom w;
     liveMovieState := liveMovieState w; console := console w;
     requests := f (requests w); timers := timers w; now := now w |}.

Definition with_timers (f : list string -> list string) (w : World) :=
  {| movieTitle := movieTitle w; dom := dom w;
     liveMovieState := liveMovieState w; console := console w;
     requests := requests w; timers := f (timers w); now := now w |}.

Definition console_call (l : Level) (args : list string) : Eff World unit :=
  modify (with_console (fun c => c ++ [(l, args)])).

Definition fetch (net : string -> FetchResult Json) (url : string)
  : Eff World (Response Json) :=
  fun w =>
    let w' := with_requests (fun r => r ++ [url]) w in
    match net url with
    | Rejected m => (Throw m, w')
    | Resolved r => (Normal r, w')
    end.

(** *** State management *)

Definition saveToState (title_ : string) (data_ : Json) : Eff World unit :=
  (fun w => modify (with_state
     <[title_ := {| data := data_; timestamp := now w; cached := true |}]>) w) ;;
  console_call LLog ["âœ… Saved " +:+ quoted title_ +:+ " to state cache"].

(** What [liveMovieState[title]] finds when no entry was assigned under
    [title] is a member the object inherits, if [title] names one: a
    method of [Object.prototype] (or, for [__proto__], that object
    itself), or the [data], [timestamp] or [cached] of the entry that
    became the prototype.  The function says whether that member is
    truthy. *)
Definition inheritedTruthy (st : gmap string CacheEntry) (title_ : string)
  : bool :=
  bool_decide (title_ ∈ objectPrototypeKeys)
  || match st !! "__proto__" with
     | Some e =>
         bool_decide (title_ = "data")
         || (bool_decide (title_ = "timestamp") && negb (timestamp e =? 0))
         || (bool_decide (title_ = "cached") && cached e)
     | None => false
     end.

(** [getFromState] where no entry was assigned under the title: an
    inherited member passes the test [if (liveMovieState[title])], and
    its [data] is [undefined], which the caller treats like [null]. *)
Definition getInherited (title_ : string) : Eff World (option Json) :=
  fun w =>
    (if inheritedTruthy (liveMovieState w) title_
     then console_call LLog ["â™»ï¸ Using cached state for " +:+ quoted title_] ;;
          ret None
     else ret None) w.

Definition getFromState (title_ : string) : Eff World (option Json) :=
  fun w =>
    match liveMovieState w !! title_ with
    | Some entry =>
        (console_call LLog ["â™»ï¸ Using cached state for " +:+ quoted title_] ;;
         ret (Some (data entry))) w
    | None => getInherited title_ w
    end.

(** *** DOM manipulation *)

Definition regions : list string :=
  ["live-rating"; "live-runtime"; "live-genre"; "live-actors"; "live-plot"].

(** Assigning a possibly undefined value to [textContent]: [undefined]
    converts to [null], which the setter treats as the empty string. *)
Definition toText (v : option string) : string := default EmptyString v.

(** [`${v}`] of a possibly undefined string. *)
Definition interp (v : option string) : string := default "undefined" v.

(** One round of a [forEach]: look the element up, and if it exists
    apply the assignments [f]. *)
Definition patch (id_ : string) (f : Element -> Element) : Eff World unit :=
  modify (with_dom (alter f id_)).

Fixpoint forEach {A} (l : list A) (f : A -> Eff World unit) : Eff World unit :=
  match l with
  | [] => ret tt
  | x :: l' => f x ;; forEach l' f
  end.

(** The assignments [updateUILoading] makes to an element. *)
Definition showLoading (text : string) (e : Element) : Element :=
  {| textContent := text; fontStyle := "italic"; color := "#666";
     opacity := opacity e; transition := transition e |}.

Definition updateUILoading : Eff World unit :=
  let elements :=
    [("live-rating", "â³ Loading..."); ("live-runtime", "â³ Loading...");
     ("live-genre", "â³ Loading..."); ("live-actors", "â³ Loading...");
     ("live-plot", "â³ Loading...")] in
  forEach elements (fun p => patch p.1 (showLoading p.2)).

(** The object [updates] of [updateUI], in key order. *)
Definition updates (data_ : Json) : list (string * string) :=
  [("live-rating",
     if bool_decide (imdbRating data_ = Some "N/A") then "N/A"
     else "â­ " +:+ interp (imdbRating data_) +:+ "/10");
   ("live-runtime", toText (runtime data_));
   ("live-genre", toText (genre data_));
   ("live-actors", toText (actors data_));
   ("live-plot", toText (plot data_))].

(** The assignments [updateUI] makes to an element right away. *)
Definition showText (text : string) (e : Element) : Element :=
  {| textContent := text; fontStyle := "normal"; color := "inherit";
     opacity := "0"; transition := transition e |}.

(** One round of the [forEach] of [updateUI]. *)
Definition updateElement (p : string * string) : Eff World unit :=
  fun w =>
    match dom w !! p.1 with
    | Some _ =>
        (patch p.1 (showText p.2) ;;
         (* setTimeout(() => { ... }, 100) *)
         modify (with_timers (fun t => t ++ [p.1]))) w
    | None => ret tt w
    end.

Definition updateUI (data_ : Json) : Eff World unit :=
  forEach (updates data_) updateElement ;;
  console_call LLog ["âœ… UI updated successfully"].

Definition notInOmdb : string :=
  "This movie is not available in OMDB database (primarily Hollywood movies). Try viewing a Hollywood movie like "
  +:+ quoted "Inception" +:+ " or " +:+ quoted "The Matrix"
  +:+ " to see live data.".

(** The assignments [updateUIWithError] makes to each region. *)
Definition showNA (e : Element) : Element :=
  {| textContent := "N/A"; fontStyle := "italic"; color := "#999";
     opacity := opacity e; transition := transition e |}.

(** The explanation chosen for the plot region. *)
Definition explanation (errorMessage : string) : string :=
  if includes errorMessage "not found" || includes errorMessage "404"
  then notInOmdb
  else if includes errorMessage "not available"
  then "Live data available only on Netlify deployment. This movie may also not be in OMDB database."
  else "Unable to load live data: " +:+ errorMessage.

Definition showExplanation (errorMessage : string) (e : Element) : Element :=
  {| textContent := explanation errorMessage; fontStyle := fontStyle e;
     color := "#d32f2f"; opacity := opacity e; transition := transition e |}.

Definition updateUIWithError (errorMessage : string) : Eff World unit :=
  forEach regions (fun id_ => patch id_ showNA) ;;
  patch "live-plot" (showExplanation errorMessage) ;;
  console_call LError ["UI updated with error state"].

(** A pending [setTimeout] callback of [updateUI] fires. *)
Definition faded (e : Element) : Element :=
  {| textContent := textContent e; fontStyle := fontStyle e;
     color := color e; opacity := "1"; transition := "opacity 0.5s ease-in" |}.

Definition fadeIn (id_ : string) : Eff World unit := patch id_ faded.

(** The event loop runs every pending timer. *)
Definition runTimers : Eff World unit :=
  fun w => (forEach (timers w) fadeIn ;; modify (with_timers (fun _ => []))) w.

(** *** Dynamic content loading *)

Definition functionUrl (movieTitle_ : string) : string :=
  "/.netlify/functions/movie?title=" +:+ encodeURIComponent movieTitle_.

(** The [if (!response.ok) { ... }] block: it always throws. *)
Definition notOk (response : Response Json) : Eff World unit :=
  match content_type response with
  | Some ct =>
      if truthy_str ct && includes ct "text/html"
      then throw "Serverless function not available. Deploy to Netlify to see live data."
      else ret tt
  | None => ret tt
  end ;;
  try_catch
    (errorData <- lift (json response) ;;
     console_call LError ["Error response from function:"] ;;
     throw (str_or (message errorData)
              (str_or (error errorData) ("HTTP " +:+ num_str (status response)))))
    (fun m =>
       if includes m "Serverless function" then throw m
       else
         console_call LError ["Could not parse error response:"; m] ;;
         throw ("Failed to load data (HTTP " +:+ num_str (status response) +:+ ")")).

(** The body of the [try] block of [loadLiveMovieData]. *)
Definition tryBlock (net : string -> FetchResult Json) : Eff World unit :=
  fun w =>
    match movieTitle w with
    | None =>
        console_call LWarn ["âš ï¸ No element with data-movie-title attribute found"] w
    | Some movieTitle_ =>
        (if negb (truthy_str movieTitle_) then
           console_call LWarn ["âš ï¸ Movie title is empty"] ;;
           updateUIWithError "Movie title not specified"
         else
           console_call LLog ["ğŸ¬ Loading live data for: " +:+ movieTitle_] ;;
           cachedData <- getFromState movieTitle_ ;;
           match cachedData with
           | Some d =>
               console_call LLog ["ğŸ“¦ Using cached data from state"] ;;
               updateUI d
           | None =>
               updateUILoading ;;
               console_call LLog ["ğŸŒ Fetching from: " +:+ functionUrl movieTitle_] ;;
               response <- fetch net (functionUrl movieTitle_) ;;
               (if negb (ok response) then notOk response else ret tt) ;;
               movieData <- lift (json response) ;;
               console_call LLog ["âœ… Successfully fetched live movie data:"] ;;
               saveToState movieTitle_ movieData ;;
               updateUI movieData
           end) w
    end.

Definition catchBlock (m : string) : Eff World unit :=
  console_call LError ["âŒ Error loading live movie data:"; m] ;;
  updateUIWithError m.

Definition loadLiveMovieData (net : string -> FetchResult Json) : Eff World unit :=
  try_catch (tryBlock net) catchBlock.

(** The [DOMContentLoaded] listener. *)
Definition onDOMContentLoaded (net : string -> FetchResult Json) : Eff World unit :=
  console_call LLog ["ğŸš€ Live movie data script initialized"] ;;
  fun w =>
    match movieTitle w with
    | Some _ =>
        (console_call LLog ["ğŸ“„ Movie detail page detected - loading live data"] ;;
         loadLiveMovieData net) w
    | None =>
        console_call LLog ["ğŸ“„ Not a movie detail page - skipping live data load"] w
    end.

(** The cache-clearing part of [window.refreshMovieData]. *)
Definition clearCurrent : Eff World unit :=
  console_call LLog ["ğŸ”„ Manual refresh triggered"] ;;
  fun w =>
    match movieTitle w with
    | Some title_ =>
        (modify (with_state (delete_property title_)) ;;
         console_call LLog ["ğŸ—‘ï¸ Cleared cache for " +:+ quoted title_]) w
    | None => ret tt w
    end.

Definition refreshMovieData (net : string -> FetchResult Json) : Eff World unit :=
  clearCurrent ;;
  loadLiveMovieData net.

(** The world an [Eff] computation leaves behind. *)
Definition exec {A} (c : Eff World A) (w : World) : World := (c w).2.

End Live.

(** ** Sample inputs *)
Module Samples.

(** A snapshot record of 2001 and a markdown item whose front matter has no
    [releaseYear] of its own but a nested [data.releaseYear] of 2030. *)
Definition remote2001 : Eleventy.Movie :=
  {| Eleventy.id := Some "cms-1"; Eleventy.title := Some "Remote";
     Eleventy.releaseYear := Some 2001; Eleventy.source := Some "contentful";
     Eleventy.data := None; Eleventy.url := None |}.

Definition remote2020 : Eleventy.Movie :=
  {| Eleventy.id := Some "cms-2"; Eleventy.title := Some "Newer";
     Eleventy.releaseYear := Some 2020; Eleventy.source := Some "contentful";
     Eleventy.data := None; Eleventy.url := None |}.

Definition nestedItem : Eleventy.Item :=
  {| Eleventy.item_data :=
       {| Eleventy.id := None; Eleventy.title := Some "Local";
          Eleventy.releaseYear := None; Eleventy.source := None;
          Eleventy.data := Some {| Eleventy.d_releaseYear := Some 2030 |};
          Eleventy.url := None |};
     Eleventy.fileSlug := "local";
     Eleventy.item_url := "/movies/local/" |}.

Definition item2010 : Eleventy.Item :=
  {| Eleventy.item_data :=
       {| Eleventy.id := None; Eleventy.title := Some "Local";
          Eleventy.releaseYear := Some 2010; Eleventy.source := None;
          Eleventy.data := None; Eleventy.url := None |};
     Eleventy.fileSlug := "local";
     Eleventy.item_url := "/movies/local/" |}.

(** A build with no Contentful credentials, one with both, and a network
    that answers every request with status 500. *)
Definition noCredentials : FetchCms.Env :=
  {| FetchCms.CONTENTFUL_SPACE_ID := None;
     FetchCms.CONTENTFUL_ACCESS_TOKEN := Some "token" |}.

Definition credentials : FetchCms.Env :=
  {| FetchCms.CONTENTFUL_SPACE_ID := Some "space";
     FetchCms.CONTENTFUL_ACCESS_TOKEN := Some "token" |}.

Definition status500 {B} (url : string) : Js.FetchResult B :=
  Js.Resolved {| Js.status := 500; Js.content_type := Some "application/json";
                 Js.json := Js.Throw "Unexpected end of JSON input" |}.

Definition freshBuild : FetchCms.World :=
  {| FetchCms.console := []; FetchCms.requests := []; FetchCms.files := ∅ |}.

(** A Contentful answer whose only entry links a poster asset that the
    answer does not include. *)
Definition unresolvedPoster : FetchCms.Data :=
  {| FetchCms.items := Some
       [ {| FetchCms.sys := Some
              {| FetchCms.sys_id := Some "m1";
                 FetchCms.sys_createdAt := Some "2025-11-14T00:00:00Z";
                 FetchCms.sys_updatedAt := Some "2025-11-14T00:00:00Z" |};
            FetchCms.fields := Some
              {| FetchCms.f_title := Some "Inception";
                 FetchCms.f_director := Some "Christopher Nolan";
                 FetchCms.f_releaseYear := Some 2010;
                 FetchCms.f_genre := Some "Sci-Fi";
                 FetchCms.f_rating := None;
                 FetchCms.f_description := None;
                 FetchCms.f_poster :=
                   Some [ {| FetchCms.link_sys := Some
                               {| FetchCms.sys_id := Some "a1";
                                  FetchCms.sys_createdAt := None;
                                  FetchCms.sys_updatedAt := None |} |} ] |} |} ];
     FetchCms.includes_Asset := None |}.

(** Proxy requests: without query parameters, and for a title. *)
Definition noQuery : MovieFn.Event :=
  {| MovieFn.queryStringParameters := None |}.

Definition queryFor (t : string) : MovieFn.Event :=
  {| MovieFn.queryStringParameters := Some {[ "title" := t ]} |}.

Definition omdbEmpty : MovieFn.Omdb :=
  {| MovieFn.Response_ := None; MovieFn.Error := None; MovieFn.Title := None;
     MovieFn.imdbRating_ := None; MovieFn.Runtime := None;
     MovieFn.Genre := None; MovieFn.Actors := None; MovieFn.Plot := None;
     MovieFn.Poster := None; MovieFn.Year := None; MovieFn.Director := None |}.

(** OMDB answers [{"Response": "True"}] and nothing else. *)
Definition omdbBare : MovieFn.Omdb :=
  {| MovieFn.Response_ := Some "True"; MovieFn.Error := None;
     MovieFn.Title := None; MovieFn.imdbRating_ := None;
     MovieFn.Runtime := None; MovieFn.Genre := None; MovieFn.Actors := None;
     MovieFn.Plot := None; MovieFn.Poster := None; MovieFn.Year := None;
     MovieFn.Director := None |}.

Definition omdbNotFound : MovieFn.Omdb :=
  {| MovieFn.Response_ := Some "False";
     MovieFn.Error := Some "Movie not found!"; MovieFn.Title := None;
     MovieFn.imdbRating_ := None; MovieFn.Runtime := None;
     MovieFn.Genre := None; MovieFn.Actors := None; MovieFn.Plot := None;
     MovieFn.Poster := None; MovieFn.Year := None; MovieFn.Director := None |}.

Definition omdbInception : MovieFn.Omdb :=
  {| MovieFn.Response_ := Some "True"; MovieFn.Error := None;
     MovieFn.Title := Some "Inception"; MovieFn.imdbRating_ := Some "8.8";
     MovieFn.Runtime := Some "148 min"; MovieFn.Genre := None;
     MovieFn.Actors := Some "Leonardo DiCaprio";
     MovieFn.Plot := Some EmptyString; MovieFn.Poster := Some "N/A";
     MovieFn.Year := Some "2010"; MovieFn.Director := None |}.

(** A network that answers every request with status 200 and the body [b]. *)
Definition answers {B} (b : B) (url : string) : Js.FetchResult B :=
  Js.Resolved {| Js.status := 200; Js.content_type := Some "application/json";
                 Js.json := Js.Normal b |}.

Definition production : MovieFn.Env := {| MovieFn.NODE_ENV := None |}.
Definition development : MovieFn.Env :=
  {| MovieFn.NODE_ENV := Some "development" |}.

Definition idle : MovieFn.World :=
  {| MovieFn.console := []; MovieFn.requests := [] |}.

(** A detail page with the five live regions and an empty
    [data-movie-title], one for Inception, and a page without the
    attribute. *)
Definition blank : Live.Element :=
  {| Live.textContent := "-"; Live.fontStyle := "normal";
     Live.color := "inherit"; Live.opacity := "1";
     Live.transition := "none" |}.

Definition pageWith (t : option string) : Live.World :=
  {| Live.movieTitle := t;
     Live.dom := {[ "live-rating" := blank; "live-runtime" := blank;
                    "live-genre" := blank; "live-actors" := blank;
                    "live-plot" := blank ]};
     Live.liveMovieState := ∅;
     Live.console := []; Live.requests := []; Live.timers := [];
     Live.now := 1764547200000 |}.

Definition liveInception : Live.Json :=
  {| Live.title := Some "Inception"; Live.imdbRating := Some "8.8";
     Live.runtime := Some "148 min"; Live.genre := Some "Action, Sci-Fi";
     Live.actors := Some "Leonardo DiCaprio";
     Live.plot := Some "A thief who steals corporate secrets.";
     Live.poster := MovieFn.Null; Live.year := Some "2010";
     Live.director := Some "Christopher Nolan";
     Live.message := None; Live.error := None |}.

(** The Inception page with two titles already in the cache. *)
Definition cachedPage : Live.World :=
  {| Live.movieTitle := Some "Inception";
     Live.dom := {[ "live-rating" := blank; "live-plot" := blank ]};
     Live.liveMovieState :=
       {[ "Inception" := {| Live.data := liveInception;
                            Live.timestamp := 1764547100000;
                            Live.cached := true |};
          "Heat" := {| Live.data := liveInception;
                       Live.timestamp := 1764547000000;
                       Live.cached := true |} ]};
     Live.console := []; Live.requests := []; Live.timers := [];
     Live.now := 1764547200000 |}.

(** A Contentful answer with two entries: the first links a poster asset
    that is included with a protocol-relative url, the second has no
    fields set but an empty title. *)
Definition posterAsset : FetchCms.Asset :=
  {| FetchCms.asset_sys := Some
       {| FetchCms.sys_id := Some "a1"; FetchCms.sys_createdAt := None;
          FetchCms.sys_updatedAt := None |};
     FetchCms.asset_fields := Some
       {| FetchCms.file := Some
            {| FetchCms.file_url := Some "//images.ctfassets.net/a1/poster.jpg";
               FetchCms.file_file_url := None |} |} |}.

Definition entryWithPoster : FetchCms.Entry :=
  {| FetchCms.sys := Some
       {| FetchCms.sys_id := Some "m1";
          FetchCms.sys_createdAt := Some "2025-11-14T00:00:00Z";
          FetchCms.sys_updatedAt := Some "2025-11-14T00:00:00Z" |};
     FetchCms.fields := Some
       {| FetchCms.f_title := Some "Inception";
          FetchCms.f_director := Some "Christopher Nolan";
          FetchCms.f_releaseYear := Some 2010;
          FetchCms.f_genre := Some "Sci-Fi";
          FetchCms.f_rating := None;
          FetchCms.f_description := None;
          FetchCms.f_poster :=
            Some [ {| FetchCms.link_sys := Some
                        {| FetchCms.sys_id := Some "a1";
                           FetchCms.sys_createdAt := None;
                           FetchCms.sys_updatedAt := None |} |} ] |} |}.

Definition bareEntry : FetchCms.Entry :=
  {| FetchCms.sys := Some
       {| FetchCms.sys_id := Some "m2"; FetchCms.sys_createdAt := None;
          FetchCms.sys_updatedAt := None |};
     FetchCms.fields := Some
       {| FetchCms.f_title := Some EmptyString; FetchCms.f_director := None;
          FetchCms.f_releaseYear := None; FetchCms.f_genre := None;
          FetchCms.f_rating := None; FetchCms.f_description := None;
          FetchCms.f_poster := None |} |}.

Definition resolvedPoster : FetchCms.Data :=
  {| FetchCms.items := Some [entryWithPoster; bareEntry];
     FetchCms.includes_Asset := Some [posterAsset] |}.

(** The function endpoint answers 404 with the proxy's envelope; a host
    without the function answers with an HTML page. *)
Definition notFound404 (url : string) : Js.FetchResult Live.Json :=
  Js.Resolved
    {| Js.status := 404; Js.content_type := Some "application/json";
       Js.json := Js.Normal
         {| Live.title := None; Live.imdbRating := None; Live.runtime := None;
            Live.genre := None; Live.actors := None; Live.plot := None;
            Live.poster := MovieFn.Undefined; Live.year := None;
            Live.director := None;
            Live.message := Some "Movie not found!";
            Live.error := Some "Movie not found" |} |}.

Definition htmlPage (url : string) : Js.FetchResult Live.Json :=
  Js.Resolved
    {| Js.status := 404; Js.content_type := Some "text/html; charset=utf-8";
       Js.json := Js.Throw "Unexpected token < in JSON at position 0" |}.

End Samples.

(** ** Statement vocabulary *)
Module Spec.

(** A configuration value that is missing or empty. *)
Definition missing (v : option string) : Prop :=
  v = None \/ v = Some EmptyString.

(** A configuration value that is present: a non-empty string. *)
Definition present (v : option string) (s : string) : Prop :=
  v = Some s /\ s <> EmptyString.

(** The snapshot step ran from [w] into the degraded outcome for the cause
    [m]: it completed normally, the cause is on the error console, and the
    snapshot file holds the empty snapshot, every other file as before. *)
Definition degraded (w : FetchCms.World) (m : string)
    (r : Js.Completion unit * FetchCms.World) : Prop :=
  r.1 = Js.Normal tt
  /\ (Js.LError, ["❌ Error loading Contentful data:"; m]) ∈ FetchCms.console r.2
  /\ FetchCms.files r.2
     = <[FetchCms.cmsDataPath := FetchCms.emptySnapshot]> (FetchCms.files w).

(** An output field that carries the upstream value, with the sentinel
    in its place when the upstream value is absent (or empty). *)
Definition defaults_to_NA (v : option string) (out : string) : Prop :=
  (v = None -> out = "N/A")
  /\ (v = Some EmptyString -> out = "N/A")
  /\ (forall s, v = Some s -> s <> EmptyString -> out = s).

(** What a rendering function leaves alone: the page's title, the cache,
    the requests made and the clock. *)
Definition frame (w w' : Live.World) : Prop :=
  Live.movieTitle w' = Live.movieTitle w
  /\ Live.liveMovieState w' = Live.liveMovieState w
  /\ Live.requests w' = Live.requests w
  /\ Live.now w' = Live.now w.

(** A computation that only renders: it completes normally, rewrites the
    document by [g] and respects the frame. *)
Definition renders (c : Js.Eff Live.World unit)
    (g : gmap string Live.Element -> gmap string Live.Element) : Prop :=
  forall w, exists w',
    c w = (Js.Normal tt, w') /\ Live.dom w' = g (Live.dom w) /\ frame w w'.

(** The text a region shows, if the page has the region. *)
Definition text (w : Live.World) (id_ : string) : option string :=
  Live.textContent <$> Live.dom w !! id_.

(** A region that shows [text] once its fade-in has run. *)
Definition settled (text : string) : Live.Element :=
  {| Live.textContent := text; Live.fontStyle := "normal";
     Live.color := "inherit"; Live.opacity := "1";
     Live.transition := "opacity 0.5s ease-in" |}.

(** What [updateUI] does to the element with id [j]: the assignments of
    the rounds addressed to [j]. *)
Definition rendered (d : Live.Json) (j : string) (e : Live.Element) : Live.Element :=
  foldl (fun e (p : string * string) =>
           if decide (p.1 = j) then Live.showText p.2 e else e)
    e (Live.updates d).

(** A network on which every request fails: it is rejected, answered
    with a status outside 200-299, or answered with a body that is not
    JSON. *)
Definition fails {B} (net : string -> Js.FetchResult B) : Prop :=
  forall url,
    match net url with
    | Js.Rejected _ => True
    | Js.Resolved r => Js.ok r = false \/ exists m, Js.json r = Js.Throw m
    end.

(** The poster the conversion leaves for a first poster id [pid]: the
    placeholder when there is none (or an empty one), [Object.prototype]
    for the id [__proto__], and otherwise nothing or an [https:] url. *)
Definition poster_for (pid : option string) (p : option FetchCms.PosterValue)
  : Prop :=
  match pid with
  | None => p = Some (FetchCms.Url FetchCms.placeholder)
  | Some i =>
      if decide (i = EmptyString)
      then p = Some (FetchCms.Url FetchCms.placeholder)
      else if decide (i = "__proto__")
      then p = Some FetchCms.ObjectPrototype
      else p = None \/ exists u, p = Some (FetchCms.Url ("https:" +:+ u))
  end.

(** The included asset [a] offers the non-empty url [u] under the id [i]. *)
Definition offers (a : FetchCms.Asset) (i u : string) : Prop :=
  Js.property_key ∘ FetchCms.sys_id <$> FetchCms.asset_sys a = Some i
  /\ FetchCms.asset_fields a ≫= FetchCms.fileUrl = Some u
  /\ u <> EmptyString.

(** An included asset the table can be built over: it has [fields], and
    [sys] as well if it has a non-empty url. *)
Definition asset_ok (a : FetchCms.Asset) : Prop :=
  exists af, FetchCms.asset_fields a = Some af
    /\ forall u, FetchCms.fileUrl af = Some u -> u <> EmptyString ->
         is_Some (FetchCms.asset_sys a).

(** An entry the conversion goes through on: it has [sys] and [fields],
    and the first element of its poster array, if any, has [sys]. *)
Definition entry_ok (e : FetchCms.Entry) : Prop :=
  is_Some (FetchCms.sys e)
  /\ exists f, FetchCms.fields e = Some f
       /\ forall l rest, FetchCms.f_poster f = Some (l :: rest) ->
            is_Some (FetchCms.link_sys l).

(** The record [m] is the conversion of the entry [e]. *)
Definition converted (e : FetchCms.Entry) (m : FetchCms.Movie) : Prop :=
  exists s f pid,
    FetchCms.sys e = Some s /\ FetchCms.fields e = Some f
    /\ FetchCms.posterId f = Js.Normal pid
    /\ FetchCms.id m = FetchCms.sys_id s
    /\ FetchCms.title m <> EmptyString
    /\ FetchCms.source m = "contentful"
    /\ poster_for pid (FetchCms.poster m).

(** A character that [encodeURIComponent] may put out: an unreserved one
    or the percent sign. *)
Definition url_safe (c : ascii) : Prop :=
  Js.unreserved c = true \/ c = "%"%char.

(** The document [m'] differs from [m] at most in what the five live
    regions hold: every other element is as it was, and no element has
    appeared or gone. *)
Definition regions_only (m m' : gmap string Live.Element) : Prop :=
  forall j, (j ∉ Live.regions -> m' !! j = m !! j)
            /\ (is_Some (m' !! j) <-> is_Some (m !! j)).

(** The response is an HTML page, as a host without the function
    answers. *)
Definition is_html {B} (r : Js.Response B) : Prop :=
  exists ct, Js.content_type r = Some ct
             /\ Js.truthy_str ct && Js.includes ct "text/html" = true.

(** The message of the error the [if (!response.ok)] block throws. *)
Definition thrown (r : Js.Response Live.Json) : string :=
  let generic := "Failed to load data (HTTP " +:+ Js.num_str (Js.status r) +:+ ")" in
  let keep m := if Js.includes m "Serverless function" then m else generic in
  if match Js.content_type r with
     | Some ct => Js.truthy_str ct && Js.includes ct "text/html"
     | None => false
     end
  then "Serverless function not available. Deploy to Netlify to see live data."
  else match Js.json r with
       | Js.Normal e =>
           keep (Js.str_or (Live.message e)
                   (Js.str_or (Live.error e)
                      ("HTTP " +:+ Js.num_str (Js.status r))))
       | Js.Throw m => keep m
       end.

End Spec.

(** * Properties *)

(** ** The stable sort behind [Array.prototype.sort] *)
Section SortFacts.
Context {A : Type} (key : A -> Z).

Lemma insert_sorted_Permutation (c : A -> A -> Z) (x : A) (l : list A) :
  Permutation (Js.insert_sorted c x l) (x :: l).
Proof.
  induction l as [|y l IH]; simpl; [reflexivity|].
  destruct (0 <? c x y); [|reflexivity].
  rewrite IH. apply perm_swap.
Qed.

Lemma Array_sort_Permutation (c : A -> A -> Z) (l : list A) :
  Permutation (Js.Array_sort c l) l.
Proof.
  induction l as [|x l IH]; simpl; [reflexivity|].
  rewrite insert_sorted_Permutation. by constructor.
Qed.

Lemma insert_sorted_descending (x : A) (l : list A) :
  Js.descending key l -> Js.descending key (Js.insert_sorted (Js.byKeyDesc key) x l).
Proof.
  induction l as [|y l IH]; simpl; intros Hs.
  - repeat constructor.
  - apply StronglySorted_inv in Hs as [Hl Hy].
    destruct (0 <? Js.byKeyDesc key x y) eqn:E.
    + apply Z.ltb_lt in E. constructor; [by apply IH|].
      eapply Permutation_Forall.
      { symmetry. apply insert_sorted_Permutation. }
      constructor; [unfold Js.byKeyDesc in E; lia | done].
    + apply Z.ltb_ge in E. constructor.
      * by constructor.
      * constructor; [unfold Js.byKeyDesc in E; lia|].
        eapply Forall_impl; [exact Hy|]. simpl. intros z Hz.
        unfold Js.byKeyDesc in E. lia.
Qed.

Lemma Array_sort_descending (l : list A) :
  Js.descending key (Js.Array_sort (Js.byKeyDesc key) l).
Proof.
  induction l as [|x l IH]; simpl; [constructor|].
  by apply insert_sorted_descending.
Qed.

(** Elements with the same key keep their relative order. *)
Lemma insert_sorted_stable (k : Z) (x : A) (l : list A) :
  filter (fun a => key a = k) (Js.insert_sorted (Js.byKeyDesc key) x l)
  = filter (fun a => key a = k) (x :: l).
Proof.
  induction l as [|y l IH]; simpl; [done|].
  destruct (0 <? Js.byKeyDesc key x y) eqn:E; [|done].
  apply Z.ltb_lt in E. unfold Js.byKeyDesc in E.
  rewrite (filter_cons _ y), IH, !(filter_cons _ x), (filter_cons _ y).
  destruct (decide (key y = k)), (decide (key x = k)); try done; lia.
Qed.

Lemma Array_sort_stable (k : Z) (l : list A) :
  filter (fun a => key a = k) (Js.Array_sort (Js.byKeyDesc key) l)
  = filter (fun a => key a = k) l.
Proof.
  induction l as [|x l IH]; simpl; [done|].
  rewrite insert_sorted_stable, !filter_cons, IH. done.
Qed.
End SortFacts.

(** ** The [allMovies] collection *)

(** A record without a nested [data] object is keyed by its own
    [releaseYear], a missing one counting as 0. *)
Lemma yearOf_no_data (a : Eleventy.Movie) :
  Eleventy.data a = None -> Eleventy.yearOf a = Eleventy.releaseYear_or_0 a.
Proof.
  unfold Eleventy.yearOf, Eleventy.releaseYear_or_0. intros ->. simpl.
  destruct (Eleventy.releaseYear a) as [z|]; simpl; [|done].
  unfold Js.truthy_num. by destruct (decide (z = 0)).
Qed.

(** A record with a non-zero [releaseYear] of its own is keyed by it. *)
Lemma yearOf_own (a : Eleventy.Movie) (y : Z) :
  Eleventy.releaseYear a = Some y -> y <> 0 -> Eleventy.yearOf a = y.
Proof.
  unfold Eleventy.yearOf. intros -> Hy. simpl.
  unfold Js.truthy_num. by destruct (decide (y = 0)).
Qed.

(** C1, as the specification words it, fails: the comparator does not count
    a missing [releaseYear] as 0 when the record carries a nested
    [data.releaseYear].  The markdown item with [data.releaseYear = 2030]
    and no [releaseYear] is placed before the snapshot record of 2001, so
    the result is not in descending order of [releaseYear]-or-0. *)
Lemma allMovies_not_by_releaseYear_or_0 :
  Eleventy.allMovies (Eleventy.Parsed (Some [Samples.remote2001])) [Samples.nestedItem]
  = [Eleventy.localMovie Samples.nestedItem; Samples.remote2001]
  /\ ~ Js.descending Eleventy.releaseYear_or_0
        (Eleventy.allMovies (Eleventy.Parsed (Some [Samples.remote2001]))
                            [Samples.nestedItem]).
Proof.
  split; [reflexivity|].
  change (Eleventy.allMovies _ _)
    with [Eleventy.localMovie Samples.nestedItem; Samples.remote2001].
  intros H. apply StronglySorted_inv in H as [_ H].
  apply Forall_cons in H as [H _]. vm_compute in H. by apply H.
Qed.

(** C1 (amended).  The merged collection is the concatenation of the
    snapshot records followed by the local records, stably sorted in
    descending order of the year the comparator reads: the record's own
    [releaseYear], else its nested [data.releaseYear], else 0 (which is
    [releaseYear]-or-0 for every record without a nested [data]).  Snapshot
    records of 2001 and 2020 with one local record of 2010 come out as
    2020, 2010, 2001. *)
Theorem allMovies_sorted (f : Eleventy.SnapshotFile) (items : list Eleventy.Item) :
  let input := Eleventy.cmsMovies f ++ Eleventy.localMovies items in
  Permutation (Eleventy.allMovies f items) input
  /\ Js.descending Eleventy.yearOf (Eleventy.allMovies f items)
  /\ (forall k : Z,
        filter (fun a => Eleventy.yearOf a = k) (Eleventy.allMovies f items)
        = filter (fun a => Eleventy.yearOf a = k) input)
  /\ (forall a, Eleventy.data a = None ->
        Eleventy.yearOf a = Eleventy.releaseYear_or_0 a)
  /\ (forall (a b : Eleventy.Movie) (c : Eleventy.Item),
        Eleventy.releaseYear a = Some 2001 ->
        Eleventy.releaseYear b = Some 2020 ->
        Eleventy.releaseYear (Eleventy.item_data c) = Some 2010 ->
        Eleventy.allMovies (Eleventy.Parsed (Some [a; b])) [c]
        = [b; Eleventy.localMovie c; a]).
Proof.
  simpl. unfold Eleventy.allMovies.
  change Eleventy.byYearDesc with (Js.byKeyDesc Eleventy.yearOf).
  split; [apply Array_sort_Permutation|].
  split; [apply Array_sort_descending|].
  split; [intros k; apply Array_sort_stable|].
  split; [apply yearOf_no_data|].
  intros a b c Ha Hb Hc.
  assert (Eleventy.yearOf a = 2001) as Ya by (by apply yearOf_own).
  assert (Eleventy.yearOf b = 2020) as Yb by (by apply yearOf_own).
  assert (Eleventy.yearOf (Eleventy.localMovie c) = 2010) as Yc
    by (by apply yearOf_own).
  cbn [Eleventy.cmsMovies Eleventy.localMovies map app Js.Array_sort foldr Js.insert_sorted].
  unfold Js.byKeyDesc. rewrite Yc, Yb. cbn [Z.sub Z.ltb]. simpl Js.insert_sorted.
  unfold Js.byKeyDesc. rewrite Ya, Yb, Yc. reflexivity.
Qed.

(** The 2001 / 2020 / 2010 example of C1, on the sample records. *)
Lemma allMovies_sorted_witness :
  Eleventy.allMovies
    (Eleventy.Parsed (Some [Samples.remote2001; Samples.remote2020]))
    [Samples.item2010]
  = [Samples.remote2020; Eleventy.localMovie Samples.item2010; Samples.remote2001].
Proof.
  apply (allMovies_sorted Eleventy.Absent []); reflexivity.
Defined.

(** ** The snapshot step *)

(** C2.  When the space identifier or the access credential is missing or
    empty, the step completes normally, writes the empty snapshot to the
    snapshot file (and touches no other file), and calls [fetch] not at
    all: the list of requests is unchanged and the outcome does not depend
    on the network. *)
Theorem fetchContentfulData_no_credentials
    (env : FetchCms.Env) (net net' : string -> Js.FetchResult FetchCms.Data)
    (w : FetchCms.World) :
  Spec.missing (FetchCms.CONTENTFUL_SPACE_ID env)
  \/ Spec.missing (FetchCms.CONTENTFUL_ACCESS_TOKEN env) ->
  let r := FetchCms.fetchContentfulData env net w in
  r.1 = Js.Normal tt
  /\ FetchCms.files r.2
     = <[FetchCms.cmsDataPath := {| FetchCms.movies := [] |}]> (FetchCms.files w)
  /\ FetchCms.requests r.2 = FetchCms.requests w
  /\ FetchCms.fetchContentfulData env net' w = r.
Proof.
  intros H.
  assert (Js.not_str (FetchCms.CONTENTFUL_SPACE_ID env)
          || Js.not_str (FetchCms.CONTENTFUL_ACCESS_TOKEN env) = true) as E.
  { apply orb_true_iff.
    destruct H as [[-> | ->] | [-> | ->]]; auto. }
  unfold FetchCms.fetchContentfulData, Js.bind. simpl.
  rewrite E. simpl. done.
Qed.

(** C2 on a build without a space identifier. *)
Lemma fetchContentfulData_no_credentials_witness :
  FetchCms.files
    (FetchCms.fetchContentfulData Samples.noCredentials Samples.status500
       Samples.freshBuild).2
  = <[FetchCms.cmsDataPath := {| FetchCms.movies := [] |}]> ∅
  /\ FetchCms.requests
       (FetchCms.fetchContentfulData Samples.noCredentials Samples.status500
          Samples.freshBuild).2 = [].
Proof.
  pose proof (fetchContentfulData_no_credentials Samples.noCredentials
                Samples.status500 Samples.status500 Samples.freshBuild) as H.
  simpl in H. destruct H as (_ & Hf & Hr & _).
  - left. left. reflexivity.
  - split; [exact Hf | exact Hr].
Defined.

Lemma not_str_present (v : option string) (s : string) :
  Spec.present v s -> Js.not_str v = false /\ default EmptyString v = s.
Proof.
  intros [-> Hs]. simpl. unfold Js.truthy_str.
  by destruct (decide (s = EmptyString)).
Qed.

(** C3.  With both credentials present the step calls [fetch] once and
    always completes normally.  If the request is rejected, the status is
    not 2xx (status 500, say), the body is not JSON, or the parsed body
    makes the conversion throw, the cause is logged and the empty snapshot
    is written; if the body converts to [ms], the snapshot written is
    [{movies: ms}]. *)
Theorem fetchContentfulData_with_credentials
    (env : FetchCms.Env) (net : string -> Js.FetchResult FetchCms.Data)
    (w : FetchCms.World) (space token : string) :
  Spec.present (FetchCms.CONTENTFUL_SPACE_ID env) space ->
  Spec.present (FetchCms.CONTENTFUL_ACCESS_TOKEN env) token ->
  let url := FetchCms.entriesUrl space token in
  let r := FetchCms.fetchContentfulData env net w in
  r.1 = Js.Normal tt
  /\ FetchCms.requests r.2 = FetchCms.requests w ++ [url]
  /\ (forall m, net url = Js.Rejected m -> Spec.degraded w m r)
  /\ (forall resp, net url = Js.Resolved resp -> Js.ok resp = false ->
        Spec.degraded w
          ("Contentful API Error: " +:+ Js.num_str (Js.status resp)) r)
  /\ (forall resp m, net url = Js.Resolved resp -> Js.ok resp = true ->
        Js.json resp = Js.Throw m -> Spec.degraded w m r)
  /\ (forall resp data m, net url = Js.Resolved resp -> Js.ok resp = true ->
        Js.json resp = Js.Normal data ->
        FetchCms.normalize data = Js.Throw m -> Spec.degraded w m r)
  /\ (forall resp data ms, net url = Js.Resolved resp -> Js.ok resp = true ->
        Js.json resp = Js.Normal data ->
        FetchCms.normalize data = Js.Normal ms ->
        FetchCms.files r.2
        = <[FetchCms.cmsDataPath := {| FetchCms.movies := ms |}]>
            (FetchCms.files w)).
Proof.
  intros [Es Ds]%not_str_present [Et Dt]%not_str_present url r.
  subst r. unfold FetchCms.fetchContentfulData.
  rewrite Es, Et, Ds, Dt. fold url.
  unfold Spec.degraded, FetchCms.tryBlock, FetchCms.catchBlock,
    Js.try_catch, Js.bind, FetchCms.fetch, Js.lift. simpl. fold url.
  destruct (net url) as [m|resp] eqn:En; simpl.
  { repeat split; intros; try done; try congruence.
    injection H as <-. set_solver. }
  destruct (Js.ok resp) eqn:Eo; simpl.
  2:{ repeat split; intros; try done; try congruence.
      injection H as <-. set_solver. }
  destruct (Js.json resp) as [data|m] eqn:Ej; simpl.
  2:{ repeat split; intros; try done; try congruence.
      injection H as <-. rewrite Ej in H1. injection H1 as <-. set_solver. }
  destruct (FetchCms.normalize data) as [ms|m] eqn:Em; simpl.
  2:{ repeat split; intros; try done; try congruence.
      injection H as <-. rewrite Ej in H1. injection H1 as <-.
      rewrite Em in H2. injection H2 as <-. set_solver. }
  repeat split; intros; try done; congruence.
Qed.

(** C3 on a build whose request is answered with status 500. *)
Lemma fetchContentfulData_with_credentials_witness :
  Spec.degraded Samples.freshBuild "Contentful API Error: 500"
    (FetchCms.fetchContentfulData Samples.credentials Samples.status500
       Samples.freshBuild).
Proof.
  destruct (fetchContentfulData_with_credentials Samples.credentials
              Samples.status500 Samples.freshBuild "space" "token")
    as (_ & _ & _ & H500 & _).
  - split; [reflexivity | discriminate].
  - split; [reflexivity | discriminate].
  - apply (H500 {| Js.status := 500;
                   Js.content_type := Some "application/json";
                   Js.json := Js.Throw "Unexpected end of JSON input" |});
      reflexivity.
Defined.

(** What the conversion of one entry guarantees: a non-empty title
    ([Untitled] when absent), the release year or 0, the source tag, the
    placeholder when there is no first poster id, and otherwise whatever the
    look-up in the asset table gives for that id. *)
Lemma toMovie_fields (assets : gmap string string) (item : FetchCms.Entry)
    (s : FetchCms.Sys) (f : FetchCms.Fields) (pid : option string) :
  FetchCms.sys item = Some s ->
  FetchCms.fields item = Some f ->
  FetchCms.posterId f = Js.Normal pid ->
  exists m, FetchCms.toMovie assets item = Js.Normal m
    /\ FetchCms.title m <> EmptyString
    /\ (FetchCms.f_title f = None -> FetchCms.title m = "Untitled")
    /\ FetchCms.releaseYear m = Js.num_or (FetchCms.f_releaseYear f) 0
    /\ FetchCms.source m = "contentful"
    /\ (pid = None ->
          FetchCms.poster m = Some (FetchCms.Url FetchCms.placeholder))
    /\ (forall i, pid = Some i -> i <> EmptyString ->
          FetchCms.poster m = FetchCms.lookupAsset assets i).
Proof.
  intros Hs Hf Hp. unfold FetchCms.toMovie. rewrite Hf, Hp, Hs.
  eexists. split; [done|].
  simpl. repeat split.
  - unfold Js.str_or. destruct (FetchCms.f_title f) as [t|]; [|done].
    unfold Js.truthy_str. by destruct (decide (t = EmptyString)).
  - by intros ->.
  - by intros ->.
  - intros i -> Hi. unfold Js.truthy_str.
    by destruct (decide (i = EmptyString)).
Qed.

(** C6 at the failing input: the entry's first poster id [a1] is not in the
    asset table, and the record comes out with no [poster] at all: neither
    a resolved URL nor the placeholder. *)
Theorem normalize_unresolved_poster :
  exists m, FetchCms.normalize Samples.unresolvedPoster = Js.Normal [m]
    /\ FetchCms.title m = "Inception"
    /\ FetchCms.poster m = None.
Proof. eexists. split; [reflexivity|]. split; reflexivity. Qed.

(** ** The OMDB proxy *)

(** The handler's run up to the parsed OMDB answer, for a request that
    carries a title and an upstream that answers 2xx with JSON. *)
Lemma tryBlock_parsed (net : string -> Js.FetchResult MovieFn.Omdb)
    (event : MovieFn.Event) (w : MovieFn.World) (t : string)
    (resp : Js.Response MovieFn.Omdb) (data : MovieFn.Omdb) :
  MovieFn.queryStringParameters event ≫= (.!! "title") = Some t ->
  t <> EmptyString ->
  net (MovieFn.apiUrl t) = Js.Resolved resp ->
  Js.ok resp = true ->
  Js.json resp = Js.Normal data ->
  (MovieFn.tryBlock net event w).1
  = Js.Normal
      (if bool_decide (MovieFn.Response_ data = Some "False")
       then {| MovieFn.statusCode := 404;
               MovieFn.headers := MovieFn.jsonHeaders;
               MovieFn.body :=
                 MovieFn.ErrorBody "Movie not found"
                   (Js.str_or (MovieFn.Error data)
                      "No movie found with that title") None |}
       else {| MovieFn.statusCode := 200;
               MovieFn.headers :=
                 MovieFn.jsonHeaders
                 ++ [("Cache-Control", "public, max-age=3600")];
               MovieFn.body := MovieFn.MovieBody (MovieFn.movieDataOf data) |}).
Proof.
  intros Ht Hne Hn Ho Hj. unfold MovieFn.tryBlock. rewrite Ht. simpl.
  unfold Js.truthy_str. destruct (decide (t = EmptyString)); [done|]. simpl.
  unfold Js.bind, MovieFn.fetch, Js.lift. simpl.
  rewrite Hn. simpl. rewrite Ho. simpl. rewrite Hj.
  by destruct (bool_decide (MovieFn.Response_ data = Some "False")).
Qed.

Lemma handler_of_tryBlock_Normal (env : MovieFn.Env)
    (net : string -> Js.FetchResult MovieFn.Omdb) (event : MovieFn.Event)
    (w : MovieFn.World) (r : MovieFn.HttpResponse) :
  (MovieFn.tryBlock net event w).1 = Js.Normal r ->
  MovieFn.handler env net event w = MovieFn.tryBlock net event w.
Proof.
  unfold MovieFn.handler, Js.try_catch.
  destruct (MovieFn.tryBlock net event w) as [[r'|m] w']; simpl; congruence.
Qed.

Lemma str_or_defaults (v : option string) :
  Spec.defaults_to_NA v (Js.str_or v "N/A").
Proof.
  unfold Spec.defaults_to_NA, Js.str_or, Js.truthy_str.
  repeat split.
  - by intros ->.
  - by intros ->.
  - intros s -> Hs. by destruct (decide (s = EmptyString)).
Qed.

(** C4, as the specification words it, fails: for the upstream answer
    [{"Response": "True"}] the proxy answers 200 with a body whose [title]
    and [poster] are undefined (so absent from the JSON text), not the
    sentinel. *)
Lemma handler_title_not_defaulted :
  exists m,
    (MovieFn.handler Samples.production (Samples.answers Samples.omdbBare)
       (Samples.queryFor "Inception") Samples.idle).1
    = Js.Normal
        {| MovieFn.statusCode := 200;
           MovieFn.headers :=
             MovieFn.jsonHeaders ++ [("Cache-Control", "public, max-age=3600")];
           MovieFn.body := MovieFn.MovieBody m |}
    /\ MovieFn.title m = None
    /\ MovieFn.title m <> Some "N/A"
    /\ MovieFn.poster m = MovieFn.Undefined.
Proof. eexists. split; [reflexivity|]. repeat split. discriminate. Qed.

(** C4 (amended).  For a request with a title, when the upstream answers
    2xx with a body whose [Response] is not ["False"], the proxy answers 200
    with the movie data: [imdbRating], [runtime], [genre], [actors], [plot],
    [year] and [director] carry the upstream values, with ["N/A"] for an
    absent (or empty) one; [title] is the upstream [Title] when that is
    present; [poster] is [null] exactly when the upstream [Poster] is
    ["N/A"], and the upstream value when that is present and different. *)
Theorem handler_found (env : MovieFn.Env)
    (net : string -> Js.FetchResult MovieFn.Omdb) (event : MovieFn.Event)
    (w : MovieFn.World) (t : string) (resp : Js.Response MovieFn.Omdb)
    (data : MovieFn.Omdb) :
  MovieFn.queryStringParameters event ≫= (.!! "title") = Some t ->
  t <> EmptyString ->
  net (MovieFn.apiUrl t) = Js.Resolved resp ->
  Js.ok resp = true ->
  Js.json resp = Js.Normal data ->
  MovieFn.Response_ data <> Some "False" ->
  exists m,
    (MovieFn.handler env net event w).1
    = Js.Normal
        {| MovieFn.statusCode := 200;
           MovieFn.headers :=
             MovieFn.jsonHeaders ++ [("Cache-Control", "public, max-age=3600")];
           MovieFn.body := MovieFn.MovieBody m |}
    /\ Spec.defaults_to_NA (MovieFn.imdbRating_ data) (MovieFn.imdbRating m)
    /\ Spec.defaults_to_NA (MovieFn.Runtime data) (MovieFn.runtime m)
    /\ Spec.defaults_to_NA (MovieFn.Genre data) (MovieFn.genre m)
    /\ Spec.defaults_to_NA (MovieFn.Actors data) (MovieFn.actors m)
    /\ Spec.defaults_to_NA (MovieFn.Plot data) (MovieFn.plot m)
    /\ Spec.defaults_to_NA (MovieFn.Year data) (MovieFn.year m)
    /\ Spec.defaults_to_NA (MovieFn.Director data) (MovieFn.director m)
    /\ (forall s, MovieFn.Title data = Some s -> MovieFn.title m = Some s)
    /\ (MovieFn.poster m = MovieFn.Null <-> MovieFn.Poster data = Some "N/A")
    /\ (forall s, MovieFn.Poster data = Some s -> s <> "N/A" ->
          MovieFn.poster m = MovieFn.Str s).
Proof.
  intros Ht Hne Hn Ho Hj Hr.
  pose proof (tryBlock_parsed net event w t resp data Ht Hne Hn Ho Hj) as Hb.
  rewrite bool_decide_eq_false_2 in Hb by done.
  exists (MovieFn.movieDataOf data).
  rewrite (handler_of_tryBlock_Normal env net event w _ Hb).
  split; [exact Hb|].
  do 7 (split; [apply str_or_defaults|]).
  simpl. unfold MovieFn.posterOf.
  destruct (MovieFn.Poster data) as [p|]; simpl.
  - destruct (decide (p = "N/A")) as [->|Hp].
    + repeat split; try done. intros s [= <-]. done.
    + repeat split; try done; try congruence.
  - repeat split; try done.
Qed.

(** C4 (amended) on an upstream answer without [Genre] and with the
    no-image [Poster]. *)
Lemma handler_found_witness :
  exists m,
    (MovieFn.handler Samples.production (Samples.answers Samples.omdbInception)
       (Samples.queryFor "Inception") Samples.idle).1
    = Js.Normal
        {| MovieFn.statusCode := 200;
           MovieFn.headers :=
             MovieFn.jsonHeaders ++ [("Cache-Control", "public, max-age=3600")];
           MovieFn.body := MovieFn.MovieBody m |}
    /\ MovieFn.genre m = "N/A"
    /\ MovieFn.poster m = MovieFn.Null.
Proof.
  destruct (handler_found Samples.production
              (Samples.answers Samples.omdbInception)
              (Samples.queryFor "Inception") Samples.idle "Inception"
              {| Js.status := 200; Js.content_type := Some "application/json";
                 Js.json := Js.Normal Samples.omdbInception |}
              Samples.omdbInception)
    as (m & Hm & _ & _ & [Hg _] & _ & _ & _ & _ & _ & Hp & _);
    try reflexivity; try discriminate.
  exists m. split; [exact Hm|]. split.
  - apply Hg. reflexivity.
  - apply Hp. reflexivity.
Defined.

(** C5.  A request without a title (no [title] key, or no query-parameter
    object at all) is answered 400 with an error envelope and without a
    call to the upstream: the requests made are unchanged and the answer
    does not depend on the network.  A request whose title the upstream
    answers 2xx with [Response] equal to ["False"] is answered 404 with
    [{error: "Movie not found", message}]. *)
Theorem handler_400_and_404 (env : MovieFn.Env)
    (net : string -> Js.FetchResult MovieFn.Omdb) (event : MovieFn.Event)
    (w : MovieFn.World) :
  (MovieFn.queryStringParameters event ≫= (.!! "title") = None ->
     (exists e msg,
        (MovieFn.handler env net event w).1
        = Js.Normal {| MovieFn.statusCode := 400;
                       MovieFn.headers := MovieFn.jsonHeaders;
                       MovieFn.body := MovieFn.ErrorBody e msg None |})
     /\ MovieFn.requests (MovieFn.handler env net event w).2
        = MovieFn.requests w
     /\ forall net', MovieFn.handler env net' event w
                     = MovieFn.handler env net event w)
  /\ (forall t resp data,
        MovieFn.queryStringParameters event ≫= (.!! "title") = Some t ->
        t <> EmptyString ->
        net (MovieFn.apiUrl t) = Js.Resolved resp ->
        Js.ok resp = true ->
        Js.json resp = Js.Normal data ->
        MovieFn.Response_ data = Some "False" ->
        exists msg,
          (MovieFn.handler env net event w).1
          = Js.Normal {| MovieFn.statusCode := 404;
                         MovieFn.headers := MovieFn.jsonHeaders;
                         MovieFn.body :=
                           MovieFn.ErrorBody "Movie not found" msg None |}).
Proof.
  split.
  - intros Ht. unfold MovieFn.handler, Js.try_catch, MovieFn.tryBlock.
    rewrite Ht. simpl. eauto 6.
  - intros t resp data Ht Hne Hn Ho Hj Hr.
    pose proof (tryBlock_parsed net event w t resp data Ht Hne Hn Ho Hj) as Hb.
    rewrite bool_decide_eq_true_2 in Hb by done.
    rewrite (handler_of_tryBlock_Normal env net event w _ Hb). eauto.
Qed.

(** C5 on a request without query parameters and on a title the upstream
    does not know. *)
Lemma handler_400_and_404_witness :
  (exists e msg,
     (MovieFn.handler Samples.production
        (Samples.answers Samples.omdbNotFound) Samples.noQuery Samples.idle).1
     = Js.Normal {| MovieFn.statusCode := 400;
                    MovieFn.headers := MovieFn.jsonHeaders;
                    MovieFn.body := MovieFn.ErrorBody e msg None |})
  /\ (exists msg,
        (MovieFn.handler Samples.production
           (Samples.answers Samples.omdbNotFound)
           (Samples.queryFor "ThisMovieDoesNotExist12345") Samples.idle).1
        = Js.Normal {| MovieFn.statusCode := 404;
                       MovieFn.headers := MovieFn.jsonHeaders;
                       MovieFn.body :=
                         MovieFn.ErrorBody "Movie not found" msg None |}).
Proof.
  split.
  - destruct (handler_400_and_404 Samples.production
                (Samples.answers Samples.omdbNotFound) Samples.noQuery
                Samples.idle) as [H400 _].
    destruct H400 as [H _]; [reflexivity | exact H].
  - destruct (handler_400_and_404 Samples.production
                (Samples.answers Samples.omdbNotFound)
                (Samples.queryFor "ThisMovieDoesNotExist12345")
                Samples.idle) as [_ H404].
    apply (H404 "ThisMovieDoesNotExist12345"
             {| Js.status := 200; Js.content_type := Some "application/json";
                Js.json := Js.Normal Samples.omdbNotFound |}
             Samples.omdbNotFound); try reflexivity. discriminate.
Defined.

(** ** Exceptions in the proxy *)

(** The three ways the handler's [try] block throws once a title is given:
    the request is rejected, the status is not 2xx, the body is not JSON. *)
Lemma tryBlock_throws (net : string -> Js.FetchResult MovieFn.Omdb)
    (event : MovieFn.Event) (w : MovieFn.World) (t : string) :
  MovieFn.queryStringParameters event ≫= (.!! "title") = Some t ->
  t <> EmptyString ->
  (forall m, net (MovieFn.apiUrl t) = Js.Rejected m ->
     (MovieFn.tryBlock net event w).1 = Js.Throw m)
  /\ (forall resp, net (MovieFn.apiUrl t) = Js.Resolved resp ->
        Js.ok resp = false ->
        (MovieFn.tryBlock net event w).1
        = Js.Throw ("OMDB API returned status " +:+ Js.num_str (Js.status resp)))
  /\ (forall resp m, net (MovieFn.apiUrl t) = Js.Resolved resp ->
        Js.ok resp = true -> Js.json resp = Js.Throw m ->
        (MovieFn.tryBlock net event w).1 = Js.Throw m).
Proof.
  intros Ht Hne. unfold MovieFn.tryBlock. rewrite Ht. simpl.
  unfold Js.truthy_str. destruct (decide (t = EmptyString)); [done|]. simpl.
  unfold Js.bind, MovieFn.fetch, Js.lift. simpl.
  repeat split.
  - by intros m ->.
  - intros resp -> Ho. simpl. by rewrite Ho.
  - intros resp m -> Ho Hj. simpl. by rewrite Ho, Hj.
Qed.

(** C8.  Whenever the handler's [try] block throws, the answer is 500 with
    the generic [error] and [message]; the exception's message is in the
    body (as [details]) if and only if [NODE_ENV] is [development], so
    with [NODE_ENV] unset nothing internal reaches the client. *)
Theorem handler_500 (env : MovieFn.Env)
    (net : string -> Js.FetchResult MovieFn.Omdb) (event : MovieFn.Event)
    (w : MovieFn.World) (m : string) :
  (MovieFn.tryBlock net event w).1 = Js.Throw m ->
  exists details,
    (MovieFn.handler env net event w).1
    = Js.Normal
        {| MovieFn.statusCode := 500;
           MovieFn.headers := MovieFn.jsonHeaders;
           MovieFn.body :=
             MovieFn.ErrorBody "Internal server error"
               "Failed to fetch movie data. Please try again later." details |}
    /\ (MovieFn.NODE_ENV env = Some "development" -> details = Some m)
    /\ (MovieFn.NODE_ENV env <> Some "development" -> details = None)
    /\ (MovieFn.NODE_ENV env = None -> details = None).
Proof.
  intros Hthrow. unfold MovieFn.handler, Js.try_catch.
  destruct (MovieFn.tryBlock net event w) as [[r|m'] w']; simpl in *;
    [discriminate|]. injection Hthrow as ->.
  eexists. split; [reflexivity|].
  repeat split.
  - intros H. by rewrite bool_decide_eq_true_2.
  - intros H. by rewrite bool_decide_eq_false_2.
  - intros H. rewrite bool_decide_eq_false_2; [done|]. by rewrite H.
Qed.

(** C8 on an upstream that answers 500, with [NODE_ENV] unset and set to
    [development]. *)
Lemma handler_500_witness :
  (MovieFn.handler Samples.production Samples.status500
     (Samples.queryFor "Inception") Samples.idle).1
  = Js.Normal
      {| MovieFn.statusCode := 500;
         MovieFn.headers := MovieFn.jsonHeaders;
         MovieFn.body :=
           MovieFn.ErrorBody "Internal server error"
             "Failed to fetch movie data. Please try again later." None |}
  /\ (MovieFn.handler Samples.development Samples.status500
        (Samples.queryFor "Inception") Samples.idle).1
     = Js.Normal
         {| MovieFn.statusCode := 500;
            MovieFn.headers := MovieFn.jsonHeaders;
            MovieFn.body :=
              MovieFn.ErrorBody "Internal server error"
                "Failed to fetch movie data. Please try again later."
                (Some "OMDB API returned status 500") |}.
Proof.
  split.
  - destruct (handler_500 Samples.production Samples.status500
                (Samples.queryFor "Inception") Samples.idle
                "OMDB API returned status 500" eq_refl)
      as (d & Hd & _ & _ & Hnone).
    rewrite Hd, Hnone; reflexivity.
  - destruct (handler_500 Samples.development Samples.status500
                (Samples.queryFor "Inception") Samples.idle
                "OMDB API returned status 500" eq_refl)
      as (d & Hd & Hdev & _).
    rewrite Hd, Hdev; reflexivity.
Defined.

(** ** The client renderer *)

Lemma frame_refl (w : Live.World) : Spec.frame w w.
Proof. by repeat split. Qed.

Lemma frame_trans (w1 w2 w3 : Live.World) :
  Spec.frame w1 w2 -> Spec.frame w2 w3 -> Spec.frame w1 w3.
Proof.
  intros (A1 & A2 & A3 & A4) (B1 & B2 & B3 & B4).
  repeat split; congruence.
Qed.

Lemma renders_ret : Spec.renders (Js.ret tt) (fun m => m).
Proof. intros w. exists w. auto using frame_refl. Qed.

Lemma renders_bind (c k : Js.Eff Live.World unit)
    (g g' : gmap string Live.Element -> gmap string Live.Element) :
  Spec.renders c g -> Spec.renders k g' ->
  Spec.renders (Js.bind c (fun _ => k)) (fun m => g' (g m)).
Proof.
  intros Hc Hk w. destruct (Hc w) as (w1 & E1 & D1 & F1).
  destruct (Hk w1) as (w2 & E2 & D2 & F2).
  exists w2. unfold Js.bind. rewrite E1, E2, D2, D1.
  eauto using frame_trans.
Qed.

Lemma renders_patch (i : string) (f : Live.Element -> Live.Element) :
  Spec.renders (Live.patch i f) (alter f i).
Proof. intros w. eexists. split; [reflexivity|]. by repeat split. Qed.

Lemma renders_console (l : Js.Level) (args : list string) :
  Spec.renders (Live.console_call l args) (fun m => m).
Proof. intros w. eexists. split; [reflexivity|]. by repeat split. Qed.

Lemma renders_timer (i : string) :
  Spec.renders (Js.modify (Live.with_timers (fun t => t ++ [i]))) (fun m => m).
Proof. intros w. eexists. split; [reflexivity|]. by repeat split. Qed.

Lemma renders_ext (c : Js.Eff Live.World unit)
    (g g' : gmap string Live.Element -> gmap string Live.Element) :
  (forall m, g m = g' m) -> Spec.renders c g -> Spec.renders c g'.
Proof.
  intros Hg Hc w. destruct (Hc w) as (w' & E & D & F).
  exists w'. rewrite <- Hg. auto.
Qed.

Lemma alter_absent (f : Live.Element -> Live.Element) (i : string)
    (m : gmap string Live.Element) :
  m !! i = None -> alter f i m = m.
Proof.
  intros H. apply map_eq. intros j. rewrite lookup_alter.
  case_decide; [|done]. subst. by rewrite H.
Qed.

Lemma renders_updateElement (p : string * string) :
  Spec.renders (Live.updateElement p) (alter (Live.showText p.2) p.1).
Proof.
  intros w. unfold Live.updateElement. destruct (Live.dom w !! p.1) eqn:E.
  - eexists. split; [reflexivity|]. by repeat split.
  - exists w. rewrite alter_absent by done. auto using frame_refl.
Qed.

Lemma renders_forEach {A} (l : list A) (f : A -> Js.Eff Live.World unit)
    (g : A -> gmap string Live.Element -> gmap string Live.Element) :
  (forall x, Spec.renders (f x) (g x)) ->
  Spec.renders (Live.forEach l f) (fun m => foldl (fun m x => g x m) m l).
Proof.
  intros Hf. induction l as [|x l IH]; simpl.
  - apply renders_ret.
  - eapply renders_ext; [|apply renders_bind; [apply Hf | apply IH]]. done.
Qed.

(** The three rendering functions, as rewrites of the document. *)
Lemma renders_updateUI (d : Live.Json) :
  Spec.renders (Live.updateUI d)
    (fun m => foldl (fun m p => alter (Live.showText p.2) p.1 m) m
                (Live.updates d)).
Proof.
  eapply renders_ext; [|apply renders_bind;
    [apply (renders_forEach _ _ _ renders_updateElement)
    |apply renders_console]]. done.
Qed.

Lemma renders_updateUILoading :
  Spec.renders Live.updateUILoading
    (fun m => foldl (fun m i => alter (Live.showLoading "â³ Loading...") i m) m
                Live.regions).
Proof.
  eapply renders_ext;
    [|apply (renders_forEach _ _
               (fun p => alter (Live.showLoading p.2) p.1));
      intros p; apply renders_patch]. done.
Qed.

Lemma renders_updateUIWithError (msg : string) :
  Spec.renders (Live.updateUIWithError msg)
    (fun m => alter (Live.showExplanation msg) "live-plot"
                (foldl (fun m i => alter Live.showNA i m) m Live.regions)).
Proof.
  eapply renders_ext; [|apply renders_bind;
    [apply (renders_forEach _ _ (fun i => alter Live.showNA i));
       intros i; apply renders_patch
    |apply renders_bind; [apply renders_patch | apply renders_console]]].
  done.
Qed.

Ltac lookup_alters :=
  repeat first [ rewrite lookup_alter_eq
               | rewrite lookup_alter_ne by discriminate ].

(** The run on a page whose title attribute is empty: only the error
    rendering happens. *)
Lemma load_empty_title (net : string -> Js.FetchResult Live.Json)
    (w : Live.World) :
  Live.movieTitle w = Some EmptyString ->
  exists w1, Live.loadLiveMovieData net w = (Js.Normal tt, w1)
    /\ Live.dom w1
       = alter (Live.showExplanation "Movie title not specified") "live-plot"
           (foldl (fun m i => alter Live.showNA i m) (Live.dom w) Live.regions)
    /\ Spec.frame w w1.
Proof.
  intros Ht.
  destruct (renders_bind _ _ _ _
              (renders_console Js.LWarn ["âš ï¸ Movie title is empty"])
              (renders_updateUIWithError "Movie title not specified") w)
    as (w1 & E & D & F).
  exists w1. split; [|by split].
  unfold Live.loadLiveMovieData, Js.try_catch, Live.tryBlock.
  rewrite Ht. change (negb (Js.truthy_str EmptyString)) with true.
  cbv iota. by rewrite E.
Qed.

(** C10.  On a page whose [data-movie-title] is the empty string the flow
    completes without a call to [fetch] and renders the error state: each
    of the five regions is set to ["N/A"] and then the plot region to
    ["Unable to load live data: Movie title not specified"], so the four
    other regions end on ["N/A"] and the plot region on the explanation.
    The cache is untouched. *)
Theorem loadLiveMovieData_empty_title
    (net : string -> Js.FetchResult Live.Json) (w : Live.World) :
  Live.movieTitle w = Some EmptyString ->
  let w' := Live.exec (Live.loadLiveMovieData net) w in
  (Live.loadLiveMovieData net w).1 = Js.Normal tt
  /\ Live.requests w' = Live.requests w
  /\ Live.liveMovieState w' = Live.liveMovieState w
  /\ Live.dom w'
     = alter (Live.showExplanation "Movie title not specified") "live-plot"
         (foldl (fun m i => alter Live.showNA i m) (Live.dom w) Live.regions)
  /\ (forall i, i ∈ ["live-rating"; "live-runtime"; "live-genre"; "live-actors"] ->
        is_Some (Live.dom w !! i) -> Spec.text w' i = Some "N/A")
  /\ (is_Some (Live.dom w !! "live-plot") ->
        Spec.text w' "live-plot"
        = Some "Unable to load live data: Movie title not specified")
  /\ Js.includes "Unable to load live data: Movie title not specified"
       "Movie title not specified" = true.
Proof.
  intros Ht w'.
  destruct (load_empty_title net w Ht) as (w1 & Hrun & D & (F1 & F2 & F3 & F4)).
  subst w'. unfold Live.exec. rewrite Hrun. simpl fst. simpl snd.
  assert (forall i, Spec.text w1 i = Live.textContent <$> Live.dom w1 !! i) as Htext
    by done.
  split; [done|]. split; [done|]. split; [done|]. split; [exact D|].
  split; [|split; [|reflexivity]].
  - intros i Hi [e He]. rewrite Htext, D. simpl foldl.
    repeat (apply elem_of_cons in Hi as [->|Hi]);
      [..|by apply elem_of_nil in Hi];
      lookup_alters; by rewrite He.
  - intros [e He]. rewrite Htext, D. simpl foldl.
    lookup_alters. by rewrite He.
Qed.

(** C10 on the sample page with an empty title attribute. *)
Lemma loadLiveMovieData_empty_title_witness :
  Spec.text (Live.exec (Live.loadLiveMovieData Samples.status500)
               (Samples.pageWith (Some EmptyString))) "live-plot"
  = Some "Unable to load live data: Movie title not specified"
  /\ Live.requests (Live.exec (Live.loadLiveMovieData Samples.status500)
                      (Samples.pageWith (Some EmptyString))) = [].
Proof.
  destruct (loadLiveMovieData_empty_title Samples.status500
              (Samples.pageWith (Some EmptyString)) eq_refl)
    as (_ & Hr & _ & _ & _ & Hp & _).
  split; [apply Hp; by eexists | exact Hr].
Defined.

Lemma renders_catchBlock (msg : string) :
  Spec.renders (Live.catchBlock msg)
    (fun m => alter (Live.showExplanation msg) "live-plot"
                (foldl (fun m i => alter Live.showNA i m) m Live.regions)).
Proof.
  eapply renders_ext; [|apply renders_bind;
    [apply renders_console | apply renders_updateUIWithError]]. done.
Qed.

(** The [if (!response.ok)] block always throws, and touches nothing but
    the console. *)
Lemma notOk_throws (resp : Js.Response Live.Json) (w : Live.World) :
  exists m w', Live.notOk resp w = (Js.Throw m, w')
    /\ Live.dom w' = Live.dom w /\ Spec.frame w w'.
Proof.
  unfold Live.notOk, Js.bind, Js.try_catch, Js.lift, Js.throw, Js.ret,
    Live.console_call, Js.modify.
  destruct (Js.content_type resp) as [ct|];
    [destruct (Js.truthy_str ct && Js.includes ct "text/html")|];
    try (do 2 eexists; split; [reflexivity|]; by repeat split).
  all: destruct (Js.json resp) as [e|m]; cbv beta iota;
    match goal with
    | |- context [Js.includes ?m "Serverless function"] =>
        destruct (Js.includes m "Serverless function")
    end;
    do 2 eexists; (split; [reflexivity|]); by repeat split.
Qed.

(** A lookup that finds no entry assigned under the title answers
    nothing, and writes at most a line to the console. *)
Lemma getInherited_run (t : string) (w : Live.World) :
  exists f, Live.getInherited t w = (Js.Normal None, Live.with_console f w).
Proof.
  unfold Live.getInherited.
  destruct (Live.inheritedTruthy (Live.liveMovieState w) t).
  - eexists. unfold Js.bind, Live.console_call, Js.modify, Js.ret. simpl.
    reflexivity.
  - exists (fun c => c). by destruct w.
Qed.

Local Opaque Live.updateUI Live.updateUILoading Live.updateUIWithError
  Live.catchBlock Live.notOk Live.getInherited.

Ltac run_ui :=
  match goal with
  | |- context [Live.getInherited ?t ?w] =>
      let f := fresh "f" in
      destruct (getInherited_run t w) as (f & ->); simpl
  | |- context [Live.updateUILoading ?w] =>
      let w' := fresh "w" in
      destruct (renders_updateUILoading w) as (w' & -> & ? & (? & ? & ? & ?))
  | |- context [Live.updateUI ?d ?w] =>
      let w' := fresh "w" in
      destruct (renders_updateUI d w) as (w' & -> & ? & (? & ? & ? & ?))
  | |- context [Live.catchBlock ?m ?w] =>
      let w' := fresh "w" in
      destruct (renders_catchBlock m w) as (w' & -> & ? & (? & ? & ? & ?))
  | |- context [Live.notOk ?r ?w] =>
      let w' := fresh "w" in let m := fresh "m" in
      destruct (notOk_throws r w) as (m & w' & -> & ? & (? & ? & ? & ?))
  end.

Lemma truthy_nonempty (t : string) :
  t <> EmptyString -> negb (Js.truthy_str t) = false.
Proof. intros H. unfold Js.truthy_str. by destruct (decide (t = EmptyString)). Qed.

(** A request for a cached title: the cached data is rendered, nothing
    else happens. *)
Lemma load_hit (net : string -> Js.FetchResult Live.Json) (w : Live.World)
    (t : string) (e : Live.CacheEntry) :
  Live.movieTitle w = Some t -> t <> EmptyString ->
  Live.liveMovieState w !! t = Some e ->
  exists w', Live.loadLiveMovieData net w = (Js.Normal tt, w')
    /\ Live.dom w'
       = foldl (fun m p => alter (Live.showText p.2) p.1 m) (Live.dom w)
           (Live.updates (Live.data e))
    /\ Spec.frame w w'.
Proof.
  intros Ht Hne Hc.
  unfold Live.loadLiveMovieData, Js.try_catch, Live.tryBlock.
  rewrite Ht, (truthy_nonempty t Hne). cbv iota.
  unfold Js.bind, Live.getFromState, Live.console_call, Js.modify, Js.ret.
  simpl. rewrite Hc. simpl.
  run_ui. eexists. split; [reflexivity|]. simpl in *.
  repeat split; congruence.
Qed.

(** A request for a title that is not cached, answered 2xx with JSON. *)
Lemma load_miss_ok (net : string -> Js.FetchResult Live.Json) (w : Live.World)
    (t : string) (resp : Js.Response Live.Json) (d : Live.Json) :
  Live.movieTitle w = Some t -> t <> EmptyString ->
  Live.liveMovieState w !! t = None ->
  net (Live.functionUrl t) = Js.Resolved resp ->
  Js.ok resp = true -> Js.json resp = Js.Normal d ->
  exists w', Live.loadLiveMovieData net w = (Js.Normal tt, w')
    /\ Live.dom w'
       = foldl (fun m p => alter (Live.showText p.2) p.1 m)
           (foldl (fun m i => alter (Live.showLoading "â³ Loading...") i m)
              (Live.dom w) Live.regions)
           (Live.updates d)
    /\ Live.liveMovieState w'
       = <[t := {| Live.data := d; Live.timestamp := Live.now w;
                   Live.cached := true |}]> (Live.liveMovieState w)
    /\ Live.requests w' = Live.requests w ++ [Live.functionUrl t]
    /\ Live.movieTitle w' = Live.movieTitle w.
Proof.
  intros Ht Hne Hc Hn Ho Hj.
  unfold Live.loadLiveMovieData, Js.try_catch, Live.tryBlock.
  rewrite Ht, (truthy_nonempty t Hne). cbv iota.
  unfold Js.bind, Live.getFromState, Live.console_call, Js.modify,
    Live.fetch, Js.lift, Js.ret, Live.saveToState.
  simpl. rewrite Hc. run_ui. run_ui. rewrite Hn, Ho. simpl. rewrite Hj.
  unfold Js.bind. simpl. run_ui.
  eexists. split; [reflexivity|]. simpl in *.
  repeat split; congruence.
Qed.

(** A request for a title that is not cached, whatever the network does:
    one call to the function endpoint, and no other title's cache entry
    changes. *)
Lemma load_miss (net : string -> Js.FetchResult Live.Json) (w : Live.World)
    (t : string) :
  Live.movieTitle w = Some t -> t <> EmptyString ->
  Live.liveMovieState w !! t = None ->
  exists w', Live.loadLiveMovieData net w = (Js.Normal tt, w')
    /\ Live.requests w' = Live.requests w ++ [Live.functionUrl t]
    /\ (forall k, k <> t ->
          Live.liveMovieState w' !! k = Live.liveMovieState w !! k).
Proof.
  intros Ht Hne Hc.
  unfold Live.loadLiveMovieData, Js.try_catch, Live.tryBlock.
  rewrite Ht, (truthy_nonempty t Hne). cbv iota.
  unfold Js.bind, Live.getFromState, Live.console_call, Js.modify,
    Live.fetch, Js.lift, Js.ret, Live.saveToState.
  simpl. rewrite Hc. run_ui. run_ui.
  destruct (net (Live.functionUrl t)) as [m|resp].
  { run_ui. eexists. split; [reflexivity|]. simpl in *.
    split; [congruence|]. intros k _. congruence. }
  destruct (Js.ok resp); simpl.
  2:{ run_ui. run_ui. eexists. split; [reflexivity|]. simpl in *.
      split; [congruence|]. intros k _. congruence. }
  destruct (Js.json resp) as [d|m]; unfold Js.bind; simpl.
  2:{ run_ui. eexists. split; [reflexivity|]. simpl in *.
      split; [congruence|]. intros k _. congruence. }
  run_ui. eexists. split; [reflexivity|]. simpl in *.
  split; [congruence|]. intros k Hk.
  match goal with H : Live.liveMovieState _ = _ |- _ => rewrite H end.
  rewrite lookup_insert_ne by done. congruence.
Qed.

(** Looking an element up after a [forEach] of assignments: the
    assignments addressed to it, applied in order. *)
Lemma foldl_alter_lookup {A} (key : A -> string)
    (fn : A -> Live.Element -> Live.Element) (l : list A)
    (m : gmap string Live.Element) (j : string) :
  foldl (fun m x => alter (fn x) (key x) m) m l !! j
  = (fun e => foldl (fun e x => if decide (key x = j) then fn x e else e) e l)
      <$> m !! j.
Proof.
  revert m. induction l as [|x l IH]; intros m; simpl.
  - by destruct (m !! j).
  - rewrite IH, lookup_alter. case_decide as E.
    + rewrite E. by destruct (m !! j).
    + done.
Qed.

Lemma rendered_idem (d : Live.Json) (j : string) (e : Live.Element) :
  Spec.rendered d j (Spec.rendered d j e) = Spec.rendered d j e.
Proof.
  unfold Spec.rendered. simpl. repeat case_decide; simplify_eq; done.
Qed.

Lemma rendered_text (d : Live.Json) (j : string) (e e' : Live.Element) :
  Live.textContent e = Live.textContent e' ->
  Live.textContent (Spec.rendered d j e) = Live.textContent (Spec.rendered d j e').
Proof.
  intros H. unfold Spec.rendered. simpl. repeat case_decide; simplify_eq; done.
Qed.

Lemma updateUI_lookup (d : Live.Json) (m : gmap string Live.Element) (j : string) :
  foldl (fun m p => alter (Live.showText p.2) p.1 m) m (Live.updates d) !! j
  = Spec.rendered d j <$> m !! j.
Proof. apply (foldl_alter_lookup fst (fun p => Live.showText p.2)). Qed.

Lemma faded_text (l : list string) (j : string) (e : Live.Element) :
  Live.textContent
    (foldl (fun e x => if decide (x = j) then Live.faded e else e) e l)
  = Live.textContent e.
Proof.
  revert e. induction l as [|x l IH]; intros e; simpl; [done|].
  rewrite IH. by case_decide.
Qed.

(** Running the pending fade-in timers changes no text and nothing of the
    frame. *)
Lemma runTimers_run (w : Live.World) :
  exists w', Live.runTimers w = (Js.Normal tt, w')
    /\ Spec.frame w w' /\ forall i, Spec.text w' i = Spec.text w i.
Proof.
  destruct (renders_forEach (Live.timers w) Live.fadeIn
              (fun i => alter Live.faded i)
              (fun i => renders_patch i Live.faded) w)
    as (w1 & E & D & (F1 & F2 & F3 & F4)).
  unfold Live.runTimers, Js.bind. rewrite E.
  eexists. split; [reflexivity|]. split; [by repeat split|].
  intros i. unfold Spec.text. simpl. rewrite D.
  rewrite (foldl_alter_lookup (fun x => x) (fun _ => Live.faded)).
  destruct (Live.dom w !! i) as [e|]; simpl; [|done].
  by rewrite faded_text.
Qed.

(** C7.  After a first request for a title that was not cached and that the
    endpoint answers 2xx with JSON, exactly one call has been made and the
    data is in the cache under the title.  A second request for the same
    title makes no call, whatever the network would answer, and leaves the
    document exactly as the first request rendered it; the same holds for
    the texts shown when the pending fade-in timers fire in between. *)
Theorem second_request_from_cache
    (net net' : string -> Js.FetchResult Live.Json) (w : Live.World)
    (t : string) (resp : Js.Response Live.Json) (d : Live.Json) :
  Live.movieTitle w = Some t -> t <> EmptyString ->
  Live.liveMovieState w !! t = None ->
  net (Live.functionUrl t) = Js.Resolved resp ->
  Js.ok resp = true -> Js.json resp = Js.Normal d ->
  let w1 := Live.exec (Live.loadLiveMovieData net) w in
  let w2 := Live.exec (Live.loadLiveMovieData net') w1 in
  let w2' := Live.exec (Live.loadLiveMovieData net')
               (Live.exec Live.runTimers w1) in
  Live.requests w1 = Live.requests w ++ [Live.functionUrl t]
  /\ Live.data <$> Live.liveMovieState w1 !! t = Some d
  /\ Live.requests w2 = Live.requests w1
  /\ Live.dom w2 = Live.dom w1
  /\ (forall i, Spec.text w2 i = Spec.text w1 i)
  /\ Live.requests w2' = Live.requests w1
  /\ (forall i, Spec.text w2' i = Spec.text w1 i).
Proof.
  intros Ht Hne Hc Hn Ho Hj w1 w2 w2'.
  destruct (load_miss_ok net w t resp d Ht Hne Hc Hn Ho Hj)
    as (v1 & E1 & D1 & C1 & R1 & T1).
  assert (w1 = v1) as Hw1 by (unfold w1, Live.exec; by rewrite E1).
  assert (Live.liveMovieState v1 !! t
          = Some {| Live.data := d; Live.timestamp := Live.now w;
                    Live.cached := true |}) as Hhit
    by (rewrite C1; apply lookup_insert_eq).
  destruct (load_hit net' v1 t _ (eq_trans T1 Ht) Hne Hhit)
    as (v2 & E2 & D2 & (_ & _ & R2 & _)).
  assert (w2 = v2) as Hw2 by (unfold w2, Live.exec; by rewrite Hw1, E2).
  destruct (runTimers_run v1) as (u1 & Eu & (Tu & Cu & Ru & _) & Xu).
  assert (Live.liveMovieState u1 !! t
          = Some {| Live.data := d; Live.timestamp := Live.now w;
                    Live.cached := true |}) as Hhit'
    by (by rewrite Cu).
  destruct (load_hit net' u1 t _ (eq_trans Tu (eq_trans T1 Ht)) Hne Hhit')
    as (v2' & E2' & D2' & (_ & _ & R2' & _)).
  assert (w2' = v2') as Hw2'
    by (unfold w2', Live.exec; rewrite Hw1, Eu; simpl; by rewrite E2').
  clearbody w1 w2 w2'. subst w1 w2 w2'. cbn [Live.data] in D2, D2'.
  assert (Live.dom v2 = Live.dom v1) as Hdom.
  { apply map_eq. intros j. rewrite D2, D1, !updateUI_lookup.
    rewrite <- option_fmap_compose.
    apply option_fmap_ext. intros e. apply rendered_idem. }
  split; [done|]. split; [by rewrite Hhit|]. split; [done|].
  split; [done|]. split; [by intros i; unfold Spec.text; rewrite Hdom|].
  split; [congruence|].
  intros j. specialize (Xu j). unfold Spec.text in *.
  rewrite D2', updateUI_lookup. rewrite D1, updateUI_lookup in Xu |- *.
  destruct (Live.dom u1 !! j) as [e|],
    (foldl (fun m i => alter (Live.showLoading "â³ Loading...") i m)
       (Live.dom w) Live.regions !! j) as [e'|];
    cbn [fmap option_fmap option_map] in *; try congruence.
  injection Xu as Xu. f_equal.
  rewrite (rendered_text d j e (Spec.rendered d j e') Xu).
  by rewrite rendered_idem.
Qed.

(** C7 on the Inception page: the second request runs against a network
    that would answer 500, and never asks it. *)
Lemma second_request_from_cache_witness :
  Live.requests
    (Live.exec (Live.loadLiveMovieData Samples.status500)
       (Live.exec (Live.loadLiveMovieData (Samples.answers Samples.liveInception))
          (Samples.pageWith (Some "Inception"))))
  = [] ++ [Live.functionUrl "Inception"]
  /\ Live.dom
       (Live.exec (Live.loadLiveMovieData Samples.status500)
          (Live.exec (Live.loadLiveMovieData (Samples.answers Samples.liveInception))
             (Samples.pageWith (Some "Inception"))))
     = Live.dom
         (Live.exec (Live.loadLiveMovieData (Samples.answers Samples.liveInception))
            (Samples.pageWith (Some "Inception"))).
Proof.
  destruct (second_request_from_cache
              (Samples.answers Samples.liveInception) Samples.status500
              (Samples.pageWith (Some "Inception")) "Inception"
              {| Js.status := 200; Js.content_type := Some "application/json";
                 Js.json := Js.Normal Samples.liveInception |}
              Samples.liveInception)
    as (H1 & _ & H2 & H3 & _); try reflexivity; try discriminate.
  split; [by rewrite H2 | exact H3].
Defined.

(** ** Manual refresh *)

Lemma clearCurrent_run (w : Live.World) (t : string) :
  Live.movieTitle w = Some t ->
  exists w0, Live.clearCurrent w = (Js.Normal tt, w0)
    /\ Live.liveMovieState w0 = Js.delete_property t (Live.liveMovieState w)
    /\ Live.requests w0 = Live.requests w
    /\ Live.movieTitle w0 = Live.movieTitle w
    /\ Live.dom w0 = Live.dom w.
Proof.
  intros Ht. unfold Live.clearCurrent, Js.bind, Live.console_call, Js.modify.
  simpl. rewrite Ht. eexists. split; [reflexivity|]. by repeat split.
Qed.

(** X24.  On a page whose title is not [__proto__], the manual refresh
    first deletes the cache entry of that title and no other,
    and then runs the request for the page; at the end every other title's
    entry is still what it was.  For a non-empty title the entry is gone
    when the request runs, so the function endpoint is called (once), and
    when it answers 2xx with JSON the page's entry is the fresh data. *)
Theorem refreshMovieData_clears_current
    (net : string -> Js.FetchResult Live.Json) (w : Live.World) (t : string) :
  Live.movieTitle w = Some t ->
  t <> "__proto__" ->
  let w0 := Live.exec Live.clearCurrent w in
  let w' := Live.exec (Live.refreshMovieData net) w in
  Live.liveMovieState w0 = delete t (Live.liveMovieState w)
  /\ Live.liveMovieState w0 !! t = None
  /\ (forall k, k <> t ->
        Live.liveMovieState w0 !! k = Live.liveMovieState w !! k)
  /\ w' = Live.exec (Live.loadLiveMovieData net) w0
  /\ (forall k, k <> t ->
        Live.liveMovieState w' !! k = Live.liveMovieState w !! k)
  /\ (t <> EmptyString ->
        Live.requests w' = Live.requests w ++ [Live.functionUrl t])
  /\ (forall resp d, t <> EmptyString ->
        net (Live.functionUrl t) = Js.Resolved resp ->
        Js.ok resp = true -> Js.json resp = Js.Normal d ->
        Live.data <$> Live.liveMovieState w' !! t = Some d).
Proof.
  intros Ht Hproto w0 w'.
  destruct (clearCurrent_run w t Ht) as (v0 & E0 & C0 & R0 & T0 & _).
  unfold Js.delete_property in C0. rewrite decide_False in C0 by done.
  assert (w0 = v0) as H0 by (unfold w0, Live.exec; by rewrite E0).
  assert (w' = Live.exec (Live.loadLiveMovieData net) v0) as H'.
  { unfold w', Live.exec, Live.refreshMovieData, Js.bind. by rewrite E0. }
  clearbody w0 w'. subst w0 w'.
  assert (Live.liveMovieState v0 !! t = None) as Hmiss
    by (rewrite C0; apply lookup_delete_eq).
  assert (forall k, k <> t ->
            Live.liveMovieState v0 !! k = Live.liveMovieState w !! k) as Hother
    by (intros k Hk; rewrite C0; by apply lookup_delete_ne).
  split; [done|]. split; [done|]. split; [done|]. split; [done|].
  unfold Live.exec.
  destruct (decide (t = EmptyString)) as [->|Hne].
  - destruct (load_empty_title net v0 (eq_trans T0 Ht))
      as (v1 & E1 & _ & (_ & C1 & _ & _)).
    rewrite E1. simpl.
    split; [intros k Hk; rewrite C1; by apply Hother|].
    split; [done|]. intros resp d Hne. done.
  - destruct (load_miss net v0 t (eq_trans T0 Ht) Hne Hmiss)
      as (v1 & E1 & R1 & C1).
    rewrite E1. simpl.
    split; [intros k Hk; rewrite C1 by done; by apply Hother|].
    split; [intros _; congruence|].
    intros resp d _ Hn Ho Hj.
    destruct (load_miss_ok net v0 t resp d (eq_trans T0 Ht) Hne Hmiss Hn Ho Hj)
      as (v1' & E1' & _ & C1' & _).
    rewrite E1 in E1'. injection E1' as <-.
    by rewrite C1', lookup_insert_eq.
Qed.

(** X24 on the Inception page with two cached titles and a failing
    network. *)
Lemma refreshMovieData_clears_current_witness :
  Live.liveMovieState
    (Live.exec (Live.refreshMovieData Samples.status500) Samples.cachedPage)
    !! "Heat"
  = Live.liveMovieState Samples.cachedPage !! "Heat"
  /\ Live.liveMovieState (Live.exec Live.clearCurrent Samples.cachedPage)
       !! "Inception" = None
  /\ Live.requests
       (Live.exec (Live.refreshMovieData Samples.status500) Samples.cachedPage)
     = [] ++ [Live.functionUrl "Inception"].
Proof.
  destruct (refreshMovieData_clears_current Samples.status500
              Samples.cachedPage "Inception" eq_refl ltac:(discriminate))
    as (_ & Hgone & _ & _ & Hother & Hreq & _).
  split; [apply Hother; discriminate|].
  split; [exact Hgone | apply Hreq; discriminate].
Defined.

(** C9.  The code misses the claim on a page whose title is [__proto__].
    The page's first request is answered and saved: the assignment
    [liveMovieState["__proto__"] = {...}] makes the entry the prototype of
    the cache object.  The manual refresh then logs that it cleared the
    cache for the title, but [delete liveMovieState["__proto__"]] removes
    nothing: the cache is what it was, the entry is still found, and the
    refresh renders it without a second request to the function
    endpoint. *)
Theorem refreshMovieData_keeps_proto_entry :
  let net := Samples.answers Samples.liveInception in
  let w1 := Live.exec (Live.loadLiveMovieData net)
              (Samples.pageWith (Some "__proto__")) in
  let w0 := Live.exec Live.clearCurrent w1 in
  let w2 := Live.exec (Live.refreshMovieData net) w1 in
  Live.requests w1 = [Live.functionUrl "__proto__"]
  /\ Live.data <$> Live.liveMovieState w1 !! "__proto__"
     = Some Samples.liveInception
  /\ last (Live.console w0)
     = Some (Js.LLog, ["ğŸ—‘ï¸ Cleared cache for " +:+ Js.quoted "__proto__"])
  /\ Live.liveMovieState w0 = Live.liveMovieState w1
  /\ Live.liveMovieState w0 !! "__proto__" <> None
  /\ (Live.getFromState "__proto__" w0).1 = Js.Normal (Some Samples.liveInception)
  /\ Live.requests w2 = [Live.functionUrl "__proto__"].
Proof.
  vm_compute. repeat split; discriminate.
Qed.

Local Transparent Live.updateUI Live.updateUILoading Live.updateUIWithError
  Live.catchBlock Live.notOk Live.getInherited.

(** The silent path: a page without a [data-movie-title] element is left
    as it is, and no request is made. *)
Lemma loadLiveMovieData_no_element
    (net : string -> Js.FetchResult Live.Json) (w : Live.World) :
  Live.movieTitle w = None ->
  let w' := Live.exec (Live.loadLiveMovieData net) w in
  Live.dom w' = Live.dom w /\ Live.requests w' = Live.requests w
  /\ Live.liveMovieState w' = Live.liveMovieState w.
Proof.
  intros Ht. unfold Live.exec, Live.loadLiveMovieData, Js.try_catch,
    Live.tryBlock. rewrite Ht. by simpl.
Qed.

(** * Further properties *)

(** ** Sorting: what the order determines *)

Section SortUnique.
Context {A : Type} (key : A -> Z).

Lemma descending_head (x : A) (l : list A) (b : A) :
  Js.descending key (x :: l) -> b ∈ x :: l -> key b <= key x.
Proof.
  intros Hs Hb. apply StronglySorted_inv in Hs as [_ Hx].
  apply elem_of_cons in Hb as [->|Hb]; [lia|].
  rewrite Forall_forall in Hx. by apply Hx.
Qed.

Lemma filter_key_head (x : A) (l : list A) :
  filter (fun a => key a = key x) (x :: l)
  = x :: filter (fun a => key a = key x) l.
Proof. by rewrite filter_cons_True. Qed.

(** Two lists in descending order that agree, key by key, on the
    sequence of their elements with that key are equal. *)
Lemma stable_descending_unique (l1 l2 : list A) :
  Js.descending key l1 -> Js.descending key l2 ->
  (forall k, filter (fun a => key a = k) l1 = filter (fun a => key a = k) l2) ->
  l1 = l2.
Proof.
  revert l2. induction l1 as [|x l1 IH]; intros l2 H1 H2 Hf.
  - destruct l2 as [|y l2]; [done|].
    specialize (Hf (key y)). rewrite filter_key_head in Hf. done.
  - destruct l2 as [|y l2].
    { specialize (Hf (key x)). rewrite filter_key_head in Hf. done. }
    assert (y ∈ x :: l1) as Hy.
    { apply (list_elem_of_filter (fun a => key a = key y)).
      rewrite Hf, filter_key_head. left. }
    assert (x ∈ y :: l2) as Hx.
    { apply (list_elem_of_filter (fun a => key a = key x)).
      rewrite <- Hf, filter_key_head. left. }
    pose proof (descending_head _ _ _ H1 Hy).
    pose proof (descending_head _ _ _ H2 Hx).
    assert (key y = key x) as Hk by lia.
    pose proof (Hf (key x)) as Hfx.
    rewrite filter_key_head, <- Hk, filter_key_head, Hk in Hfx.
    injection Hfx as -> Hfx. f_equal.
    apply StronglySorted_inv in H1 as [H1 _].
    apply StronglySorted_inv in H2 as [H2 _].
    apply IH; [done..|]. intros k.
    destruct (decide (key y = k)) as [<-|Hne]; [done|].
    specialize (Hf k). by rewrite !filter_cons_False in Hf.
Qed.

(** In a descending list every element of a front part has a key at least
    that of every element of the rest. *)
Lemma descending_app (l1 l2 : list A) (a b : A) :
  Js.descending key (l1 ++ l2) -> a ∈ l1 -> b ∈ l2 -> key b <= key a.
Proof.
  induction l1 as [|x l1 IH]; simpl; intros Hs Ha Hb.
  - by apply elem_of_nil in Ha.
  - apply elem_of_cons in Ha as [->|Ha].
    + apply (descending_head x (l1 ++ l2)); [done|].
      right. apply elem_of_app. by right.
    + apply StronglySorted_inv in Hs as [Hs _]. by apply IH.
Qed.

(** Reversing a descending list gives an ascending one. *)
Lemma descending_rev (l : list A) :
  Js.descending key l -> StronglySorted (fun a b => key a <= key b) (rev l).
Proof.
  induction l as [|x l IH]; simpl; intros Hs; [constructor|].
  apply StronglySorted_inv in Hs as [Hl Hx].
  specialize (IH Hl).
  assert (forall l' : list A,
            StronglySorted (fun a b => key a <= key b) l' ->
            Forall (fun b => key b <= key x) l' ->
            StronglySorted (fun a b => key a <= key b) (l' ++ [x])) as Happ.
  { induction l' as [|z l' IH']; simpl; intros Hs' Hf.
    - repeat constructor.
    - apply StronglySorted_inv in Hs' as [Hs' Hz].
      apply Forall_cons in Hf as [Hzx Hf].
      constructor; [by apply IH'|].
      apply Forall_app. split; [done|]. by constructor. }
  apply Happ; [done|]. apply Forall_forall. intros b Hb.
  rewrite Forall_forall in Hx. apply Hx.
  apply list_elem_of_In. apply list_elem_of_In in Hb.
  by apply in_rev.
Qed.
End SortUnique.

(** ** The [movies] collection and the filters *)

(** X1.  The [movies] collection is its tagged items, stably sorted in
    descending order of [data.year], else [data.releaseYear], else 0; an
    item with a non-zero [data.year] is keyed by it even when it also has a
    [data.releaseYear]. *)
Theorem movies_sorted (tagged : list Eleventy.TagItem) :
  Permutation (Eleventy.movies tagged) tagged
  /\ Js.descending Eleventy.tagYear (Eleventy.movies tagged)
  /\ (forall k : Z,
        filter (fun a => Eleventy.tagYear a = k) (Eleventy.movies tagged)
        = filter (fun a => Eleventy.tagYear a = k) tagged)
  /\ (forall a y, Eleventy.td_year (Eleventy.tag_data a) = Some y -> y <> 0 ->
        Eleventy.tagYear a = y)
  /\ (forall a, Eleventy.td_year (Eleventy.tag_data a) = None ->
        Eleventy.tagYear a
        = default 0 (Eleventy.td_releaseYear (Eleventy.tag_data a))).
Proof.
  unfold Eleventy.movies.
  change Eleventy.byTagYearDesc with (Js.byKeyDesc Eleventy.tagYear).
  split; [apply Array_sort_Permutation|].
  split; [apply Array_sort_descending|].
  split; [intros k; apply Array_sort_stable|].
  split.
  - intros a y Hy Hne. unfold Eleventy.tagYear. rewrite Hy. simpl.
    unfold Js.truthy_num. by destruct (decide (y = 0)).
  - intros a Hy. unfold Eleventy.tagYear. rewrite Hy. simpl.
    destruct (Eleventy.td_releaseYear (Eleventy.tag_data a)) as [z|]; [|done].
    simpl. unfold Js.truthy_num. by destruct (decide (z = 0)).
Qed.

(** X2.  The merged collection is determined by its order: any arrangement
    that is in descending order of the comparator's year and keeps, year by
    year, the sequence of the concatenated input is the collection
    [allMovies] returns. *)
Theorem allMovies_determined (f : Eleventy.SnapshotFile)
    (items : list Eleventy.Item) (l : list Eleventy.Movie) :
  Js.descending Eleventy.yearOf l ->
  (forall k : Z,
     filter (fun a => Eleventy.yearOf a = k) l
     = filter (fun a => Eleventy.yearOf a = k)
         (Eleventy.cmsMovies f ++ Eleventy.localMovies items)) ->
  l = Eleventy.allMovies f items.
Proof.
  intros Hd Hs. apply (stable_descending_unique Eleventy.yearOf); [done| |].
  - unfold Eleventy.allMovies.
    change Eleventy.byYearDesc with (Js.byKeyDesc Eleventy.yearOf).
    apply Array_sort_descending.
  - intros k. rewrite Hs. unfold Eleventy.allMovies.
    change Eleventy.byYearDesc with (Js.byKeyDesc Eleventy.yearOf).
    symmetry. apply Array_sort_stable.
Qed.

(** X2 on the sample records of 2001, 2020 and 2010. *)
Lemma allMovies_determined_witness :
  [Samples.remote2020; Eleventy.localMovie Samples.item2010; Samples.remote2001]
  = Eleventy.allMovies
      (Eleventy.Parsed (Some [Samples.remote2001; Samples.remote2020]))
      [Samples.item2010].
Proof.
  apply allMovies_determined.
  - repeat constructor; vm_compute; discriminate.
  - intros k. simpl. rewrite !filter_cons, !filter_nil.
    change (Eleventy.yearOf Samples.remote2020) with 2020.
    change (Eleventy.yearOf Samples.remote2001) with 2001.
    change (Eleventy.yearOf (Eleventy.localMovie Samples.item2010)) with 2010.
    repeat case_decide; try reflexivity; lia.
Defined.

(** X3.  The [limit] filter returns a front part of the array: for a limit
    of at least 0 its first [limit] elements (all of them when there are
    fewer), for a negative limit all but the last [-limit] elements. *)
Theorem limit_spec {A} (array : list A) (n : Z) :
  Eleventy.limit array n `prefix_of` array
  /\ (0 <= n ->
      Eleventy.limit array n = take (Z.to_nat n) array
      /\ length (Eleventy.limit array n) = Nat.min (Z.to_nat n) (length array))
  /\ (Z.of_nat (length array) <= n -> Eleventy.limit array n = array)
  /\ (n < 0 ->
      Eleventy.limit array n = take (length array - Z.to_nat (- n)) array).
Proof.
  unfold Eleventy.limit, Eleventy.slice_to. cbv zeta.
  split; [apply prefix_take|].
  split; [|split].
  - intros Hn. destruct (n <? 0) eqn:E; [apply Z.ltb_lt in E; lia|].
    assert (take (Z.to_nat (Z.min n (Z.of_nat (length array)))) array
            = take (Z.to_nat n) array) as ->.
    { destruct (decide (n <= Z.of_nat (length array))).
      - by rewrite Z.min_l.
      - rewrite Z.min_r, Nat2Z.id by lia.
        rewrite !take_ge; [done|lia|lia]. }
    split; [done|]. by rewrite length_take.
  - intros Hn. destruct (n <? 0) eqn:E; [apply Z.ltb_lt in E; lia|].
    rewrite Z.min_r, Nat2Z.id by lia. by apply take_ge.
  - intros Hn. apply Z.ltb_lt in Hn as E. rewrite E. f_equal. lia.
Qed.

(** X4.  Limiting the merged collection keeps its newest records: every
    record kept has a year at least that of every record left out. *)
Theorem limit_allMovies_newest (f : Eleventy.SnapshotFile)
    (items : list Eleventy.Item) (n : Z) (a b : Eleventy.Movie) :
  a ∈ Eleventy.limit (Eleventy.allMovies f items) n ->
  b ∈ Eleventy.allMovies f items ->
  b ∉ Eleventy.limit (Eleventy.allMovies f items) n ->
  Eleventy.yearOf b <= Eleventy.yearOf a.
Proof.
  unfold Eleventy.limit, Eleventy.slice_to. cbv zeta.
  set (l := Eleventy.allMovies f items).
  set (k := Z.to_nat _). intros Ha Hb Hnb.
  assert (Js.descending Eleventy.yearOf (take k l ++ drop k l)) as Hd.
  { rewrite take_drop. unfold l, Eleventy.allMovies.
    change Eleventy.byYearDesc with (Js.byKeyDesc Eleventy.yearOf).
    apply Array_sort_descending. }
  apply (descending_app Eleventy.yearOf _ _ a b Hd Ha).
  rewrite <- (take_drop k l) in Hb.
  apply elem_of_app in Hb as [Hb|Hb]; [done|exact Hb].
Qed.

(** X4 on the sample build: with a limit of 1 the record of 2020 is kept
    and the record of 2001 is left out. *)
Lemma limit_allMovies_newest_witness :
  Eleventy.yearOf Samples.remote2001 <= Eleventy.yearOf Samples.remote2020.
Proof.
  apply (limit_allMovies_newest
           (Eleventy.Parsed (Some [Samples.remote2001; Samples.remote2020]))
           [Samples.item2010] 1).
  - vm_compute. left.
  - vm_compute. do 2 right. left.
  - vm_compute. intros H. apply list_elem_of_singleton in H. discriminate.
Defined.

(** X5.  The [reverse] filter returns the elements in the opposite order:
    applied twice it gives the array back, and applied to the merged
    collection it gives the records in ascending order of year. *)
Theorem reverse_spec (f : Eleventy.SnapshotFile) (items : list Eleventy.Item) :
  (forall (A : Type) (array : list A),
     Eleventy.reverse (Eleventy.reverse array) = array
     /\ Permutation (Eleventy.reverse array) array
     /\ forall i x, array !! i = Some x ->
          Eleventy.reverse array !! (length array - S i)%nat = Some x)
  /\ StronglySorted (fun a b => Eleventy.yearOf a <= Eleventy.yearOf b)
       (Eleventy.reverse (Eleventy.allMovies f items)).
Proof.
  split.
  - intros A array. unfold Eleventy.reverse.
    split; [apply rev_involutive|].
    split; [symmetry; apply Permutation_rev|].
    intros i x Hx. rewrite rev_alt.
    change (rev_append array []) with (list.reverse array).
    rewrite reverse_lookup.
    + assert (i < length array)%nat by (by eapply lookup_lt_Some).
      replace (length array - S (length array - S i))%nat with i by lia. done.
    + assert (i < length array)%nat by (by eapply lookup_lt_Some). lia.
  - apply descending_rev. unfold Eleventy.allMovies.
    change Eleventy.byYearDesc with (Js.byKeyDesc Eleventy.yearOf).
    apply Array_sort_descending.
Qed.

(** ** The snapshot step: what it leaves behind *)

(** The step always completes normally and replaces the snapshot file by
    the records [Build.written] names. *)
Lemma fetchContentfulData_files (env : FetchCms.Env)
    (net : string -> Js.FetchResult FetchCms.Data) (w : FetchCms.World) :
  (FetchCms.fetchContentfulData env net w).1 = Js.Normal tt
  /\ FetchCms.files (FetchCms.fetchContentfulData env net w).2
     = <[FetchCms.cmsDataPath := {| FetchCms.movies := Build.written env net |}]>
         (FetchCms.files w).
Proof.
  unfold FetchCms.fetchContentfulData, Build.written.
  destruct (Js.not_str (FetchCms.CONTENTFUL_SPACE_ID env)
            || Js.not_str (FetchCms.CONTENTFUL_ACCESS_TOKEN env)); [done|].
  unfold FetchCms.tryBlock, FetchCms.catchBlock,
    Js.try_catch, Js.bind, FetchCms.fetch, Js.lift. simpl.
  destruct (net _) as [m|resp]; simpl; [done|].
  destruct (Js.ok resp); simpl; [|done].
  destruct (Js.json resp) as [data|m]; simpl; [|done].
  by destruct (FetchCms.normalize data) as [ms|m].
Qed.

(** X6.  The snapshot step overwrites the snapshot file as a whole and
    touches no other file: what the file holds afterwards does not depend
    on the files found, every other path is as before, and running the
    step a second time against the same configuration and network leaves
    the files as the first run left them. *)
Theorem snapshot_full_overwrite (env : FetchCms.Env)
    (net : string -> Js.FetchResult FetchCms.Data) (w w' : FetchCms.World) :
  let run v := (FetchCms.fetchContentfulData env net v).2 in
  FetchCms.files (run w) !! FetchCms.cmsDataPath
  = FetchCms.files (run w') !! FetchCms.cmsDataPath
  /\ is_Some (FetchCms.files (run w) !! FetchCms.cmsDataPath)
  /\ (forall p, p <> FetchCms.cmsDataPath ->
        FetchCms.files (run w) !! p = FetchCms.files w !! p)
  /\ FetchCms.files (run (run w)) = FetchCms.files (run w).
Proof.
  intros run. unfold run.
  destruct (fetchContentfulData_files env net w) as [_ E].
  destruct (fetchContentfulData_files env net w') as [_ E'].
  destruct (fetchContentfulData_files env net
              (FetchCms.fetchContentfulData env net w).2) as [_ E2].
  rewrite E2, E, E'. rewrite !lookup_insert_eq.
  split; [done|]. split; [by eexists|].
  split; [intros p Hp; by rewrite lookup_insert_ne|].
  apply insert_insert_eq.
Qed.

(** ** The build *)

Lemma build_eq (env : FetchCms.Env)
    (net : string -> Js.FetchResult FetchCms.Data) (items : list Eleventy.Item)
    (w : FetchCms.World) :
  Build.build env net items w
  = Js.Array_sort (Js.byKeyDesc Eleventy.yearOf)
      ((Build.parsedMovie <$> Build.written env net)
       ++ Eleventy.localMovies items).
Proof.
  unfold Build.build, Build.snapshotFile.
  destruct (fetchContentfulData_files env net w) as [_ ->].
  by rewrite lookup_insert_eq.
Qed.

(** X7.  A build (snapshot step, then the [allMovies] callback on the file
    it wrote) does not depend on what an earlier build left on disk; its
    collection holds every record written and every local item, once each,
    remote records before local ones of the same year; and a remote record
    is keyed by the release year the step wrote for it. *)
Theorem build_fresh (env : FetchCms.Env)
    (net : string -> Js.FetchResult FetchCms.Data) (items : list Eleventy.Item)
    (w w' : FetchCms.World) :
  let input := (Build.parsedMovie <$> Build.written env net)
               ++ Eleventy.localMovies items in
  Build.build env net items w = Build.build env net items w'
  /\ Permutation (Build.build env net items w) input
  /\ length (Build.build env net items w)
     = (length (Build.written env net) + length items)%nat
  /\ Js.descending Eleventy.yearOf (Build.build env net items w)
  /\ (forall k : Z,
        filter (fun a => Eleventy.yearOf a = k) (Build.build env net items w)
        = filter (fun a => Eleventy.yearOf a = k) input)
  /\ (forall m, Eleventy.yearOf (Build.parsedMovie m) = FetchCms.releaseYear m).
Proof.
  intros input. rewrite !build_eq. fold input.
  split; [done|].
  split; [apply Array_sort_Permutation|].
  split.
  { rewrite (Permutation_length (Array_sort_Permutation _ input)).
    unfold input, Eleventy.localMovies.
    by rewrite length_app, length_fmap, length_map. }
  split; [apply Array_sort_descending|].
  split; [intros k; apply Array_sort_stable|].
  intros m. unfold Eleventy.yearOf, Build.parsedMovie. simpl.
  unfold Js.truthy_num. by destruct (decide (FetchCms.releaseYear m = 0)).
Qed.

Lemma written_missing (env : FetchCms.Env)
    (net : string -> Js.FetchResult FetchCms.Data) :
  Spec.missing (FetchCms.CONTENTFUL_SPACE_ID env)
  \/ Spec.missing (FetchCms.CONTENTFUL_ACCESS_TOKEN env)
  \/ Spec.fails net ->
  Build.written env net = [].
Proof.
  intros H. unfold Build.written.
  destruct (Js.not_str (FetchCms.CONTENTFUL_SPACE_ID env)
            || Js.not_str (FetchCms.CONTENTFUL_ACCESS_TOKEN env)) eqn:E;
    [done|].
  apply orb_false_iff in E as [E1 E2].
  destruct H as [[H|H]|[[H|H]|H]];
    try (rewrite H in E1; discriminate); try (rewrite H in E2; discriminate).
  match goal with |- context [net ?u] => specialize (H u) end.
  destruct (net _) as [m|r]; [done|].
  destruct H as [->|[m Hm]]; [done|].
  destruct (Js.ok r); [|done]. by rewrite Hm.
Qed.

(** X8.  When a credential is missing or empty, or every request fails,
    the build goes through with the local records alone: its collection is
    the one a build with no snapshot file at all produces. *)
Theorem build_degraded (env : FetchCms.Env)
    (net : string -> Js.FetchResult FetchCms.Data) (items : list Eleventy.Item)
    (w : FetchCms.World) :
  Spec.missing (FetchCms.CONTENTFUL_SPACE_ID env)
  \/ Spec.missing (FetchCms.CONTENTFUL_ACCESS_TOKEN env)
  \/ Spec.fails net ->
  Build.build env net items w = Eleventy.allMovies Eleventy.Absent items
  /\ Permutation (Build.build env net items w) (Eleventy.localMovies items).
Proof.
  intros H. rewrite build_eq, (written_missing env net H).
  split; [done|]. apply Array_sort_Permutation.
Qed.

(** X8 on a build with both credentials against a network that answers
    every request with status 500. *)
Lemma build_degraded_witness :
  Build.build Samples.credentials Samples.status500 [Samples.item2010]
    Samples.freshBuild
  = Eleventy.allMovies Eleventy.Absent [Samples.item2010].
Proof.
  apply (build_degraded Samples.credentials Samples.status500
           [Samples.item2010] Samples.freshBuild).
  right. right. intros url. left. reflexivity.
Defined.

(** ** The conversion of the Contentful answer *)

Lemma mapC_Forall2 {A B} (f : A -> Js.Completion B) (l : list A) (ms : list B) :
  Js.mapC f l = Js.Normal ms -> Forall2 (fun x y => f x = Js.Normal y) l ms.
Proof.
  revert ms. induction l as [|x l IH]; simpl; intros ms H.
  - injection H as <-. constructor.
  - destruct (f x) as [y|m] eqn:E; [|done].
    destruct (Js.mapC f l) as [ys|m]; [|done].
    injection H as <-. constructor; [done|by apply IH].
Qed.

Lemma mapC_Normal_iff {A B} (f : A -> Js.Completion B) (l : list A) :
  (exists ms, Js.mapC f l = Js.Normal ms)
  <-> Forall (fun x => exists y, f x = Js.Normal y) l.
Proof.
  induction l as [|x l IH]; simpl.
  - split; [constructor | by eexists].
  - split.
    + intros [ms H]. destruct (f x) as [y|m] eqn:E; [|done].
      destruct (Js.mapC f l) as [ys|m]; [|done].
      constructor; [by eexists|]. apply IH. by eexists.
    + intros H. apply Forall_cons in H as [[y Hy] H].
      apply IH in H as [ys Hys]. rewrite Hy, Hys. by eexists.
Qed.

(** An assignment to the plain object, read back. *)
Lemma lookup_set_string (k v : string) (t : gmap string string) (j : string) :
  Js.set_string k v t !! j
  = if decide (k = j /\ k <> "__proto__") then Some v else t !! j.
Proof.
  unfold Js.set_string. destruct (decide (k = "__proto__")) as [->|Hk].
  - case_decide as H; [by destruct H|done].
  - rewrite lookup_insert. case_decide as E.
    + by rewrite decide_True.
    + rewrite decide_False; [done|]. by intros [? _].
Qed.

(** One round of the loop over the included assets either leaves the
    table alone or stores the url the asset offers. *)
Lemma addAsset_cases (t t' : gmap string string) (a : FetchCms.Asset) :
  FetchCms.addAsset t a = Js.Normal t' ->
  (t' = t /\ forall i u, ~ Spec.offers a i u)
  \/ exists i u, Spec.offers a i u
       /\ t' = Js.set_string i ("https:" +:+ u) t.
Proof.
  unfold FetchCms.addAsset, FetchCms.storeUrl, Spec.offers.
  destruct (FetchCms.asset_fields a) as [af|]; [|done]. simpl.
  destruct (FetchCms.fileUrl af) as [u|].
  - unfold Js.truthy_str. destruct (decide (u = EmptyString)) as [->|Hu].
    + intros [= <-]. left. split; [done|]. by intros i u' (_ & [= <-] & ?).
    + destruct (FetchCms.asset_sys a) as [s|]; [|done].
      intros [= <-]. right.
      by exists (Js.property_key (FetchCms.sys_id s)), u.
  - intros [= <-]. left. split; [done|]. by intros i u' (_ & ? & _).
Qed.

Lemma addAsset_Normal_iff (t : gmap string string) (a : FetchCms.Asset) :
  (exists t', FetchCms.addAsset t a = Js.Normal t') <-> Spec.asset_ok a.
Proof.
  unfold FetchCms.addAsset, FetchCms.storeUrl, Spec.asset_ok.
  destruct (FetchCms.asset_fields a) as [af|].
  2:{ split; [by intros [? ?]|]. by intros (af & ? & _). }
  destruct (FetchCms.fileUrl af) as [u|] eqn:Eu.
  - unfold Js.truthy_str. destruct (decide (u = EmptyString)) as [Hu|Hu].
    + split; [|by eexists]. intros _. exists af. split; [done|].
      intros u' Hu'. rewrite Eu in Hu'. by injection Hu' as <-.
    + destruct (FetchCms.asset_sys a) as [s|].
      * split; [|by eexists]. intros _. exists af. split; [done|]. by eexists.
      * split; [by intros [? ?]|]. intros (af' & [= <-] & H).
        by destruct (H u Eu Hu).
  - split; [|by eexists]. intros _. exists af. split; [done|].
    intros u' Hu'. by rewrite Eu in Hu'.
Qed.

Lemma addAssets_Normal_iff (t : gmap string string) (l : list FetchCms.Asset) :
  (exists t', FetchCms.addAssets t l = Js.Normal t') <-> Forall Spec.asset_ok l.
Proof.
  revert t. induction l as [|a l IH]; intros t; simpl.
  - split; [constructor | by eexists].
  - rewrite Forall_cons, <- (addAsset_Normal_iff t a). split.
    + intros [t' H]. destruct (FetchCms.addAsset t a) as [t1|m]; [|done].
      split; [by eexists|]. apply (IH t1). by eexists.
    + intros [[t1 H1] H]. rewrite H1. by apply IH.
Qed.

(** Every entry of the table is an earlier entry or the url an asset of
    the list offers under that id, and no entry is made under [__proto__]. *)
Lemma addAssets_sound (t t' : gmap string string) (l : list FetchCms.Asset) :
  FetchCms.addAssets t l = Js.Normal t' ->
  forall i v, t' !! i = Some v ->
    t !! i = Some v
    \/ (i <> "__proto__"
        /\ exists a u, a ∈ l /\ Spec.offers a i u /\ v = "https:" +:+ u).
Proof.
  revert t. induction l as [|a l IH]; simpl; intros t H i v Hv.
  - injection H as <-. by left.
  - destruct (FetchCms.addAsset t a) as [t1|m] eqn:E; [|done].
    destruct (IH _ H i v Hv) as [Hin|(Hi & a0 & u0 & ? & ? & ?)].
    2:{ right. split; [done|]. exists a0, u0. split; [by right|done]. }
    destruct (addAsset_cases _ _ _ E) as [[-> _]|(k & u & Ho & ->)];
      [by left|].
    rewrite lookup_set_string in Hin. case_decide as Hk; [|by left].
    destruct Hk as [-> Hk]. injection Hin as <-.
    right. split; [done|]. exists a, u. split; [left|done].
Qed.

(** Every id of the table stays in it, and every id other than
    [__proto__] under which an asset of the list offers a url is in it. *)
Lemma addAssets_complete (t t' : gmap string string) (l : list FetchCms.Asset) :
  FetchCms.addAssets t l = Js.Normal t' ->
  (forall i, is_Some (t !! i) -> is_Some (t' !! i))
  /\ (forall a i u, a ∈ l -> Spec.offers a i u -> i <> "__proto__" ->
        is_Some (t' !! i)).
Proof.
  revert t. induction l as [|a l IH]; simpl; intros t H.
  - injection H as <-. split; [done|].
    intros a i u Ha. by apply elem_of_nil in Ha.
  - destruct (FetchCms.addAsset t a) as [t1|m] eqn:E; [|done].
    destruct (IH _ H) as [Hkeep Hl].
    assert (forall i, is_Some (t !! i) -> is_Some (t1 !! i)) as Hold.
    { intros i Hi.
      destruct (addAsset_cases _ _ _ E) as [[-> _]|(k & u & _ & ->)]; [done|].
      rewrite lookup_set_string. by case_decide; [eexists|]. }
    split; [intros i Hi; by apply Hkeep, Hold|].
    intros a0 i u Ha Ho Hi. apply elem_of_cons in Ha as [->|Ha];
      [|by eapply Hl].
    apply Hkeep.
    destruct (addAsset_cases _ _ _ E) as [[_ Hno]|(k & u' & Ho' & ->)].
    + by destruct (Hno i u).
    + rewrite lookup_set_string.
      assert (k = i) as -> by (destruct Ho as [Ho _], Ho' as [Ho' _]; congruence).
      rewrite decide_True by done. by eexists.
Qed.

Lemma buildAssets_facts (data : FetchCms.Data) (t : gmap string string) :
  FetchCms.buildAssets data = Js.Normal t ->
  (forall i v, t !! i = Some v ->
     i <> "__proto__"
     /\ exists a u, a ∈ default [] (FetchCms.includes_Asset data)
                    /\ Spec.offers a i u /\ v = "https:" +:+ u)
  /\ (forall a i u, a ∈ default [] (FetchCms.includes_Asset data) ->
        Spec.offers a i u -> i <> "__proto__" -> is_Some (t !! i)).
Proof.
  unfold FetchCms.buildAssets.
  destruct (FetchCms.includes_Asset data) as [l|]; simpl; intros H.
  - split.
    + intros i v Hv. destruct (addAssets_sound _ _ _ H i v Hv) as [Hi|Hi];
        [by rewrite lookup_empty in Hi | done].
    + apply (addAssets_complete _ _ _ H).
  - injection H as <-. split; [intros i v Hv; by rewrite lookup_empty in Hv|].
    intros a i u Ha. by apply elem_of_nil in Ha.
Qed.

(** X9.  The asset table holds, for an id, only a url that an included
    asset offers under that id, with [https:] in front, and nothing under
    [__proto__], where the assignment stores nothing; it holds a url for
    every other id under which an included asset offers a non-empty one. *)
Theorem buildAssets_table (data : FetchCms.Data) (t : gmap string string) :
  FetchCms.buildAssets data = Js.Normal t ->
  (forall i v, t !! i = Some v ->
     i <> "__proto__"
     /\ exists a u, a ∈ default [] (FetchCms.includes_Asset data)
                    /\ Spec.offers a i u /\ v = "https:" +:+ u)
  /\ (forall a i u, a ∈ default [] (FetchCms.includes_Asset data) ->
        Spec.offers a i u -> i <> "__proto__" -> is_Some (t !! i))
  /\ t !! "__proto__" = None
  /\ (FetchCms.includes_Asset data = None -> t = ∅).
Proof.
  intros H. destruct (buildAssets_facts data t H) as [Hs Hc].
  split; [done|]. split; [done|]. split.
  - destruct (t !! "__proto__") as [v|] eqn:E; [|done].
    by destruct (Hs _ _ E) as [? _].
  - intros Hnone. unfold FetchCms.buildAssets in H. rewrite Hnone in H.
    by injection H as <-.
Qed.

(** X9 on the sample answer: the included asset [a1] is in the table. *)
Lemma buildAssets_table_witness :
  exists t, FetchCms.buildAssets Samples.resolvedPoster = Js.Normal t
    /\ is_Some (t !! "a1").
Proof.
  eexists. split; [reflexivity|].
  eapply (buildAssets_table Samples.resolvedPoster _ eq_refl).
  - left.
  - split; [reflexivity|]. split; [reflexivity|discriminate].
  - discriminate.
Defined.

Lemma toMovie_Normal_iff (t : gmap string string) (e : FetchCms.Entry) :
  (exists m, FetchCms.toMovie t e = Js.Normal m) <-> Spec.entry_ok e.
Proof.
  unfold FetchCms.toMovie, FetchCms.posterId, Spec.entry_ok.
  destruct (FetchCms.fields e) as [f|].
  2:{ split; [by intros [? ?]|]. by intros (_ & f & ? & _). }
  destruct (FetchCms.f_poster f) as [[|l rest]|] eqn:Ep.
  - destruct (FetchCms.sys e) as [s|].
    + split; [|by eexists]. intros _. split; [by eexists|].
      exists f. split; [done|]. intros l0 rest0 H0. by rewrite Ep in H0.
    + split; [by intros [? ?]|]. by intros ([? ?] & _).
  - destruct (FetchCms.link_sys l) as [ls|] eqn:El.
    + destruct (FetchCms.sys e) as [s|].
      * split; [|by eexists]. intros _. split; [by eexists|].
        exists f. split; [done|]. intros l' rest' H0. rewrite Ep in H0.
        injection H0 as <- <-. rewrite El. by eexists.
      * split; [by intros [? ?]|]. by intros ([? ?] & _).
    + split; [by intros [? ?]|]. intros (_ & f' & [= <-] & H).
      destruct (H l rest Ep) as [? ?]. congruence.
  - destruct (FetchCms.sys e) as [s|].
    + split; [|by eexists]. intros _. split; [by eexists|].
      exists f. split; [done|]. intros l0 rest0 H0. by rewrite Ep in H0.
    + split; [by intros [? ?]|]. by intros ([? ?] & _).
Qed.

(** X10.  The conversion goes through exactly when the answer has an
    [items] array whose entries all have [sys] and [fields] and a [sys] on
    their first poster link, and every included asset has [fields] and,
    if it has a non-empty url, [sys]; otherwise it throws (and the step
    writes the empty snapshot). *)
Theorem normalize_succeeds_iff (data : FetchCms.Data) :
  (exists ms, FetchCms.normalize data = Js.Normal ms)
  <-> Forall Spec.asset_ok (default [] (FetchCms.includes_Asset data))
      /\ exists l, FetchCms.items data = Some l /\ Forall Spec.entry_ok l.
Proof.
  unfold FetchCms.normalize, FetchCms.buildAssets.
  assert (forall t l,
            (exists ms, Js.mapC (FetchCms.toMovie t) l = Js.Normal ms)
            <-> Forall Spec.entry_ok l) as Hitems.
  { intros t l. rewrite mapC_Normal_iff. apply Forall_proper; [|done].
    intros e. apply toMovie_Normal_iff. }
  assert (forall t,
            (exists ms, match FetchCms.items data with
                        | Some l => Js.mapC (FetchCms.toMovie t) l
                        | None => Js.Throw
                            "Cannot read properties of undefined (reading 'map')"
                        end = Js.Normal ms)
            <-> exists l, FetchCms.items data = Some l
                  /\ Forall Spec.entry_ok l) as Hdata.
  { intros t. destruct (FetchCms.items data) as [l|].
    - rewrite Hitems. split; [by eauto|]. by intros (l' & [= <-] & H).
    - split; [by intros [? ?]|]. by intros (l' & ? & _). }
  destruct (FetchCms.includes_Asset data) as [la|]; simpl.
  - destruct (FetchCms.addAssets ∅ la) as [t|m] eqn:E.
    + rewrite Hdata. split; [|by intros [_ ?]].
      intros H. split; [|done]. apply (addAssets_Normal_iff ∅). by eexists.
    + split; [by intros [? ?]|]. intros [H _].
      apply (addAssets_Normal_iff ∅) in H as [t' H]. congruence.
  - rewrite Hdata. split; [by split|by intros [_ ?]].
Qed.

Lemma toMovie_converted (t : gmap string string) (e : FetchCms.Entry)
    (m : FetchCms.Movie) :
  (forall i v, t !! i = Some v ->
     i <> "__proto__" /\ exists u, v = "https:" +:+ u) ->
  FetchCms.toMovie t e = Js.Normal m -> Spec.converted e m.
Proof.
  intros Ht. unfold FetchCms.toMovie, Spec.converted.
  destruct (FetchCms.fields e) as [f|] eqn:Ef; [|done].
  destruct (FetchCms.posterId f) as [pid|] eqn:Ep; [|done].
  destruct (FetchCms.sys e) as [s|] eqn:Es; [|done].
  intros [= <-]. exists s, f, pid. simpl.
  split; [done|]. split; [done|]. split; [done|]. split; [done|].
  split; [|split; [done|]].
  - unfold Js.str_or, Js.truthy_str.
    destruct (FetchCms.f_title f) as [x|]; [|done].
    by destruct (decide (x = EmptyString)).
  - unfold Spec.poster_for, Js.truthy_str, FetchCms.lookupAsset.
    destruct pid as [i|]; [|done].
    destruct (decide (i = EmptyString)); [done|].
    destruct (t !! i) as [v|] eqn:E.
    + destruct (Ht i v E) as [Hi [u ->]].
      rewrite decide_False by done. right. by eexists.
    + destruct (decide (i = "__proto__")); [done|by left].
Qed.

(** X11.  A conversion that goes through yields one record per entry, in
    the entries' order: the record of an entry carries the entry's
    [sys.id], a non-empty title and the source tag [contentful]; its
    poster is the placeholder when the entry has no first poster id,
    [Object.prototype] (written [{}]) when that id is [__proto__], and
    otherwise undefined or an [https:] url. *)
Theorem normalize_shape (data : FetchCms.Data) (ms : list FetchCms.Movie) :
  FetchCms.normalize data = Js.Normal ms ->
  exists l, FetchCms.items data = Some l
    /\ length ms = length l
    /\ Forall2 Spec.converted l ms.
Proof.
  unfold FetchCms.normalize.
  destruct (FetchCms.buildAssets data) as [t|] eqn:Et; [|done].
  destruct (FetchCms.items data) as [l|]; [|done].
  intros H. exists l. split; [done|].
  apply mapC_Forall2 in H.
  assert (forall i v, t !! i = Some v ->
            i <> "__proto__" /\ exists u, v = "https:" +:+ u) as Ht.
  { intros i v Hv.
    destruct (buildAssets_facts data t Et) as [Hs _].
    destruct (Hs i v Hv) as (Hi & a & u & _ & _ & ->). split; [done|by eexists]. }
  split; [symmetry; by eapply Forall2_length|].
  eapply Forall2_impl; [exact H|]. intros e m. by apply toMovie_converted.
Qed.

(** X11 on the sample answer with two entries. *)
Lemma normalize_shape_witness :
  exists ms, FetchCms.normalize Samples.resolvedPoster = Js.Normal ms
    /\ length ms = 2%nat.
Proof.
  eexists. split; [reflexivity|].
  destruct (normalize_shape Samples.resolvedPoster _ eq_refl)
    as (l & Hl & Hlen & _).
  injection Hl as <-. exact Hlen.
Defined.

(** X12.  When the conversion goes through, an entry whose first poster
    link names an id other than [__proto__] under which an included asset
    offers a url gets that url, or the url of another included asset with
    the same id, with [https:] in front, as its poster. *)
Theorem poster_resolves (data : FetchCms.Data) (ms : list FetchCms.Movie)
    (l : list FetchCms.Entry) (n : nat) (e : FetchCms.Entry)
    (f : FetchCms.Fields) (i u : string) (a : FetchCms.Asset) :
  FetchCms.normalize data = Js.Normal ms ->
  FetchCms.items data = Some l ->
  l !! n = Some e ->
  FetchCms.fields e = Some f ->
  FetchCms.posterId f = Js.Normal (Some i) ->
  a ∈ default [] (FetchCms.includes_Asset data) ->
  Spec.offers a i u ->
  i <> EmptyString ->
  i <> "__proto__" ->
  exists m a' u',
    ms !! n = Some m
    /\ FetchCms.poster m = Some (FetchCms.Url ("https:" +:+ u'))
    /\ a' ∈ default [] (FetchCms.includes_Asset data)
    /\ Spec.offers a' i u'.
Proof.
  unfold FetchCms.normalize.
  destruct (FetchCms.buildAssets data) as [t|] eqn:Et; [|done].
  intros H Hl Hn Hf Hi Ha Ho Hne Hproto. rewrite Hl in H.
  apply mapC_Forall2 in H.
  destruct (Forall2_lookup_l _ _ _ _ _ H Hn) as (m & Hm & Hto).
  destruct (buildAssets_facts data t Et) as (Hsound & Hcomplete).
  destruct (Hcomplete a i u Ha Ho Hproto) as [v Hv].
  destruct (Hsound i v Hv) as (_ & a' & u' & Ha' & Ho' & ->).
  exists m, a', u'. split; [done|]. split; [|done].
  unfold FetchCms.toMovie in Hto. rewrite Hf, Hi in Hto.
  destruct (FetchCms.sys e) as [s|]; [|done].
  injection Hto as <-. simpl.
  unfold Js.truthy_str, FetchCms.lookupAsset.
  destruct (decide (i = EmptyString)); [done|]. by rewrite Hv.
Qed.

(** X12 on the sample answer: the first entry's poster is the included
    asset's url under [https:]. *)
Lemma poster_resolves_witness :
  exists m a' u',
    [ {| FetchCms.id := Some "m1"; FetchCms.title := "Inception";
         FetchCms.director := "Christopher Nolan";
         FetchCms.releaseYear := 2010; FetchCms.genre := "Sci-Fi";
         FetchCms.rating := 0%Qc; FetchCms.description := EmptyString;
         FetchCms.poster :=
           Some (FetchCms.Url "https://images.ctfassets.net/a1/poster.jpg");
         FetchCms.source := "contentful";
         FetchCms.createdAt := Some "2025-11-14T00:00:00Z";
         FetchCms.updatedAt := Some "2025-11-14T00:00:00Z" |} ] !! 0%nat
    = Some m
    /\ FetchCms.poster m = Some (FetchCms.Url ("https:" +:+ u'))
    /\ a' ∈ [Samples.posterAsset]
    /\ Spec.offers a' "a1" u'.
Proof.
  eapply (poster_resolves
           {| FetchCms.items := Some [Samples.entryWithPoster];
              FetchCms.includes_Asset := Some [Samples.posterAsset] |}
           _ [Samples.entryWithPoster] 0 Samples.entryWithPoster
           _ "a1" "//images.ctfassets.net/a1/poster.jpg" Samples.posterAsset);
    try reflexivity.
  - left.
  - split; [reflexivity|]. split; [reflexivity|discriminate].
  - discriminate.
  - discriminate.
Defined.
(** ** The proxy: envelope and encoding *)

Ltac in_list :=
  repeat first [ apply list_elem_of_here | apply list_elem_of_further ].

Ltac not_in_list H :=
  repeat (apply elem_of_cons in H as [H|H]; [discriminate|]);
  by apply elem_of_nil in H.

(** The parts of the envelope statement that hold by inspection of a
    concrete response. *)
Ltac envelope :=
  unfold MovieFn.jsonHeaders;
  split; [in_list|]; split; [in_list|]; split; [in_list|];
  split; [split; [first [ by intros _
                        | let H := fresh in intros H; not_in_list H ]
                 | first [ let H := fresh in intros H; discriminate H
                         | intros _; in_list ]]|];
  split; [split; [first [ by intros _
                        | let H := fresh in intros [? H]; discriminate H ]
                 | first [ let H := fresh in intros H; discriminate H
                         | intros _; by eexists ]]|].

(** X13.  The handler always returns a response and never throws: its
    status is 200, 400, 404 or 500; every response carries the JSON
    content type and the permissive cross-origin header; the hour-long
    cache directive and the movie body come with status 200 and with no
    other; and at most one request is made upstream. *)
Theorem handler_envelope (env : MovieFn.Env)
    (net : string -> Js.FetchResult MovieFn.Omdb) (event : MovieFn.Event)
    (w : MovieFn.World) :
  exists r, (MovieFn.handler env net event w).1 = Js.Normal r
    /\ MovieFn.statusCode r ∈ [200; 400; 404; 500]
    /\ ("Content-Type", "application/json") ∈ MovieFn.headers r
    /\ ("Access-Control-Allow-Origin", "*") ∈ MovieFn.headers r
    /\ (("Cache-Control", "public, max-age=3600") ∈ MovieFn.headers r
        <-> MovieFn.statusCode r = 200)
    /\ ((exists m, MovieFn.body r = MovieFn.MovieBody m)
        <-> MovieFn.statusCode r = 200)
    /\ (MovieFn.requests (MovieFn.handler env net event w).2
        = MovieFn.requests w
        \/ exists t, MovieFn.requests (MovieFn.handler env net event w).2
                     = MovieFn.requests w ++ [MovieFn.apiUrl t]).
Proof.
  unfold MovieFn.handler, Js.try_catch, MovieFn.tryBlock, MovieFn.catchBlock.
  destruct (Js.not_str _).
  { eexists. split; [reflexivity|]. simpl. envelope. by left. }
  unfold Js.bind, MovieFn.fetch, Js.lift. simpl.
  destruct (net _) as [m|resp]; simpl.
  { eexists. split; [reflexivity|]. simpl. envelope. right; by eexists. }
  destruct (Js.ok resp); simpl.
  2:{ eexists. split; [reflexivity|]. simpl. envelope. right; by eexists. }
  destruct (Js.json resp) as [data|m]; simpl.
  2:{ eexists. split; [reflexivity|]. simpl. envelope. right; by eexists. }
  destruct (bool_decide _); simpl.
  - eexists. split; [reflexivity|]. simpl. envelope. right; by eexists.
  - eexists. split; [reflexivity|]. simpl. envelope. right; by eexists.
Qed.

(** X14.  A request whose [title] parameter is the empty string is treated
    like one without a title: it is answered 400 and no request is made
    upstream. *)
Theorem handler_empty_title (env : MovieFn.Env)
    (net : string -> Js.FetchResult MovieFn.Omdb) (event : MovieFn.Event)
    (w : MovieFn.World) :
  MovieFn.queryStringParameters event ≫= (.!! "title") = Some EmptyString ->
  MovieFn.handler env net event w
  = (Js.Normal {| MovieFn.statusCode := 400;
                  MovieFn.headers := MovieFn.jsonHeaders;
                  MovieFn.body :=
                    MovieFn.ErrorBody "Missing required parameter: title"
                      "Please provide a movie title in the query string"
                      None |}, w).
Proof.
  intros Ht. unfold MovieFn.handler, Js.try_catch, MovieFn.tryBlock.
  by rewrite Ht.
Qed.

(** X14 on a request with [title=] against a network that would answer. *)
Lemma handler_empty_title_witness :
  MovieFn.requests
    (MovieFn.handler Samples.production (Samples.answers Samples.omdbInception)
       (Samples.queryFor EmptyString) Samples.idle).2 = [].
Proof.
  by rewrite (handler_empty_title Samples.production
                (Samples.answers Samples.omdbInception)
                (Samples.queryFor EmptyString) Samples.idle eq_refl).
Defined.

(** X15.  Outside development the answer to a failed call says nothing
    about the failure: whatever was thrown, for whatever request, the
    response is the same. *)
Theorem handler_failure_opaque (env : MovieFn.Env)
    (net net' : string -> Js.FetchResult MovieFn.Omdb)
    (event event' : MovieFn.Event) (w w' : MovieFn.World) (m m' : string) :
  MovieFn.NODE_ENV env <> Some "development" ->
  (MovieFn.tryBlock net event w).1 = Js.Throw m ->
  (MovieFn.tryBlock net' event' w').1 = Js.Throw m' ->
  (MovieFn.handler env net event w).1 = (MovieFn.handler env net' event' w').1.
Proof.
  intros Henv H H'. unfold MovieFn.handler, Js.try_catch.
  destruct (MovieFn.tryBlock net event w) as [[r|m0] w0]; [done|].
  destruct (MovieFn.tryBlock net' event' w') as [[r|m0'] w0']; [done|].
  unfold MovieFn.catchBlock, Js.bind, MovieFn.console_call, Js.modify. simpl.
  by rewrite bool_decide_eq_false_2.
Qed.

(** X15 on a rejected request and one answered with status 500. *)
Lemma handler_failure_opaque_witness :
  (MovieFn.handler Samples.production (fun _ => Js.Rejected "ECONNRESET")
     (Samples.queryFor "Heat") Samples.idle).1
  = (MovieFn.handler Samples.production Samples.status500
       (Samples.queryFor "Inception") Samples.idle).1.
Proof.
  apply (handler_failure_opaque Samples.production _ _ _ _ _ _
           "ECONNRESET" "OMDB API returned status 500");
    [discriminate | reflexivity | reflexivity].
Defined.

Lemma hexDigit_unreserved (c : ascii) :
  Js.unreserved (Js.hexDigit (N_of_ascii c / 16)) = true
  /\ Js.unreserved (Js.hexDigit (N_of_ascii c mod 16)) = true.
Proof. destruct c as [[] [] [] [] [] [] [] []]; by vm_compute. Qed.

(** X16.  [encodeURIComponent] puts out only unreserved characters and
    percent signs, so an encoded title cannot add a parameter or a fragment
    to the url it is put into: none of [& = ? # / +] or the space occurs in
    it.  A title made of unreserved characters is left as it is. *)
Theorem encodeURIComponent_safe (s : string) :
  Forall Spec.url_safe (String.list_ascii_of_string (Js.encodeURIComponent s))
  /\ (forall c, c ∈ ["&"; "="; "?"; "#"; "/"; "+"; " "]%char ->
        c ∉ String.list_ascii_of_string (Js.encodeURIComponent s))
  /\ (Forall (fun c => Js.unreserved c = true) (String.list_ascii_of_string s) ->
      Js.encodeURIComponent s = s).
Proof.
  assert (Forall Spec.url_safe
            (String.list_ascii_of_string (Js.encodeURIComponent s))) as Hsafe.
  { induction s as [|c s IH]; simpl; [constructor|].
    destruct (Js.unreserved c) eqn:E; simpl.
    - constructor; [by left | done].
    - destruct (hexDigit_unreserved c) as [H1 H2].
      constructor; [by right|].
      constructor; [by left|]. constructor; [by left | done]. }
  split; [done|]. split.
  - intros c Hc Hin. rewrite Forall_forall in Hsafe.
    destruct (Hsafe c Hin) as [Hu| ->].
    + repeat (apply elem_of_cons in Hc as [->|Hc];
                [vm_compute in Hu; discriminate|]).
      by apply elem_of_nil in Hc.
    + not_in_list Hc.
  - clear Hsafe. induction s as [|c s IH]; simpl; [done|].
    intros H. apply Forall_cons in H as [Hc H]. by rewrite Hc, IH.
Qed.

Lemma hexDigit_code (k : N) :
  (k < 16)%N ->
  N_of_ascii (Js.hexDigit k) = (if (k <? 10)%N then 48 + k else 55 + k)%N.
Proof.
  intros Hk. unfold Js.hexDigit. apply N_ascii_embedding.
  destruct (k <? 10)%N eqn:E; [apply N.ltb_lt in E|apply N.ltb_ge in E]; lia.
Qed.

Lemma hexDigit_inj (j k : N) :
  (j < 16)%N -> (k < 16)%N -> Js.hexDigit j = Js.hexDigit k -> j = k.
Proof.
  intros Hj Hk H. apply (f_equal N_of_ascii) in H.
  rewrite !hexDigit_code in H by done.
  destruct (j <? 10)%N eqn:Ej, (k <? 10)%N eqn:Ek;
    try apply N.ltb_lt in Ej; try apply N.ltb_lt in Ek;
    try apply N.ltb_ge in Ej; try apply N.ltb_ge in Ek; lia.
Qed.

Lemma ascii_code_bound (c : ascii) : (N_of_ascii c < 256)%N.
Proof. destruct c as [[] [] [] [] [] [] [] []]; by vm_compute. Qed.

(** X17.  [encodeURIComponent] loses nothing: two titles with the same
    encoding are the same title, so the proxy's upstream url and the
    client's function url tell any two titles apart. *)
Theorem encodeURIComponent_inj (s s' : string) :
  (Js.encodeURIComponent s = Js.encodeURIComponent s' -> s = s')
  /\ (MovieFn.apiUrl s = MovieFn.apiUrl s' -> s = s')
  /\ (Live.functionUrl s = Live.functionUrl s' -> s = s').
Proof.
  assert (forall a b, Js.encodeURIComponent a = Js.encodeURIComponent b -> a = b)
    as Hinj.
  { clear. induction a as [|c a IH]; intros [|c' b]; simpl.
    - done.
    - destruct (Js.unreserved c'); discriminate.
    - destruct (Js.unreserved c); discriminate.
    - destruct (Js.unreserved c) eqn:E, (Js.unreserved c') eqn:E'.
      + intros [= -> H]. f_equal. by apply IH.
      + intros [= -> _]. vm_compute in E. discriminate.
      + intros [= <- _]. vm_compute in E'. discriminate.
      + intros [= H1 H2 H]. f_equal; [|by apply IH].
        pose proof (ascii_code_bound c). pose proof (ascii_code_bound c').
        apply hexDigit_inj in H1;
          [|apply N.Div0.div_lt_upper_bound; lia
           |apply N.Div0.div_lt_upper_bound; lia].
        apply hexDigit_inj in H2; [|apply N.mod_lt; lia|apply N.mod_lt; lia].
        rewrite <- (ascii_N_embedding c), <- (ascii_N_embedding c').
        f_equal.
        rewrite (N.div_mod (N_of_ascii c) 16), (N.div_mod (N_of_ascii c') 16)
          by lia.
        by rewrite H1, H2. }
  split; [apply Hinj|]. split.
  - unfold MovieFn.apiUrl, MovieFn.OMDB_API_KEY. simpl.
    intros H. apply Hinj. by simplify_eq.
  - unfold Live.functionUrl. simpl. intros H. apply Hinj. by simplify_eq.
Qed.

(** X17 on two titles that differ in a reserved character. *)
Lemma encodeURIComponent_inj_witness :
  Js.encodeURIComponent "Face/Off" = "Face%2FOff" /\ "Face/Off" = "Face/Off".
Proof.
  split; [reflexivity|].
  apply (encodeURIComponent_inj "Face/Off" "Face/Off"). reflexivity.
Defined.

(** ** The client cache *)

(** X18.  The cache gives back what was saved: after [saveToState] for a
    title, [getFromState] for that title returns the data saved last;
    lookups of other titles are as before; a title never saved gives
    [null]; and a lookup leaves the cache as it is. *)
Theorem state_round_trip (w : Live.World) (t : string) (d d' : Live.Json) :
  let w1 := Live.exec (Live.saveToState t d) w in
  let w2 := Live.exec (Live.saveToState t d') w1 in
  (Live.getFromState t w1).1 = Js.Normal (Some d)
  /\ (Live.getFromState t w2).1 = Js.Normal (Some d')
  /\ (forall k, k <> t ->
        (Live.getFromState k w1).1 = (Live.getFromState k w).1)
  /\ (forall k, Live.liveMovieState w !! k = None ->
        (Live.getFromState k w).1 = Js.Normal None)
  /\ (forall k, Live.liveMovieState (Live.exec (Live.getFromState k) w)
                = Live.liveMovieState w).
Proof.
  intros w1 w2.
  assert (forall k v e, Live.liveMovieState v !! k = Some e ->
            (Live.getFromState k v).1 = Js.Normal (Some (Live.data e))) as Hhit.
  { intros k v e H. unfold Live.getFromState. by rewrite H. }
  assert (forall k v, Live.liveMovieState v !! k = None ->
            (Live.getFromState k v).1 = Js.Normal None) as Hmiss.
  { intros k v H. unfold Live.getFromState. rewrite H.
    by destruct (getInherited_run k v) as (f & ->). }
  assert (forall v x, Live.liveMovieState (Live.exec (Live.saveToState t x) v)
            = <[t := {| Live.data := x; Live.timestamp := Live.now v;
                        Live.cached := true |}]> (Live.liveMovieState v))
    as Hsave by done.
  split; [by erewrite Hhit; [|unfold w1; rewrite Hsave; apply lookup_insert_eq]|].
  split; [by erewrite Hhit; [|unfold w2; rewrite Hsave; apply lookup_insert_eq]|].
  split.
  { intros k Hk.
    assert (Live.liveMovieState w1 !! k = Live.liveMovieState w !! k) as E
      by (unfold w1; rewrite Hsave; by apply lookup_insert_ne).
    destruct (Live.liveMovieState w !! k) as [e|] eqn:Ek.
    - by rewrite (Hhit k w1 e E), (Hhit k w e Ek).
    - by rewrite (Hmiss k w1 E), (Hmiss k w Ek). }
  split; [intros k Hk; by apply Hmiss|].
  intros k. unfold Live.exec, Live.getFromState.
  destruct (Live.liveMovieState w !! k); [done|].
  by destruct (getInherited_run k w) as (f & ->).
Qed.

(** ** What a request does to the page *)

Lemma regions_only_refl (m : gmap string Live.Element) : Spec.regions_only m m.
Proof. by intros j. Qed.

Lemma regions_only_trans (m1 m2 m3 : gmap string Live.Element) :
  Spec.regions_only m1 m2 -> Spec.regions_only m2 m3 -> Spec.regions_only m1 m3.
Proof.
  intros H1 H2 j. destruct (H1 j) as [A1 B1], (H2 j) as [A2 B2]. split.
  - intros Hj. by rewrite A2, A1.
  - by rewrite B2, B1.
Qed.

Lemma regions_only_alter (f : Live.Element -> Live.Element) (i : string)
    (m : gmap string Live.Element) :
  i ∈ Live.regions -> Spec.regions_only m (alter f i m).
Proof.
  intros Hi j. rewrite lookup_alter. case_decide as E; [subst j|done].
  split; [done|]. by rewrite fmap_is_Some.
Qed.

Lemma regions_only_foldl {A} (key : A -> string)
    (fn : A -> Live.Element -> Live.Element) (l : list A)
    (m : gmap string Live.Element) :
  Forall (fun x => key x ∈ Live.regions) l ->
  Spec.regions_only m (foldl (fun m x => alter (fn x) (key x) m) m l).
Proof.
  revert m. induction l as [|x l IH]; simpl; intros m H.
  - apply regions_only_refl.
  - apply Forall_cons in H as [Hx H].
    eapply regions_only_trans; [by apply regions_only_alter|by apply IH].
Qed.

Lemma regions_only_updateUI (d : Live.Json) (m : gmap string Live.Element) :
  Spec.regions_only m
    (foldl (fun m p => alter (Live.showText p.2) p.1 m) m (Live.updates d)).
Proof.
  apply (regions_only_foldl fst (fun p => Live.showText p.2)).
  unfold Live.updates, Live.regions. repeat constructor; simpl; in_list.
Qed.

Lemma regions_only_loading (m : gmap string Live.Element) :
  Spec.regions_only m
    (foldl (fun m i => alter (Live.showLoading "â³ Loading...") i m) m
       Live.regions).
Proof.
  apply (regions_only_foldl (fun i => i)
           (fun _ => Live.showLoading "â³ Loading...")).
  unfold Live.regions. repeat constructor; in_list.
Qed.

Lemma regions_only_error (msg : string) (m : gmap string Live.Element) :
  Spec.regions_only m
    (alter (Live.showExplanation msg) "live-plot"
       (foldl (fun m i => alter Live.showNA i m) m Live.regions)).
Proof.
  apply (regions_only_trans m
           (foldl (fun m i => alter Live.showNA i m) m Live.regions)).
  - apply (regions_only_foldl (fun i => i) (fun _ => Live.showNA)).
    unfold Live.regions. repeat constructor; in_list.
  - apply regions_only_alter. unfold Live.regions. in_list.
Qed.

Local Opaque Live.updateUI Live.updateUILoading Live.updateUIWithError
  Live.catchBlock Live.notOk Live.getInherited.

Ltac unfold_dom :=
  repeat (cbn [Live.dom Live.with_console Live.with_requests Live.with_state
               Live.with_timers Live.with_dom] in *;
          match goal with
          | H : Live.dom ?v = _ |- context [Live.dom ?v] => rewrite H; clear H
          end).

Ltac regions_chain :=
  unfold_dom;
  first [ apply regions_only_refl
        | apply regions_only_updateUI
        | apply regions_only_loading
        | apply regions_only_error
        | eapply regions_only_trans;
          [|first [apply regions_only_updateUI | apply regions_only_error]];
          apply regions_only_loading ].

(** A request for a title that is not cached touches the five regions
    only, whatever the network does. *)
Lemma load_miss_dom (net : string -> Js.FetchResult Live.Json) (w : Live.World)
    (t : string) :
  Live.movieTitle w = Some t -> t <> EmptyString ->
  Live.liveMovieState w !! t = None ->
  exists w', Live.loadLiveMovieData net w = (Js.Normal tt, w')
    /\ Spec.regions_only (Live.dom w) (Live.dom w')
    /\ Live.movieTitle w' = Live.movieTitle w.
Proof.
  intros Ht Hne Hc.
  unfold Live.loadLiveMovieData, Js.try_catch, Live.tryBlock.
  rewrite Ht, (truthy_nonempty t Hne). cbv iota.
  unfold Js.bind, Live.getFromState, Live.console_call, Js.modify,
    Live.fetch, Js.lift, Js.ret, Live.saveToState.
  simpl. rewrite Hc. run_ui. run_ui.
  destruct (net (Live.functionUrl t)) as [m|resp].
  { run_ui. eexists. split; [reflexivity|].
    split; [regions_chain | simpl in *; congruence]. }
  destruct (Js.ok resp); simpl.
  2:{ run_ui. run_ui. eexists. split; [reflexivity|].
      split; [regions_chain | simpl in *; congruence]. }
  destruct (Js.json resp) as [d|m]; unfold Js.bind; simpl.
  2:{ run_ui. eexists. split; [reflexivity|].
      split; [regions_chain | simpl in *; congruence]. }
  run_ui. eexists. split; [reflexivity|].
  split; [regions_chain | simpl in *; congruence].
Qed.

(** X19.  A request never throws and never harms the page: it completes
    normally whatever the page, the cache and the network are; it makes at
    most one call, to the function url of the page's title; it changes no
    element other than the five live regions and adds or removes none; and
    it changes no cache entry other than the one of the page's title. *)
Theorem loadLiveMovieData_contained
    (net : string -> Js.FetchResult Live.Json) (w : Live.World) :
  let w' := Live.exec (Live.loadLiveMovieData net) w in
  (Live.loadLiveMovieData net w).1 = Js.Normal tt
  /\ (Live.requests w' = Live.requests w
      \/ exists t, Live.movieTitle w = Some t
           /\ Live.requests w' = Live.requests w ++ [Live.functionUrl t])
  /\ Spec.regions_only (Live.dom w) (Live.dom w')
  /\ (forall k, Live.movieTitle w <> Some k ->
        Live.liveMovieState w' !! k = Live.liveMovieState w !! k)
  /\ Live.movieTitle w' = Live.movieTitle w.
Proof.
  intros w'. subst w'. unfold Live.exec.
  destruct (Live.movieTitle w) as [t|] eqn:Ht.
  2:{ unfold Live.loadLiveMovieData, Js.try_catch, Live.tryBlock.
      rewrite Ht. simpl. split; [done|]. split; [by left|].
      split; [apply regions_only_refl|]. by split. }
  destruct (decide (t = EmptyString)) as [->|Hne].
  { destruct (load_empty_title net w Ht) as (w1 & E & D & (F1 & F2 & F3 & F4)).
    rewrite E. simpl. split; [done|]. split; [by left|].
    split; [rewrite D; apply regions_only_error|].
    split; [intros k _; by rewrite F2 | congruence]. }
  destruct (Live.liveMovieState w !! t) as [e|] eqn:Hc.
  { destruct (load_hit net w t e Ht Hne Hc) as (w1 & E & D & (F1 & F2 & F3 & F4)).
    rewrite E. simpl. split; [done|]. split; [by left|].
    split; [rewrite D; apply regions_only_updateUI|].
    split; [intros k _; by rewrite F2 | congruence]. }
  destruct (load_miss net w t Ht Hne Hc) as (w1 & E & R & C).
  destruct (load_miss_dom net w t Ht Hne Hc) as (w1' & E' & D & T).
  rewrite E in E'. injection E' as <-.
  rewrite E. simpl. split; [done|].
  split; [right; by exists t|]. split; [done|].
  split; [|congruence]. intros k Hk. apply C. congruence.
Qed.

Local Transparent Live.notOk.

Lemma notOk_thrown (resp : Js.Response Live.Json) (w : Live.World) :
  exists w', Live.notOk resp w = (Js.Throw (Spec.thrown resp), w')
    /\ Live.dom w' = Live.dom w /\ Spec.frame w w'.
Proof.
  unfold Spec.thrown, Live.notOk, Js.bind, Js.try_catch, Js.lift, Js.throw,
    Js.ret, Live.console_call, Js.modify.
  destruct (Js.content_type resp) as [ct|];
    [destruct (Js.truthy_str ct && Js.includes ct "text/html")|];
    try (eexists; split; [reflexivity|]; by repeat split).
  all: destruct (Js.json resp) as [e|m]; cbv beta iota zeta;
    match goal with
    | |- context [Js.includes ?m "Serverless function"] =>
        destruct (Js.includes m "Serverless function")
    end;
    eexists; (split; [reflexivity|]); by repeat split.
Qed.

Local Opaque Live.notOk.

(** A request that is not cached and fails: the error rendering over the
    loading state, with nothing cached. *)
Lemma load_fail (net : string -> Js.FetchResult Live.Json) (w : Live.World)
    (t : string) :
  Live.movieTitle w = Some t -> t <> EmptyString ->
  Live.liveMovieState w !! t = None ->
  Spec.fails net ->
  exists w' m, Live.loadLiveMovieData net w = (Js.Normal tt, w')
    /\ Live.dom w'
       = alter (Live.showExplanation m) "live-plot"
           (foldl (fun m i => alter Live.showNA i m)
              (foldl (fun m i => alter (Live.showLoading "â³ Loading...") i m)
                 (Live.dom w) Live.regions)
              Live.regions)
    /\ Live.liveMovieState w' = Live.liveMovieState w
    /\ Live.movieTitle w' = Live.movieTitle w
    /\ (forall resp, net (Live.functionUrl t) = Js.Resolved resp ->
          Js.ok resp = false -> m = Spec.thrown resp).
Proof.
  intros Ht Hne Hc Hfail. specialize (Hfail (Live.functionUrl t)).
  unfold Live.loadLiveMovieData, Js.try_catch, Live.tryBlock.
  rewrite Ht, (truthy_nonempty t Hne). cbv iota.
  unfold Js.bind, Live.getFromState, Live.console_call, Js.modify,
    Live.fetch, Js.lift, Js.ret, Live.saveToState.
  simpl. rewrite Hc. run_ui. run_ui.
  destruct (net (Live.functionUrl t)) as [m|resp].
  { run_ui. do 2 eexists. split; [reflexivity|].
    split; [by unfold_dom|]. simpl in *.
    split; [congruence|]. split; [congruence|]. by intros resp. }
  destruct (Js.ok resp) eqn:Eo; simpl.
  2:{ destruct (notOk_thrown resp
                  (Live.with_requests (fun r => r ++ [Live.functionUrl t])
                     (Live.with_console
                        (fun c => c ++ [(Js.LLog,
                           ["ğŸŒ Fetching from: " +:+ Live.functionUrl t])]) w0)))
        as (w1 & -> & ? & (? & ? & ? & ?)).
      run_ui. do 2 eexists. split; [reflexivity|].
      split; [by unfold_dom|]. simpl in *.
      split; [congruence|]. split; [congruence|]. by intros resp' [= <-]. }
  destruct Hfail as [Hfail|[m Hm]]; [done|]. rewrite Hm.
  run_ui. do 2 eexists. split; [reflexivity|].
  split; [by unfold_dom|]. simpl in *.
  split; [congruence|]. split; [congruence|]. intros resp' [= <-]. congruence.
Qed.

Ltac lookup_regions := simpl foldl; lookup_alters.

(** X20.  A failed request is not remembered: when every request fails, a
    request for a title that is not cached calls the endpoint once, leaves
    the cache as it was and renders the error state (the regions on the
    page show ["N/A"], the plot region an explanation); the next request
    for the page calls the endpoint again. *)
Theorem failed_request_not_cached
    (net net2 : string -> Js.FetchResult Live.Json) (w : Live.World)
    (t : string) :
  Live.movieTitle w = Some t -> t <> EmptyString ->
  Live.liveMovieState w !! t = None ->
  Spec.fails net ->
  let w' := Live.exec (Live.loadLiveMovieData net) w in
  Live.liveMovieState w' = Live.liveMovieState w
  /\ Live.requests w' = Live.requests w ++ [Live.functionUrl t]
  /\ (forall i, i ∈ ["live-rating"; "live-runtime"; "live-genre"; "live-actors"] ->
        is_Some (Live.dom w !! i) -> Spec.text w' i = Some "N/A")
  /\ (is_Some (Live.dom w !! "live-plot") ->
        exists m, Spec.text w' "live-plot" = Some (Live.explanation m))
  /\ Live.requests (Live.exec (Live.loadLiveMovieData net2) w')
     = Live.requests w' ++ [Live.functionUrl t].
Proof.
  intros Ht Hne Hc Hfail w'. subst w'. unfold Live.exec.
  destruct (load_fail net w t Ht Hne Hc Hfail) as (w1 & m & E & D & C & T & _).
  destruct (load_miss net w t Ht Hne Hc) as (w1' & E' & R & _).
  rewrite E in E'. injection E' as <-. rewrite E. simpl.
  assert (Live.liveMovieState w1 !! t = None) as Hc1 by (by rewrite C).
  destruct (load_miss net2 w1 t (eq_trans T Ht) Hne Hc1) as (w2 & E2 & R2 & _).
  rewrite E2. simpl.
  split; [done|]. split; [done|]. split; [|split; [|done]].
  - intros i Hi [e He]. unfold Spec.text. rewrite D.
    repeat (apply elem_of_cons in Hi as [->|Hi]);
      [..|by apply elem_of_nil in Hi];
      lookup_regions; by rewrite He.
  - intros [e He]. exists m. unfold Spec.text. rewrite D.
    lookup_regions. by rewrite He.
Qed.

(** X20 on the Inception page against a network that answers 500. *)
Lemma failed_request_not_cached_witness :
  Live.liveMovieState
    (Live.exec (Live.loadLiveMovieData Samples.status500)
       (Samples.pageWith (Some "Inception"))) = ∅
  /\ Live.requests
       (Live.exec (Live.loadLiveMovieData Samples.status500)
          (Samples.pageWith (Some "Inception")))
     = [] ++ [Live.functionUrl "Inception"].
Proof.
  destruct (failed_request_not_cached Samples.status500 Samples.status500
              (Samples.pageWith (Some "Inception")) "Inception")
    as (Hc & Hr & _); try reflexivity; try discriminate.
  - intros url. left. reflexivity.
  - split; [exact Hc | exact Hr].
Defined.

(** A request depends on the network only through the answer to the
    function url of the page's title. *)
Lemma load_miss_ok_any (net net' : string -> Js.FetchResult Live.Json)
    (w : Live.World) (t : string) (resp : Js.Response Live.Json) :
  Live.movieTitle w = Some t ->
  net (Live.functionUrl t) = net' (Live.functionUrl t) ->
  Live.loadLiveMovieData net w = Live.loadLiveMovieData net' w.
Proof.
  intros Ht Hn.
  unfold Live.loadLiveMovieData, Js.try_catch, Live.tryBlock.
  rewrite Ht. unfold Js.bind, Live.fetch. by rewrite Hn.
Qed.

(** X21.  What the page shows for an answer outside 200-299, on a page
    with a plot region and a title that is not cached.  For an HTML answer
    the plot region tells that live data needs the Netlify deployment.
    Otherwise, unless the error's text mentions [Serverless function], the
    message in the answer is dropped for [Failed to load data (HTTP n)]: a
    404 then shows the text about movies missing from OMDB, and a 500 the
    generic text with the status. *)
Theorem error_status_rendering
    (net : string -> Js.FetchResult Live.Json) (w : Live.World) (t : string)
    (resp : Js.Response Live.Json) :
  Live.movieTitle w = Some t -> t <> EmptyString ->
  Live.liveMovieState w !! t = None ->
  is_Some (Live.dom w !! "live-plot") ->
  net (Live.functionUrl t) = Js.Resolved resp ->
  Js.ok resp = false ->
  let w' := Live.exec (Live.loadLiveMovieData net) w in
  Spec.text w' "live-plot" = Some (Live.explanation (Spec.thrown resp))
  /\ (Spec.is_html resp ->
      Spec.text w' "live-plot"
      = Some "Live data available only on Netlify deployment. This movie may also not be in OMDB database.")
  /\ (~ Spec.is_html resp ->
      Js.includes (Spec.thrown resp) "Serverless function" = false ->
      Spec.thrown resp
      = "Failed to load data (HTTP " +:+ Js.num_str (Js.status resp) +:+ ")"
      /\ (Js.status resp = 404 ->
          Spec.text w' "live-plot" = Some Live.notInOmdb)
      /\ (Js.status resp = 500 ->
          Spec.text w' "live-plot"
          = Some "Unable to load live data: Failed to load data (HTTP 500)")).
Proof.
  intros Ht Hne Hc [e He] Hn Ho w'.
  assert (Spec.fails (fun url => Js.Resolved resp)) as Hfail
    by (intros url; by left).
  assert (Spec.text w' "live-plot"
          = Some (Live.explanation (Spec.thrown resp))) as Htext.
  { subst w'. unfold Live.exec.
    destruct (load_fail (fun _ => Js.Resolved resp) w t Ht Hne Hc Hfail)
      as (w1 & m & E & D & _ & _ & Hm).
    rewrite (load_miss_ok_any net (fun _ => Js.Resolved resp) w t resp Ht Hn).
    rewrite E. simpl. rewrite (Hm resp eq_refl Ho) in D.
    unfold Spec.text. rewrite D. lookup_regions. by rewrite He. }
  split; [done|]. rewrite Htext. split.
  - intros (ct & Hct & Hhtml). do 2 f_equal.
    unfold Spec.thrown. by rewrite Hct, Hhtml.
  - intros Hnot Hplain.
    assert (Spec.thrown resp
            = "Failed to load data (HTTP " +:+ Js.num_str (Js.status resp)
              +:+ ")") as Hthrown.
    { unfold Spec.thrown in Hplain |- *.
      destruct (Js.content_type resp) as [ct|] eqn:Hct.
      - destruct (Js.truthy_str ct && Js.includes ct "text/html") eqn:Hh.
        + exfalso. apply Hnot. by exists ct.
        + destruct (Js.json resp) as [d|m]; cbv zeta beta in *;
            match goal with
            | |- context [Js.includes ?m "Serverless function"] =>
                destruct (Js.includes m "Serverless function") eqn:Ei
            end; congruence.
      - destruct (Js.json resp) as [d|m]; cbv zeta beta in *;
          match goal with
          | |- context [Js.includes ?m "Serverless function"] =>
              destruct (Js.includes m "Serverless function") eqn:Ei
          end; congruence. }
    split; [done|]. rewrite Hthrown.
    split; intros ->; reflexivity.
Qed.

(** X21 on the Inception page, with the endpoint answering 404 and the
    proxy's envelope: the envelope's message is not what the page shows. *)
Lemma error_status_rendering_witness :
  Spec.text (Live.exec (Live.loadLiveMovieData Samples.notFound404)
               (Samples.pageWith (Some "Inception"))) "live-plot"
  = Some Live.notInOmdb.
Proof.
  destruct (Samples.notFound404 (Live.functionUrl "Inception")) as [m|resp] eqn:E;
    [discriminate|].
  injection E as <-.
  destruct (error_status_rendering Samples.notFound404
              (Samples.pageWith (Some "Inception")) "Inception" _
              eq_refl ltac:(discriminate) eq_refl ltac:(by eexists)
              eq_refl eq_refl)
    as (_ & _ & H).
  apply H.
  - intros (ct & [= <-] & Hct). vm_compute in Hct. discriminate.
  - reflexivity.
  - reflexivity.
Defined.

(** ** The render after the timers have fired *)

Local Transparent Live.updateUI.

Lemma updateElement_run (p : string * string) (w : Live.World) :
  exists w', Live.updateElement p w = (Js.Normal tt, w')
    /\ (forall x, x ∈ Live.timers w -> x ∈ Live.timers w')
    /\ (is_Some (Live.dom w !! p.1) -> p.1 ∈ Live.timers w')
    /\ (forall j, is_Some (Live.dom w' !! j) <-> is_Some (Live.dom w !! j)).
Proof.
  unfold Live.updateElement. destruct (Live.dom w !! p.1) as [e|] eqn:E.
  - eexists. split; [reflexivity|]. simpl.
    split; [intros x Hx; apply elem_of_app; by left|].
    split; [intros _; apply elem_of_app; right; left|].
    intros j. rewrite lookup_alter. case_decide; [subst|done].
    by rewrite fmap_is_Some.
  - exists w. split; [done|]. split; [done|].
    split; [by intros [? ?]|done].
Qed.

Lemma forEach_updateElement_timers (l : list (string * string)) (w : Live.World) :
  exists w', Live.forEach l Live.updateElement w = (Js.Normal tt, w')
    /\ (forall x, x ∈ Live.timers w -> x ∈ Live.timers w')
    /\ (forall p, p ∈ l -> is_Some (Live.dom w !! p.1) -> p.1 ∈ Live.timers w')
    /\ (forall j, is_Some (Live.dom w' !! j) <-> is_Some (Live.dom w !! j)).
Proof.
  revert w. induction l as [|p l IH]; intros w; simpl.
  - exists w. split; [done|]. split; [done|].
    split; [intros p Hp; by apply elem_of_nil in Hp|done].
  - destruct (updateElement_run p w) as (w1 & E1 & K1 & N1 & S1).
    destruct (IH w1) as (w2 & E2 & K2 & N2 & S2).
    exists w2. unfold Js.bind. rewrite E1, E2.
    split; [done|]. split; [intros x Hx; by apply K2, K1|].
    split.
    + intros q Hq Hs. apply elem_of_cons in Hq as [->|Hq].
      * by apply K2, N1.
      * apply N2; [done|]. by apply S1.
    + intros j. by rewrite S2, S1.
Qed.

(** After [updateUI] a fade-in timer is pending for every region the page
    has. *)
Lemma updateUI_timers (d : Live.Json) (w : Live.World) (p : string * string) :
  p ∈ Live.updates d -> is_Some (Live.dom w !! p.1) ->
  p.1 ∈ Live.timers (Live.updateUI d w).2.
Proof.
  intros Hp Hs. unfold Live.updateUI, Js.bind.
  destruct (forEach_updateElement_timers (Live.updates d) w)
    as (w1 & -> & _ & N & _).
  simpl. by apply N.
Qed.

Local Opaque Live.updateUI.

(** A successful request ends in [updateUI] over the loading state. *)
Lemma load_miss_ok_last (net : string -> Js.FetchResult Live.Json)
    (w : Live.World) (t : string) (resp : Js.Response Live.Json)
    (d : Live.Json) :
  Live.movieTitle w = Some t -> t <> EmptyString ->
  Live.liveMovieState w !! t = None ->
  net (Live.functionUrl t) = Js.Resolved resp ->
  Js.ok resp = true -> Js.json resp = Js.Normal d ->
  exists w0, Live.loadLiveMovieData net w = Live.updateUI d w0
    /\ Live.dom w0
       = foldl (fun m i => alter (Live.showLoading "â³ Loading...") i m)
           (Live.dom w) Live.regions.
Proof.
  intros Ht Hne Hc Hn Ho Hj.
  unfold Live.loadLiveMovieData, Js.try_catch, Live.tryBlock.
  rewrite Ht, (truthy_nonempty t Hne). cbv iota.
  unfold Js.bind, Live.getFromState, Live.console_call, Js.modify,
    Live.fetch, Js.lift, Js.ret, Live.saveToState.
  simpl. rewrite Hc. run_ui. run_ui. rewrite Hn, Ho. simpl. rewrite Hj.
  unfold Js.bind. simpl.
  match goal with
  | |- context [Live.updateUI d ?v] =>
      exists v; destruct (renders_updateUI d v) as (w' & E & _); rewrite E
  end.
  split; [reflexivity|]. by unfold_dom.
Qed.

Lemma runTimers_dom (w : Live.World) :
  exists w', Live.runTimers w = (Js.Normal tt, w')
    /\ Live.timers w' = []
    /\ Live.dom w'
       = foldl (fun m i => alter Live.faded i m) (Live.dom w) (Live.timers w).
Proof.
  destruct (renders_forEach (Live.timers w) Live.fadeIn
              (fun i => alter Live.faded i)
              (fun i => renders_patch i Live.faded) w)
    as (w1 & E & D & _).
  unfold Live.runTimers, Js.bind. rewrite E.
  eexists. split; [reflexivity|]. by split.
Qed.

Lemma faded_fold (l : list string) (j : string) (e : Live.Element) :
  foldl (fun e x => if decide (x = j) then Live.faded e else e)
    (Live.faded e) l = Live.faded e.
Proof.
  induction l as [|x l IH]; simpl; [done|]. by case_decide.
Qed.

Lemma faded_fold_in (l : list string) (j : string) (e : Live.Element) :
  j ∈ l ->
  foldl (fun e x => if decide (x = j) then Live.faded e else e) e l
  = Live.faded e.
Proof.
  revert e. induction l as [|x l IH]; intros e Hj; simpl.
  - by apply elem_of_nil in Hj.
  - case_decide as E.
    + apply faded_fold.
    + apply IH. apply elem_of_cons in Hj as [->|Hj]; [done|exact Hj].
Qed.

Lemma rendered_at (d : Live.Json) (p : string * string) (e : Live.Element) :
  p ∈ Live.updates d -> Spec.rendered d p.1 e = Live.showText p.2 e.
Proof.
  intros Hp. unfold Spec.rendered, Live.updates in *.
  repeat (apply elem_of_cons in Hp as [->|Hp]); [..|by apply elem_of_nil in Hp];
    simpl; repeat case_decide; done.
Qed.

(** After a successful request for a title that was not cached, and once
    the fade-in timers have fired, no timer is pending and every live
    region the page has shows the text [updateUI] assigned to it. *)
Lemma final_render
    (net : string -> Js.FetchResult Live.Json) (w : Live.World) (t : string)
    (resp : Js.Response Live.Json) (d : Live.Json) :
  Live.movieTitle w = Some t -> t <> EmptyString ->
  Live.liveMovieState w !! t = None ->
  net (Live.functionUrl t) = Js.Resolved resp ->
  Js.ok resp = true -> Js.json resp = Js.Normal d ->
  let w2 := Live.exec Live.runTimers
              (Live.exec (Live.loadLiveMovieData net) w) in
  Live.timers w2 = []
  /\ forall p, p ∈ Live.updates d -> is_Some (Live.dom w !! p.1) ->
       Live.dom w2 !! p.1 = Some (Spec.settled p.2).
Proof.
  intros Ht Hne Hc Hn Ho Hj w2. subst w2. unfold Live.exec.
  destruct (load_miss_ok_last net w t resp d Ht Hne Hc Hn Ho Hj)
    as (w0 & E & D0).
  rewrite E.
  destruct (renders_updateUI d w0) as (w1 & E1 & D1 & _).
  destruct (runTimers_dom (Live.updateUI d w0).2) as (v & Ev & Tv & Dv).
  rewrite Ev. simpl. split; [done|].
  intros p Hp Hs.
  assert (is_Some (Live.dom w0 !! p.1)) as Hs0.
  { rewrite D0. by apply (regions_only_loading (Live.dom w)). }
  pose proof (updateUI_timers d w0 p Hp Hs0) as Hin.
  rewrite Dv, (foldl_alter_lookup (fun x => x) (fun _ => Live.faded)).
  rewrite E1 in Hin |- *. simpl in Hin |- *. rewrite D1, updateUI_lookup.
  destruct Hs0 as [e He]. rewrite He. simpl.
  rewrite faded_fold_in by done.
  rewrite rendered_at by done. reflexivity.
Qed.

(** X22.  After a successful request for a title that was not cached, and
    once the fade-in timers have fired, no timer is pending and every live
    region the page has is upright, in the inherited colour and fully
    opaque, and shows its value from the answer: the runtime, genre,
    actors and plot regions the answer's member of that name (nothing if
    the answer has none), and the rating region [N/A] if that is the
    answer's [imdbRating], and otherwise the rating (or [undefined])
    between the source's prefix and [/10]. *)
Theorem success_final_render
    (net : string -> Js.FetchResult Live.Json) (w : Live.World) (t : string)
    (resp : Js.Response Live.Json) (d : Live.Json) :
  Live.movieTitle w = Some t -> t <> EmptyString ->
  Live.liveMovieState w !! t = None ->
  net (Live.functionUrl t) = Js.Resolved resp ->
  Js.ok resp = true -> Js.json resp = Js.Normal d ->
  let w2 := Live.exec Live.runTimers
              (Live.exec (Live.loadLiveMovieData net) w) in
  let shows (i text : string) :=
    is_Some (Live.dom w !! i) -> Live.dom w2 !! i = Some (Spec.settled text) in
  Live.timers w2 = []
  /\ (Live.imdbRating d = Some "N/A" -> shows "live-rating" "N/A")
  /\ (forall r, Live.imdbRating d = Some r -> r <> "N/A" ->
        shows "live-rating" ("â­ " +:+ r +:+ "/10"))
  /\ (Live.imdbRating d = None ->
        shows "live-rating" ("â­ " +:+ "undefined" +:+ "/10"))
  /\ shows "live-runtime" (default EmptyString (Live.runtime d))
  /\ shows "live-genre" (default EmptyString (Live.genre d))
  /\ shows "live-actors" (default EmptyString (Live.actors d))
  /\ shows "live-plot" (default EmptyString (Live.plot d)).
Proof.
  intros Ht Hne Hc Hn Ho Hj w2 shows.
  destruct (final_render net w t resp d Ht Hne Hc Hn Ho Hj) as [Htimers H].
  fold w2 in Htimers, H. split; [exact Htimers|].
  assert (forall i text, (i, text) ∈ Live.updates d -> shows i text) as Hshow
    by (intros i text Hin Hs; by apply (H (i, text))).
  clearbody w2. clear H Htimers. unfold Live.updates in Hshow.
  split.
  { intros Hr. apply Hshow. rewrite Hr, bool_decide_eq_true_2 by done. left. }
  split.
  { intros r Hr Hna. apply Hshow.
    rewrite Hr, bool_decide_eq_false_2 by congruence. left. }
  split.
  { intros Hr. apply Hshow. rewrite Hr, bool_decide_eq_false_2 by done. left. }
  repeat split; apply Hshow; unfold Live.toText; in_list.
Qed.

(** X22 on the Inception page: the rating region at the end. *)
Lemma success_final_render_witness :
  Live.dom
    (Live.exec Live.runTimers
       (Live.exec (Live.loadLiveMovieData (Samples.answers Samples.liveInception))
          (Samples.pageWith (Some "Inception")))) !! "live-rating"
  = Some (Spec.settled ("â­ " +:+ "8.8" +:+ "/10")).
Proof.
  destruct (success_final_render (Samples.answers Samples.liveInception)
              (Samples.pageWith (Some "Inception")) "Inception"
              {| Js.status := 200; Js.content_type := Some "application/json";
                 Js.json := Js.Normal Samples.liveInception |}
              Samples.liveInception
              eq_refl ltac:(discriminate) eq_refl eq_refl eq_refl eq_refl)
    as (_ & _ & H & _).
  apply (H "8.8" eq_refl); [discriminate|]. by eexists.
Defined.

Local Transparent Live.updateUI Live.updateUILoading Live.updateUIWithError
  Live.catchBlock Live.notOk Live.getInherited.

(** ** The global data file *)

(** X23.  The data file [allMoviesList] returns, for every state of the
    snapshot file, the remote records the [allMovies] callback reads from
    it, and writes to the console only when the file cannot be parsed.
    After a run of the snapshot step it returns the records the step wrote
    and logs nothing. *)
Theorem allMoviesList_agrees (f : Eleventy.SnapshotFile) :
  (AllMoviesList.allMoviesList f).1 = Eleventy.cmsMovies f
  /\ ((AllMoviesList.allMoviesList f).2 <> [] <-> f = Eleventy.Unparsable)
  /\ (forall env net w,
        AllMoviesList.allMoviesList
          (Build.snapshotFile (FetchCms.fetchContentfulData env net w).2)
        = (Build.parsedMovie <$> Build.written env net, [])).
Proof.
  split; [by destruct f as [| |[ms|]]|].
  split.
  - destruct f as [| |[ms|]]; simpl; split; try done; by intros [].
  - intros env net w. unfold Build.snapshotFile.
    destruct (fetchContentfulData_files env net w) as [_ ->].
    by rewrite lookup_insert_eq.
Qed.
